(** * clawworker: access gate, pairing approval and R2 synchronisation

    A shallow embedding of
      - [src/auth/middleware.ts]  (access middleware, token extraction),
      - [src/config.ts]           (bucket name, gateway token),
      - [src/gateway/r2.ts]       (rclone with a freshly written config),
      - [src/gateway/sync.ts]     (syncToR2),
      - [src/routes/api.ts]       (device, storage and update routes),
      - [src/client/pages/AdminPage.tsx] and the setup wizard (helpers),
    followed by the properties established about them.

    JavaScript strings are modelled as [string]; one [ascii] stands for one
    code unit.  A value of type [string | undefined] (or [| null]) is an
    [option string]. *)

From Stdlib Require Import String Ascii List ZArith Lia Bool Arith.
From Stdlib Require Import DecimalString.
Import ListNotations.
Local Open Scope string_scope.

(* ------------------------------------------------------------------ *)
(** ** JavaScript string primitives used by the sources *)

Module Js.

(** Truthiness of a [string | undefined]: defined and non-empty. *)
Definition truthyStr (s : string) : bool := negb (s =? "").

Definition truthy (o : option string) : bool :=
  match o with
  | Some s => truthyStr s
  | None => false
  end.

(** [a || b] on two optional strings, and [a || 'literal']. *)
Definition orElse (a b : option string) : option string :=
  if truthy a then a else b.

Definition orDefault (a : option string) (d : string) : string :=
  match a with
  | Some s => if truthyStr s then s else d
  | None => d
  end.

(** [a ?? b]. *)
Definition nullish {A : Type} (a b : option A) : option A :=
  match a with
  | Some _ => a
  | None => b
  end.

(** [a === b] where either side may be undefined. *)
Definition strictEqOpt (a : option string) (b : string) : bool :=
  match a with
  | Some s => s =? b
  | None => false
  end.

Definition dq : string := String (ascii_of_nat 34) EmptyString.
Definition nl : ascii := ascii_of_nat 10.
Definition cr : ascii := ascii_of_nat 13.
Definition NL : string := String nl EmptyString.

(** White space removed by [String.prototype.trim], for code units
    below 256: TAB, LF, VT, FF, CR, SPACE and NBSP. *)
Definition isWhite (c : ascii) : bool :=
  let n := nat_of_ascii c in
  (((9 <=? n) && (n <=? 13)) || (n =? 32) || (n =? 160))%nat.

Fixpoint dropWhite (l : list ascii) : list ascii :=
  match l with
  | [] => []
  | c :: rest => if isWhite c then dropWhite rest else l
  end.

Definition trim (s : string) : string :=
  string_of_list_ascii
    (rev (dropWhite (rev (dropWhite (list_ascii_of_string s))))).

(** [s?.trim()]. *)
Definition trimOpt (o : option string) : option string := option_map trim o.

(** [s.replace(/\r?\n/g, '')]. *)
Fixpoint stripNewlines (s : string) : string :=
  match s with
  | EmptyString => EmptyString
  | String c rest =>
      if Ascii.eqb c nl then stripNewlines rest
      else if Ascii.eqb c cr then
        match rest with
        | String d rest' =>
            if Ascii.eqb d nl then stripNewlines rest'
            else String c (stripNewlines rest)
        | EmptyString => String c EmptyString
        end
      else String c (stripNewlines rest)
  end.

(** [parts.join(sep)]. *)
Fixpoint join (sep : string) (parts : list string) : string :=
  match parts with
  | [] => ""
  | [p] => p
  | p :: rest => p ++ sep ++ join sep rest
  end.

(** [parts.filter(Boolean)] on strings. *)
Definition filterBoolean (parts : list string) : list string :=
  filter truthyStr parts.

(** [s.slice(-n)] for a positive [n]: the last [n] code units. *)
Definition sliceLast (n : nat) (s : string) : string :=
  substring (String.length s - n) n s.

(** [s.slice(0, n)]. *)
Definition sliceFirst (n : nat) (s : string) : string := substring 0 n s.

(** [s.startsWith(p)] and [s.includes(p)]. *)
Definition startsWith (p s : string) : bool := prefix p s.

Fixpoint includes (p s : string) : bool :=
  prefix p s ||
  match s with
  | EmptyString => false
  | String _ rest => includes p rest
  end.

Definition lowerChar (c : ascii) : ascii :=
  let n := nat_of_ascii c in
  if ((65 <=? n) && (n <=? 90))%nat then ascii_of_nat (n + 32) else c.

Fixpoint toLowerCase (s : string) : string :=
  match s with
  | EmptyString => EmptyString
  | String c rest => String (lowerChar c) (toLowerCase rest)
  end.

(** [s.split(sep)] for a one-character separator. *)
Fixpoint split (sep : ascii) (s : string) : list string :=
  match s with
  | EmptyString => [EmptyString]
  | String c rest =>
      if Ascii.eqb c sep then EmptyString :: split sep rest
      else match split sep rest with
           | x :: xs => String c x :: xs
           | [] => [String c EmptyString]
           end
  end.

(** Template-literal rendering of a non-negative integer. *)
Definition showNat (n : nat) : string :=
  NilEmpty.string_of_uint (Nat.to_uint n).

(** What a [catch] clause receives: an [Error] with its message, or
    any other thrown value. *)
Inductive Exn : Type :=
| ErrorObj (message : string)
| OtherThrown.

(** [err instanceof Error ? err.message : fallback]. *)
Definition messageOr (fallback : string) (e : Exn) : string :=
  match e with
  | ErrorObj m => m
  | OtherThrown => fallback
  end.

(** Outcome of awaiting a promise: fulfilled or rejected. *)
Inductive Res (A : Type) : Type :=
| Ok (a : A)
| Thrown (e : Exn).
Arguments Ok {A} a.
Arguments Thrown {A} e.

End Js.
Import Js.

(* ------------------------------------------------------------------ *)
(** ** Worker environment and [src/config.ts] *)

Record MoltbotEnv : Type := mkEnv {
  DEV_MODE : option string;
  E2E_TEST_MODE : option string;
  CF_ACCESS_TEAM_DOMAIN : option string;
  CF_ACCESS_AUD : option string;
  GATEWAY_TOKEN : option string;
  MOLTBOT_GATEWAY_TOKEN : option string;
  R2_ACCESS_KEY_ID : option string;
  R2_SECRET_ACCESS_KEY : option string;
  CF_ACCOUNT_ID : option string;
  R2_BUCKET_NAME : option string
}.

Module Config.

(** [env?.R2_BUCKET_NAME || 'clawworker-data']. *)
Definition getR2BucketName (env : MoltbotEnv) : string :=
  orDefault (R2_BUCKET_NAME env) "clawworker-data".

(** [env.GATEWAY_TOKEN ?? env.MOLTBOT_GATEWAY_TOKEN]. *)
Definition getGatewayToken (env : MoltbotEnv) : option string :=
  nullish (GATEWAY_TOKEN env) (MOLTBOT_GATEWAY_TOKEN env).

End Config.
Import Config.

(* ------------------------------------------------------------------ *)
(** ** [src/auth/middleware.ts] *)

Module Auth.

(** The part of the Hono context the middleware reads: request headers
    ([c.req.header(name)], [c.req.raw.headers.get(name)]) and the query
    string of [c.req.url] as [URLSearchParams] sees it, pairs in URL
    order. *)
Record Request : Type := mkRequest {
  header : string -> option string;
  searchParams : list (string * string)
}.

(** [url.searchParams.get(name)]: the first value stored under [name]. *)
Fixpoint searchParamsGet (name : string) (params : list (string * string))
  : option string :=
  match params with
  | [] => None
  | (k, v) :: rest => if k =? name then Some v else searchParamsGet name rest
  end.

Record AccessUser : Type := mkUser {
  email : string;
  name : option string
}.

Inductive ResponseType : Type := json | html.

Record AccessMiddlewareOptions : Type := mkOptions {
  type : ResponseType;
  redirectOnMissing : option bool
}.

(** What the middleware hands back to Hono: the value of [next()], or a
    response built with [c.json], [c.html] or [c.redirect]. *)
Inductive Reply : Type :=
| Downstream (r : Res unit)
| JsonReply (body : list (string * string)) (status : Z)
| HtmlReply (body : string) (status : Z)
| RedirectReply (location : string) (status : Z).

(** One run of the middleware: the [accessUser] variable it set (if
    any), whether it invoked [next], and its reply. *)
Record Outcome : Type := mkOutcome {
  accessUser : option AccessUser;
  nextCalled : bool;
  reply : Reply
}.

Definition isDevMode (env : MoltbotEnv) : bool :=
  strictEqOpt (DEV_MODE env) "true".

Definition isE2ETestMode (env : MoltbotEnv) : bool :=
  strictEqOpt (E2E_TEST_MODE env) "true".

(** [cookies.find(cookie => cookie.trim().startsWith('CF_Authorization='))]. *)
Definition findAuthCookie (cookies : list string) : option string :=
  find (fun cookie => startsWith "CF_Authorization=" (trim cookie)) cookies.

Definition extractJWT (c : Request) : option string :=
  let jwtHeader := header c "CF-Access-JWT-Assertion" in
  let jwtCookie :=
    match header c "Cookie" with
    | None => None
    | Some cookieHeader =>
        match findAuthCookie (split ";" cookieHeader) with
        | None => None
        | Some cookie => nth_error (split "=" cookie) 1
        end
    end in
  orElse (orElse jwtHeader jwtCookie) None.

Definition extractGatewayToken (c : Request) : option string :=
  let queryToken := searchParamsGet "token" (searchParams c) in
  let headerToken := header c "X-Gateway-Token" in
  orElse (orElse queryToken headerToken) None.

Definition isBootstrapMode (env : MoltbotEnv) : bool :=
  let hasAccess :=
    truthy (CF_ACCESS_TEAM_DOMAIN env) && truthy (CF_ACCESS_AUD env) in
  negb hasAccess && truthy (getGatewayToken env).

(** [providedToken && gatewayToken && providedToken === gatewayToken]. *)
Definition tokenMatches (providedToken gatewayToken : option string) : bool :=
  truthy providedToken && truthy gatewayToken
  && match providedToken, gatewayToken with
     | Some p, Some g => p =? g
     | _, _ => false
     end.

Fixpoint spaces (n : nat) : string :=
  match n with
  | O => ""
  | S k => String " " (spaces k)
  end.

(** The HTML template literals: [<html>] at column [indent], the body
    lines two levels deeper, the closing back-quote at column [last]. *)
Definition page (indent last : nat) (bodyLines : list string) : string :=
  NL ++ spaces indent ++ "<html>" ++ NL
     ++ spaces (indent + 2) ++ "<body>" ++ NL
     ++ String.concat "" (map (fun l => spaces (indent + 4) ++ l ++ NL) bodyLines)
     ++ spaces (indent + 2) ++ "</body>" ++ NL
     ++ spaces indent ++ "</html>" ++ NL
     ++ spaces last.

Definition bootstrapDeniedJson : list (string * string) :=
  [ ("error", "Unauthorized");
    ("hint", "Add ?token=YOUR_GATEWAY_TOKEN to the URL, or set up Cloudflare Access for production") ].

Definition bootstrapDeniedHtml : string :=
  page 10 8
    [ "<h1>Admin UI - Authentication Required</h1>";
      "<p>Add your gateway token to the URL: <code>/_admin/?token=YOUR_TOKEN</code></p>";
      "<p>Or set up <a href=" ++ dq
        ++ "https://developers.cloudflare.com/cloudflare-one/policies/access/"
        ++ dq ++ ">Cloudflare Access</a> for production (CF_ACCESS_TEAM_DOMAIN, CF_ACCESS_AUD).</p>" ].

Definition notConfiguredJson : list (string * string) :=
  [ ("error", "Cloudflare Access not configured");
    ("hint", "Set CF_ACCESS_TEAM_DOMAIN and CF_ACCESS_AUD, or ensure GATEWAY_TOKEN is set for bootstrap mode") ].

Definition notConfiguredHtml : string :=
  page 8 8
    [ "<h1>Admin UI Not Configured</h1>";
      "<p>Set CF_ACCESS_TEAM_DOMAIN and CF_ACCESS_AUD, or ensure GATEWAY_TOKEN is set.</p>" ].

Definition missingJwtJson : list (string * string) :=
  [ ("error", "Unauthorized");
    ("hint", "Missing Cloudflare Access JWT. Ensure this route is protected by Cloudflare Access.") ].

Definition missingJwtHtml (teamDomain : string) : string :=
  page 10 8
    [ "<h1>Unauthorized</h1>";
      "<p>Missing Cloudflare Access token.</p>";
      "<a href=" ++ dq ++ "https://" ++ teamDomain ++ dq ++ ">Login</a>" ].

Definition invalidJwtJson (err : Exn) : list (string * string) :=
  [ ("error", "Unauthorized");
    ("details", messageOr "JWT verification failed" err) ].

Definition invalidJwtHtml (teamDomain : string) : string :=
  page 10 8
    [ "<h1>Unauthorized</h1>";
      "<p>Your Cloudflare Access session is invalid or expired.</p>";
      "<a href=" ++ dq ++ "https://" ++ teamDomain ++ dq ++ ">Login again</a>" ].

Definition devUser : AccessUser :=
  mkUser "dev@localhost" (Some "Dev User").

Definition bootstrapUser : AccessUser :=
  mkUser "bootstrap" (Some "Setup (Gateway Token)").

(** Reading a reply: its HTTP status, and whether it tells the caller
    how to pass the token. *)
Definition replyStatus (r : Reply) : option Z :=
  match r with
  | Downstream _ => None
  | JsonReply _ status => Some status
  | HtmlReply _ status => Some status
  | RedirectReply _ status => Some status
  end.

Definition describesToken (r : Reply) : bool :=
  match r with
  | JsonReply body _ =>
      existsb (fun kv => (fst kv =? "hint") && includes "?token=" (snd kv)) body
  | HtmlReply body _ => includes "?token=" body
  | _ => false
  end.

(** The request [c] with its [X-Gateway-Token] header set to [value]
    ([None] removes it). *)
Definition withGatewayHeader (value : option string) (c : Request) : Request :=
  mkRequest
    (fun name => if name =? "X-Gateway-Token" then value else header c name)
    (searchParams c).

Section Middleware.

(** [verifyAccessJWT] lives in [./jwt]; it is a parameter here, its
    payload reduced to the [email] and [name] claims the middleware
    reads.  [next] is the outcome of the downstream handler. *)
Variable verifyAccessJWT : string -> string -> string -> Res AccessUser.
Variable next : Res unit.

Definition denied (t : ResponseType) (status : Z)
           (jsonBody : list (string * string)) (htmlBody : string)
           (user : option AccessUser) (called : bool) : Outcome :=
  match t with
  | json => mkOutcome user called (JsonReply jsonBody status)
  | html => mkOutcome user called (HtmlReply htmlBody status)
  end.

Definition createAccessMiddleware
           (options : AccessMiddlewareOptions)
           (env : MoltbotEnv) (c : Request) : Outcome :=
  let redirect :=
    match redirectOnMissing options with
    | Some b => b
    | None => false
    end in
  if isDevMode env || isE2ETestMode env then
    mkOutcome (Some devUser) true (Downstream next)
  else
    let teamDomain := CF_ACCESS_TEAM_DOMAIN env in
    let expectedAud := CF_ACCESS_AUD env in
    if negb (truthy teamDomain) || negb (truthy expectedAud) then
      if isBootstrapMode env then
        let providedToken := extractGatewayToken c in
        let gatewayToken := getGatewayToken env in
        if tokenMatches providedToken gatewayToken
        then mkOutcome (Some bootstrapUser) true (Downstream next)
        else denied (type options) 401
                    bootstrapDeniedJson bootstrapDeniedHtml None false
      else denied (type options) 500
                  notConfiguredJson notConfiguredHtml None false
    else
      let domain := match teamDomain with Some d => d | None => "" end in
      let aud := match expectedAud with Some a => a | None => "" end in
      let missing :=
        match type options, redirect with
        | html, true =>
            mkOutcome None false (RedirectReply ("https://" ++ domain) 302)
        | t, _ =>
            denied t 401 missingJwtJson (missingJwtHtml domain) None false
        end in
      match extractJWT c with
      | None => missing
      | Some jwt =>
          if negb (truthyStr jwt) then missing
          else
            match verifyAccessJWT jwt domain aud with
            | Thrown err =>
                denied (type options) 401
                       (invalidJwtJson err) (invalidJwtHtml domain)
                       None false
            | Ok payload =>
                match next with
                | Ok _ => mkOutcome (Some payload) true (Downstream next)
                | Thrown err =>
                    denied (type options) 401
                           (invalidJwtJson err) (invalidJwtHtml domain)
                           (Some payload) true
                end
            end
      end.

End Middleware.

End Auth.

(* ------------------------------------------------------------------ *)
(** ** The sandbox collaborator

    [@cloudflare/sandbox] is external.  Its behaviour is an arbitrary
    function of the calls made so far: every call is appended to a
    history, and the sandbox answers each call, knowing that history,
    with a fulfilled result or a rejection.  [waitForProcess] and
    [ensureMoltbotGateway] come from [../gateway], which drives the same
    sandbox; they are taken as further operations of the collaborator. *)

Module Sandbox.

Record ExecResult : Type := mkExecResult {
  stdout : option string;
  stderr : option string;
  success : bool;
  exitCode : option Z
}.

Record Process : Type := mkProcess { id : string }.

Record ProcessLogs : Type := mkLogs {
  logStdout : option string;
  logStderr : option string
}.

Inductive Call : Type :=
| WriteFile (path content : string)
| Exec (command : string) (timeout : option Z)
| StartProcess (command : string)
| WaitForProcess (proc : Process) (timeout : Z)
| GetLogs (proc : Process)
| EnsureGateway
| Sleep (ms : Z).

Definition History : Type := list Call.

Record Sandbox : Type := mkSandbox {
  onWriteFile : History -> string -> string -> Res unit;
  onExec : History -> string -> option Z -> Res ExecResult;
  onStartProcess : History -> string -> Res Process;
  onWaitForProcess : History -> Process -> Z -> Res unit;
  onGetLogs : History -> Process -> Res ProcessLogs;
  exitCodeOf : History -> Process -> option Z;
  onEnsureGateway : History -> Res unit
}.

(** Asynchronous code over the sandbox: a computation reads the
    history, may reject, and extends the history. *)
Definition M (A : Type) : Type := History -> Res A * History.

Definition ret {A : Type} (a : A) : M A := fun h => (Ok a, h).

Definition bind {A B : Type} (m : M A) (k : A -> M B) : M B :=
  fun h =>
    match m h with
    | (Ok a, h') => k a h'
    | (Thrown e, h') => (Thrown e, h')
    end.

(** [try { m } catch (e) { handler e }]. *)
Definition tryCatch {A : Type} (m : M A) (handler : Exn -> M A) : M A :=
  fun h =>
    match m h with
    | (Ok a, h') => (Ok a, h')
    | (Thrown e, h') => handler e h'
    end.

Declare Scope sandbox_scope.
Delimit Scope sandbox_scope with sandbox.
Notation "x <- m ;; k" := (bind m (fun x => k))
  (at level 61, m at next level, right associativity) : sandbox_scope.
Notation "m ;;; k" := (bind m (fun _ => k))
  (at level 61, right associativity) : sandbox_scope.

(** The history once [c] has been issued. *)
Definition logged (h : History) (c : Call) : History := (h ++ [c])%list.

Section Calls.
Variable sb : Sandbox.

Definition writeFile (path content : string) : M unit :=
  fun h => (onWriteFile sb h path content, logged h (WriteFile path content)).

Definition exec (command : string) (timeout : option Z) : M ExecResult :=
  fun h => (onExec sb h command timeout, logged h (Exec command timeout)).

Definition startProcess (command : string) : M Process :=
  fun h => (onStartProcess sb h command, logged h (StartProcess command)).

Definition waitForProcess (proc : Process) (timeout : Z) : M unit :=
  fun h => (onWaitForProcess sb h proc timeout,
            logged h (WaitForProcess proc timeout)).

Definition getLogs (proc : Process) : M ProcessLogs :=
  fun h => (onGetLogs sb h proc, logged h (GetLogs proc)).

(** Reading the [exitCode] property of a process object. *)
Definition readExitCode (proc : Process) : M (option Z) :=
  fun h => (Ok (exitCodeOf sb h proc), h).

Definition ensureMoltbotGateway : M unit :=
  fun h => (onEnsureGateway sb h, logged h EnsureGateway).

(** [await new Promise((r) => setTimeout(r, ms))]. *)
Definition sleep (ms : Z) : M unit :=
  fun h => (Ok tt, logged h (Sleep ms)).
End Calls.

(** The file system as the calls determine it: [writeFile] stores the
    content, an executed [rm -f path] removes the file, no other call
    of these sources touches [path]. *)
Definition applyCall (path : string) (file : option string) (c : Call)
  : option string :=
  match c with
  | WriteFile p content => if p =? path then Some content else file
  | Exec command _ => if command =? "rm -f " ++ path then None else file
  | _ => file
  end.

Definition fileAfter (path : string) (h : History) : option string :=
  fold_left (applyCall path) h None.

Definition countCalls (p : Call -> bool) (h : History) : nat :=
  List.length (filter p h).

End Sandbox.
Import Sandbox.
Local Open Scope sandbox_scope.

(* ------------------------------------------------------------------ *)
(** ** [src/gateway/r2.ts] *)

Module R2.

Definition RCLONE_TEMP_CONFIG : string := "/tmp/rclone-fresh.conf".

Definition safe (s : string) : string := trim (stripNewlines s).

Definition buildRcloneConfigContent (accessKey secretKey accountId : string)
  : string :=
  join NL
    [ "[r2]";
      "type = s3";
      "provider = Cloudflare";
      "access_key_id = " ++ safe accessKey;
      "secret_access_key = " ++ safe secretKey;
      "endpoint = https://" ++ safe accountId ++ ".r2.cloudflarestorage.com";
      "acl = private";
      "no_check_bucket = true" ].

Record RcloneResult : Type := mkRclone {
  r_stdout : string;
  r_stderr : string;
  r_success : bool;
  r_exitCode : Z
}.

(** [env.X?.trim() ?? '']. *)
Definition trimmed (o : option string) : string :=
  match trimOpt o with
  | Some s => s
  | None => ""
  end.

Definition transferCommand (command : string) : string :=
  "rclone " ++ command ++ " --config " ++ RCLONE_TEMP_CONFIG ++ " 2>&1 || true".

Definition removeCommand : string := "rm -f " ++ RCLONE_TEMP_CONFIG.

Definition fromExec (result : ExecResult) : RcloneResult :=
  mkRclone (orDefault (stdout result) "")
           (orDefault (stderr result) "")
           (success result)
           (match exitCode result with
            | Some code => code
            | None => if success result then 0%Z else 1%Z
            end).

Section WithSandbox.
Variable sb : Sandbox.

(** [timeout] is [options?.timeout]. *)
Definition runRcloneWithFreshConfig
           (env : MoltbotEnv) (command : string) (timeout : option Z)
  : M RcloneResult :=
  let accessKey := trimmed (R2_ACCESS_KEY_ID env) in
  let secretKey := trimmed (R2_SECRET_ACCESS_KEY env) in
  let accountId := trimmed (CF_ACCOUNT_ID env) in
  if negb (truthyStr accessKey) || negb (truthyStr secretKey)
     || negb (truthyStr accountId)
  then ret (mkRclone "" "R2 not configured" false 1%Z)
  else
    let configContent :=
      buildRcloneConfigContent accessKey secretKey accountId in
    writeFile sb RCLONE_TEMP_CONFIG configContent ;;;
    result <- exec sb (transferCommand command)
                   (Some (match timeout with
                          | Some t => t
                          | None => 15000%Z
                          end)) ;;
    exec sb removeCommand None ;;;
    ret (fromExec result).

End WithSandbox.

End R2.
Import R2.

(* ------------------------------------------------------------------ *)
(** ** [src/gateway/sync.ts] *)

Module Sync.

Record SyncResult : Type := mkSync {
  success : bool;
  lastSync : option string;
  error : option string;
  details : option string
}.

Definition RCLONE_FLAGS : string :=
  "--transfers=16 --fast-list --s3-no-check-bucket".
Definition LAST_SYNC_FILE : string := "/tmp/.last-sync".
Definition SYNC_TIMEOUT : Z := 120000.

Definition rcloneRemote (env : MoltbotEnv) (prefix : string) : string :=
  "r2:" ++ getR2BucketName env ++ "/" ++ prefix.

Definition hasR2Config (env : MoltbotEnv) : bool :=
  truthy (trimOpt (R2_ACCESS_KEY_ID env))
  && truthy (trimOpt (R2_SECRET_ACCESS_KEY env))
  && truthy (trimOpt (CF_ACCOUNT_ID env)).

Definition detectCommand : string :=
  "test -f /root/.openclaw/openclaw.json && echo openclaw || "
  ++ "(test -f /root/.clawdbot/clawdbot.json && echo clawdbot || echo none)".

Definition configSyncCommand (env : MoltbotEnv) (configDir : string) : string :=
  "sync " ++ configDir ++ "/ " ++ rcloneRemote env "openclaw/" ++ " "
  ++ RCLONE_FLAGS
  ++ " --exclude='*.lock' --exclude='*.log' --exclude='*.tmp' --exclude='.git/**'".

Definition workspaceSyncCommand (env : MoltbotEnv) : string :=
  "sync /root/clawd/ " ++ rcloneRemote env "workspace/" ++ " "
  ++ RCLONE_FLAGS ++ " --exclude='skills/**' --exclude='.git/**'".

Definition skillsSyncCommand (env : MoltbotEnv) : string :=
  "sync /root/clawd/skills/ " ++ rcloneRemote env "skills/" ++ " "
  ++ RCLONE_FLAGS.

Definition hasWorkspaceCommand : string := "test -d /root/clawd && echo yes".
Definition hasSkillsCommand : string := "test -d /root/clawd/skills && echo yes".
Definition writeStampCommand : string := "date -Iseconds > " ++ LAST_SYNC_FILE.
Definition readStampCommand : string := "cat " ++ LAST_SYNC_FILE.

(** The [details] of a failed config sync. *)
Definition configFailureDetails (configResult : RcloneResult) : string :=
  let errOut :=
    sliceLast 2000
      (join (NL ++ "---" ++ NL)
            (filterBoolean [r_stderr configResult; r_stdout configResult])) in
  if truthyStr errOut then errOut
  else "No error output from rclone (exit code may indicate failure)".

Section WithSandbox.
Variable sb : Sandbox.

Definition detectConfigDir : M (option string) :=
  check <- exec sb detectCommand None ;;
  let result := trimOpt (stdout check) in
  if strictEqOpt result "openclaw" then ret (Some "/root/.openclaw")
  else if strictEqOpt result "clawdbot" then ret (Some "/root/.clawdbot")
  else ret None.

(** The part of [syncToR2] that follows a successful config sync. *)
Definition syncOptionalAndStamp (env : MoltbotEnv) : M SyncResult :=
  hasWorkspace <- exec sb hasWorkspaceCommand None ;;
  (if strictEqOpt (trimOpt (stdout hasWorkspace)) "yes"
   then runRcloneWithFreshConfig sb env (workspaceSyncCommand env)
                                 (Some SYNC_TIMEOUT) ;;; ret tt
   else ret tt) ;;;
  hasSkills <- exec sb hasSkillsCommand None ;;
  (if strictEqOpt (trimOpt (stdout hasSkills)) "yes"
   then runRcloneWithFreshConfig sb env (skillsSyncCommand env)
                                 (Some SYNC_TIMEOUT) ;;; ret tt
   else ret tt) ;;;
  exec sb writeStampCommand None ;;;
  tsResult <- exec sb readStampCommand None ;;
  let lastSync := trimOpt (stdout tsResult) in
  ret (mkSync true lastSync None None).

Definition syncToR2 (env : MoltbotEnv) : M SyncResult :=
  if negb (hasR2Config env) then
    ret (mkSync false None (Some "R2 storage is not configured") None)
  else
    configDir <- detectConfigDir ;;
    match configDir with
    | None =>
        ret (mkSync false None
               (Some "Sync aborted: no config file found")
               (Some "Neither openclaw.json nor clawdbot.json found in config directory."))
    | Some dir =>
        if negb (truthyStr dir) then
          ret (mkSync false None
                 (Some "Sync aborted: no config file found")
                 (Some "Neither openclaw.json nor clawdbot.json found in config directory."))
        else
          configResult <- runRcloneWithFreshConfig sb env
                            (configSyncCommand env dir) (Some SYNC_TIMEOUT) ;;
          if negb (r_success configResult) then
            ret (mkSync false None (Some "Config sync failed")
                   (Some (configFailureDetails configResult)))
          else syncOptionalAndStamp env
    end.

End WithSandbox.

End Sync.

(* ------------------------------------------------------------------ *)
(** ** [src/routes/api.ts]: approve-all and the storage test *)

Module Api.

Definition CLI_TIMEOUT_MS : Z := 20000.

Record Device : Type := mkDevice { requestId : string }.

(** One entry of [results]: [{ requestId, success, error? }]. *)
Record Approval : Type := mkApproval {
  a_requestId : string;
  a_success : bool;
  a_error : option string
}.

(** JSON body of the approve-all route; a field left out of the object
    literal is [None]. *)
Record ApproveAllBody : Type := mkApproveAll {
  approved : option (list string);
  failed : option (list Approval);
  message : option string;
  error : option string;
  raw : option string
}.

(** [token ? ` --token ${token}` : '']. *)
Definition tokenArg (env : MoltbotEnv) : string :=
  match getGatewayToken env with
  | Some token => if truthyStr token then " --token " ++ token else ""
  | None => ""
  end.

Definition listCommand (env : MoltbotEnv) : string :=
  "openclaw devices list --json --url ws://localhost:18789" ++ tokenArg env.

Definition approveCommand (env : MoltbotEnv) (device : Device) : string :=
  "openclaw devices approve " ++ requestId device
    ++ " --url ws://localhost:18789" ++ tokenArg env.

(** [stdout.match(/\{[\s\S]*\}/)]: from the first opening brace to the
    last closing brace after it. *)
Fixpoint fromFirstOpen (s : string) : option string :=
  match s with
  | EmptyString => None
  | String c rest =>
      if Ascii.eqb c "{" then Some s else fromFirstOpen rest
  end.

Fixpoint upToLastClose (s : string) : option string :=
  match s with
  | EmptyString => None
  | String c rest =>
      match upToLastClose rest with
      | Some t => Some (String c t)
      | None => if Ascii.eqb c "}" then Some (String c EmptyString) else None
      end
  end.

Definition jsonMatch (s : string) : option string :=
  match fromFirstOpen s with
  | Some t => upToLastClose t
  | None => None
  end.

(** [approveLogs.stdout?.toLowerCase().includes('approved')
     || approveProc.exitCode === 0]. *)
Definition approvalSucceeded (logs : ProcessLogs) (code : option Z) : bool :=
  match logStdout logs with
  | Some out => includes "approved" (toLowerCase out)
  | None => false
  end
  || match code with
     | Some z => (z =? 0)%Z
     | None => false
     end.

Definition isSuccess (r : Approval) : bool := a_success r.
Definition isFailure (r : Approval) : bool := negb (a_success r).

Definition batchBody (pending : list Device) (results : list Approval)
  : ApproveAllBody :=
  let approvedCount := List.length (filter isSuccess results) in
  mkApproveAll
    (Some (map a_requestId (filter isSuccess results)))
    (Some (filter isFailure results))
    (Some ("Approved " ++ showNat approvedCount ++ " of "
             ++ showNat (List.length pending) ++ " device(s)"))
    None None.

Definition nothingPendingBody : ApproveAllBody :=
  mkApproveAll (Some []) None (Some "No pending devices to approve") None None.

Definition errorBody (msg : string) (rawOut : option string) : ApproveAllBody :=
  mkApproveAll None None None (Some msg) rawOut.

Section WithSandbox.
Variable sb : Sandbox.

(** [JSON.parse(text).pending || []], read at the declared type
    [Array<{ requestId: string }>]; [JSON.parse] is the platform's. *)
Variable parsePending : string -> Res (list Device).

(** Body of the [for] loop: one device, with its own [try]/[catch]. *)
Definition approveDevice (env : MoltbotEnv) (device : Device) : M Approval :=
  tryCatch
    (approveProc <- startProcess sb (approveCommand env device) ;;
     waitForProcess sb approveProc CLI_TIMEOUT_MS ;;;
     approveLogs <- getLogs sb approveProc ;;
     code <- readExitCode sb approveProc ;;
     ret (mkApproval (requestId device)
                     (approvalSucceeded approveLogs code) None))
    (fun err =>
       ret (mkApproval (requestId device) false
                       (Some (messageOr "Unknown error" err)))).

(** [for (const device of pending) { ... results.push(...) }]. *)
Fixpoint approveEach (env : MoltbotEnv) (pending : list Device)
         (results : list Approval) : M (list Approval) :=
  match pending with
  | [] => ret results
  | device :: rest =>
      r <- approveDevice env device ;;
      approveEach env rest (results ++ [r])%list
  end.

(** The statements between the parse and the response, given the
    parsed list. *)
Definition approvePending (env : MoltbotEnv) (pending : list Device)
  : M (ApproveAllBody * Z) :=
  if (List.length pending =? 0)%nat then ret (nothingPendingBody, 200%Z)
  else
    results <- approveEach env pending [] ;;
    ret (batchBody pending results, 200%Z).

(** [adminApi.post('/devices/approve-all', ...)]. *)
Definition approveAll (env : MoltbotEnv) : M (ApproveAllBody * Z) :=
  tryCatch
    (ensureMoltbotGateway sb ;;;
     listProc <- startProcess sb (listCommand env) ;;
     waitForProcess sb listProc CLI_TIMEOUT_MS ;;;
     listLogs <- getLogs sb listProc ;;
     let out := orDefault (logStdout listLogs) "" in
     match jsonMatch out with
     | Some text =>
         match parsePending text with
         | Thrown _ =>
             ret (errorBody "Failed to parse device list" (Some out), 500%Z)
         | Ok pending => approvePending env pending
         end
     | None => approvePending env []
     end)
    (fun err => ret (errorBody (messageOr "Unknown error" err) None, 500%Z)).

End WithSandbox.

(** *** The storage test route *)

Record Diagnostics : Type := mkDiagnostics {
  d_bucket : string;
  endpoint : string;
  cf_account_id_length : nat;
  r2_access_key_id_preview : string
}.

Inductive StorageTestBody : Type :=
| NotConfigured (missing : list string)
    (* { ok: false, error: 'R2 not configured', missing } *)
| Probed (ok : bool) (bucket out err output : string) (code : Z)
         (diagnostics : Diagnostics).

Definition missingSecrets (env : MoltbotEnv) : list string :=
  (if truthy (R2_ACCESS_KEY_ID env) then [] else ["R2_ACCESS_KEY_ID"])
  ++ (if truthy (R2_SECRET_ACCESS_KEY env) then [] else ["R2_SECRET_ACCESS_KEY"])
  ++ (if truthy (CF_ACCOUNT_ID env) then [] else ["CF_ACCOUNT_ID"]).

Definition sizeCommand (env : MoltbotEnv) : string :=
  "size r2:" ++ getR2BucketName env ++ "/".

Definition keyPreview (accessKey : string) : string :=
  if (8 <=? String.length accessKey)%nat
  then sliceFirst 4 accessKey ++ "..." ++ sliceLast 4 accessKey
  else if truthyStr accessKey then "(too short)" else "(not set)".

Definition probeBody (env : MoltbotEnv) (result : RcloneResult)
  : StorageTestBody :=
  let bucket := getR2BucketName env in
  let accessKey := trimmed (R2_ACCESS_KEY_ID env) in
  let accountId := trimmed (CF_ACCOUNT_ID env) in
  let output :=
    join NL (filterBoolean [r_stdout result; r_stderr result]) in
  Probed (r_success result) bucket
         (orDefault (Some (r_stdout result)) "")
         (orDefault (Some (r_stderr result)) "")
         (sliceLast 2000 output)
         (r_exitCode result)
         (mkDiagnostics bucket
            (if truthyStr accountId
             then "https://" ++ accountId ++ ".r2.cloudflarestorage.com"
             else "(not set)")
            (String.length accountId)
            (keyPreview accessKey)).

Section StorageTest.
Variable sb : Sandbox.

(** [adminApi.get('/storage/test', ...)]. *)
Definition storageTest (env : MoltbotEnv) : M StorageTestBody :=
  if negb (truthy (R2_ACCESS_KEY_ID env))
     || negb (truthy (R2_SECRET_ACCESS_KEY env))
     || negb (truthy (CF_ACCOUNT_ID env))
  then ret (NotConfigured (missingSecrets env))
  else
    first <- runRcloneWithFreshConfig sb env (sizeCommand env) None ;;
    result <- (if negb (r_success first) then
                 sleep 1500 ;;;
                 runRcloneWithFreshConfig sb env (sizeCommand env) None
               else ret first) ;;
    ret (probeBody env result).

End StorageTest.

End Api.

(* ------------------------------------------------------------------ *)
(** ** Reading histories and responses *)

Module Observe.

(** An execution of the transfer tool, and the write of a fresh
    credential file that opens every configured invocation of
    [runRcloneWithFreshConfig]. *)
Definition isTransfer (c : Call) : bool :=
  match c with
  | Exec command _ => prefix "rclone " command
  | _ => false
  end.

Definition isFreshConfigWrite (c : Call) : bool :=
  match c with
  | WriteFile path _ => path =? RCLONE_TEMP_CONFIG
  | _ => false
  end.

Definition transfers (h : History) : nat := countCalls isTransfer h.
Definition attempts (h : History) : nat := countCalls isFreshConfigWrite h.

(** Commands handed to [startProcess], oldest first. *)
Fixpoint startedCommands (h : History) : list string :=
  match h with
  | [] => []
  | StartProcess command :: rest => command :: startedCommands rest
  | _ :: rest => startedCommands rest
  end.

(** Entries of an array field of a JSON body; none when the field is
    absent. *)
Definition entries {A : Type} (field : option (list A)) : list A :=
  match field with
  | Some l => l
  | None => []
  end.



(** A sandbox whose [writeFile] and [exec] promises always fulfil;
    the results they fulfil with may still report failure. *)
Definition fulfils (sb : Sandbox) : Prop :=
  (forall h path content, onWriteFile sb h path content = Ok tt)
  /\ (forall h command timeout, exists r, onExec sb h command timeout = Ok r).

(** A configured environment: the three secrets survive trimming. *)
Definition secretsConfigured (env : MoltbotEnv) : Prop :=
  trimmed (R2_ACCESS_KEY_ID env) <> ""
  /\ trimmed (R2_SECRET_ACCESS_KEY env) <> ""
  /\ trimmed (CF_ACCOUNT_ID env) <> "".

(** [options?.timeout ?? 15000], as handed to [exec]. *)
Definition effectiveTimeout (timeout : option Z) : option Z :=
  Some (match timeout with
        | Some t => t
        | None => 15000%Z
        end).

Definition freshContent (env : MoltbotEnv) : string :=
  buildRcloneConfigContent (trimmed (R2_ACCESS_KEY_ID env))
                           (trimmed (R2_SECRET_ACCESS_KEY env))
                           (trimmed (CF_ACCOUNT_ID env)).

End Observe.
Import Observe.

(* ------------------------------------------------------------------ *)
(** ** Concrete environments, requests and sandboxes *)

Module Examples.
Import Auth.

Definition emptyEnv : MoltbotEnv :=
  mkEnv None None None None None None None None None None.

Definition devEnv : MoltbotEnv :=
  mkEnv (Some "true") None (Some "team.cloudflareaccess.com") (Some "aud123")
        None None None None None None.

Definition bootstrapEnv : MoltbotEnv :=
  mkEnv None None None None None (Some "my-secret-token")
        None None None None.

Definition r2Env : MoltbotEnv :=
  mkEnv None None None None None None
        (Some "0123456789abcdef") (Some "s3cr3t-k3y") (Some " acct42 ") None.

Definition request (query : list (string * string))
           (gatewayHeader : option string) : Request :=
  mkRequest
    (fun name => if name =? "X-Gateway-Token" then gatewayHeader else None)
    query.

(** Environments and requests in the style of the repository's
    [middleware.test.ts]. *)
Definition envWith (dev e2e team aud token : option string) : MoltbotEnv :=
  mkEnv dev e2e team aud None token None None None None.

Fixpoint headerOf (headers : list (string * string)) (name : string)
  : option string :=
  match headers with
  | [] => None
  | (k, v) :: rest => if k =? name then Some v else headerOf rest name
  end.

Definition requestOf (headers query : list (string * string)) : Request :=
  mkRequest (headerOf headers) query.

Definition accessEnv : MoltbotEnv :=
  envWith None None (Some "team.cloudflareaccess.com") (Some "aud123") None.

Definition rejectJwt : string -> string -> string -> Res AccessUser :=
  fun _ _ _ => Thrown (ErrorObj "invalid token").

Definition jsonOptions : AccessMiddlewareOptions := mkOptions json None.
Definition htmlOptions : AccessMiddlewareOptions := mkOptions html None.

Definition okExec (out : string) : ExecResult :=
  mkExecResult (Some out) (Some "") true (Some 0%Z).

Definition failedExec (out : string) : ExecResult :=
  mkExecResult (Some out) (Some "") false (Some 1%Z).

(** A sandbox built from an answer to each [exec] command; processes
    start and finish with the given logs and exit code. *)
Definition sandboxOf (answer : string -> Res ExecResult)
           (start : string -> Res Process)
           (logs : ProcessLogs) (code : option Z) : Sandbox :=
  mkSandbox (fun _ _ _ => Ok tt)
            (fun _ command _ => answer command)
            (fun _ command => start command)
            (fun _ _ _ => Ok tt)
            (fun _ _ => Ok logs)
            (fun _ _ => code)
            (fun _ => Ok tt).

Definition noLogs : ProcessLogs := mkLogs None None.
Definition startOk : string -> Res Process := fun _ => Ok (mkProcess "p1").

(** Every command succeeds with empty output. *)
Definition healthySandbox : Sandbox :=
  sandboxOf (fun _ => Ok (okExec "")) startOk noLogs (Some 0%Z).

(** The transfer tool runs into the [exec] timeout: the promise rejects. *)
Definition timeoutSandbox : Sandbox :=
  sandboxOf (fun command =>
               if prefix "rclone " command
               then Thrown (ErrorObj "Command timed out")
               else Ok (okExec ""))
            startOk noLogs (Some 0%Z).

(** The transfer tool reports failure on every run. *)
Definition unreachableSandbox : Sandbox :=
  sandboxOf (fun command =>
               if prefix "rclone " command
               then Ok (failedExec "Failed to size: connection refused")
               else Ok (okExec ""))
            startOk noLogs (Some 0%Z).

(** A sandbox holding an openclaw config and a workspace: the config
    sync succeeds and the workspace sync behaves as [workspace] says. *)
Definition syncSandbox (workspace : Res ExecResult) : Sandbox :=
  sandboxOf (fun command =>
               if command =? Sync.detectCommand then Ok (okExec "openclaw")
               else if command =? Sync.hasWorkspaceCommand then Ok (okExec "yes")
               else if command =? Sync.readStampCommand
                    then Ok (okExec "2026-02-12T10:00:00+00:00")
               else if command =? transferCommand (Sync.workspaceSyncCommand r2Env)
                    then workspace
               else Ok (okExec ""))
            startOk noLogs (Some 0%Z).

(** Every [startProcess] for an approval rejects, the list call works. *)
Definition brokenCliSandbox : Sandbox :=
  sandboxOf (fun _ => Ok (okExec ""))
            (fun command =>
               if prefix "openclaw devices approve" command
               then Thrown (ErrorObj "gateway unreachable")
               else Ok (mkProcess "list"))
            (mkLogs (Some "{}") None) (Some 1%Z).

(** Every command and every process succeeds; a process is named after
    its command and logs a line that holds an object and the word
    "approved". *)
Definition pairingSandbox : Sandbox :=
  sandboxOf (fun _ => Ok (okExec ""))
            (fun command => Ok (mkProcess command))
            (mkLogs (Some "{} approved") None) (Some 0%Z).

Definition threePending : list Api.Device :=
  [Api.mkDevice "req-1"; Api.mkDevice "req-2"; Api.mkDevice "req-3"].

Definition parseThree : string -> Res (list Api.Device) :=
  fun _ => Ok threePending.

End Examples.

(* ------------------------------------------------------------------ *)
(** ** [src/gateway/r2.ts]: the persistent rclone config *)

Module R2Persist.

Definition RCLONE_CONF_PATH : string := "/root/.config/rclone/rclone.conf".

Definition mkdirCommand : string :=
  "mkdir -p $(dirname " ++ RCLONE_CONF_PATH ++ ")".

Definition removeStaleCommand : string := "rm -f " ++ RCLONE_CONF_PATH.

Section WithSandbox.
Variable sb : Sandbox.

Definition ensureRcloneConfig (env : MoltbotEnv) : M bool :=
  let accessKey := trimOpt (R2_ACCESS_KEY_ID env) in
  let secretKey := trimOpt (R2_SECRET_ACCESS_KEY env) in
  let accountId := trimOpt (CF_ACCOUNT_ID env) in
  if negb (truthy accessKey) || negb (truthy secretKey)
     || negb (truthy accountId)
  then ret false
  else
    let rcloneConfig :=
      buildRcloneConfigContent (trimmed (R2_ACCESS_KEY_ID env))
                               (trimmed (R2_SECRET_ACCESS_KEY env))
                               (trimmed (CF_ACCOUNT_ID env)) in
    exec sb mkdirCommand None ;;;
    exec sb removeStaleCommand None ;;;
    writeFile sb RCLONE_CONF_PATH rcloneConfig ;;;
    ret true.

End WithSandbox.

End R2Persist.

(* ------------------------------------------------------------------ *)
(** ** [src/routes/api.ts]: device, storage and update routes *)

Module Routes.

(** *** [GET /devices] *)

(** The three bodies the route sends: the parsed CLI output, the
    fallback [{ pending: [], paired: [], raw, stderr, parseError? }], or
    [{ error }]. *)
Inductive DevicesReply (J : Type) : Type :=
| DevicesData (data : J)
| DevicesRaw (rawOut errOut : string) (parseError : option string)
| DevicesError (error : string).
Arguments DevicesData {J} data.
Arguments DevicesRaw {J} rawOut errOut parseError.
Arguments DevicesError {J} error.

(** *** [POST /devices/:requestId/approve] *)

Inductive ApproveReply : Type :=
| ApproveError (error : string)
| ApproveResult (success : bool)
                (requestId message out err : string).

Definition approveOneCommand (env : MoltbotEnv) (requestId : string) : string :=
  "openclaw devices approve " ++ requestId
    ++ " --url ws://localhost:18789" ++ Api.tokenArg env.

(** *** [GET /storage] *)

Record StorageStatus : Type := mkStatus {
  configured : bool;
  missing : option (list string);
  lastSync : option string;
  message : string
}.

Definition lastSyncCommand : string :=
  "cat /tmp/.last-sync 2>/dev/null || echo " ++ dq ++ dq.

(** The [missing] array after the three conditional [push] calls. *)
Definition missingPushed (env : MoltbotEnv) : list string :=
  let m0 := [] in
  let m1 := if negb (truthy (R2_ACCESS_KEY_ID env))
            then (m0 ++ ["R2_ACCESS_KEY_ID"])%list else m0 in
  let m2 := if negb (truthy (R2_SECRET_ACCESS_KEY env))
            then (m1 ++ ["R2_SECRET_ACCESS_KEY"])%list else m1 in
  if negb (truthy (CF_ACCOUNT_ID env))
  then (m2 ++ ["CF_ACCOUNT_ID"])%list else m2.

Definition hasCredentials (env : MoltbotEnv) : bool :=
  truthy (R2_ACCESS_KEY_ID env) && truthy (R2_SECRET_ACCESS_KEY env)
  && truthy (CF_ACCOUNT_ID env).

(** *** [POST /storage/sync] *)

Record SyncResponse : Type := mkSyncResponse {
  sr_success : bool;
  sr_message : option string;
  sr_lastSync : option string;
  sr_error : option string;
  sr_details : option string
}.

(** [result.error?.includes('not configured') ? 400 : 500]. *)
Definition failureStatus (error : option string) : Z :=
  match error with
  | Some e => if includes "not configured" e then 400%Z else 500%Z
  | None => 500%Z
  end.

(** *** [POST /openclaw/update]: the checks made before any call *)

Definition isDigit (c : ascii) : bool :=
  let n := nat_of_ascii c in ((48 <=? n) && (n <=? 57))%nat.

(** A match of [[0-9]+] against a whole string. *)
Definition digitRun (s : string) : bool :=
  negb (s =? "") && forallb isDigit (list_ascii_of_string s).

(** [/^[0-9]+\.[0-9]+\.[0-9]+$/.test(version)]: three digit runs
    separated by two dots, nothing before or after. *)
Definition matchesVersion (version : string) : bool :=
  match split "." version with
  | [a; b; c] => digitRun a && digitRun b && digitRun c
  | _ => false
  end.

Inductive VersionCheck : Type :=
| VersionAccepted (version : string)
| VersionRejected (error : string) (status : Z).

(** [body.version?.trim()], the missing-version test and the format
    test, in the order of the route. *)
Definition checkVersion (bodyVersion : option string) : VersionCheck :=
  match trimOpt bodyVersion with
  | None =>
      VersionRejected
        ("Missing " ++ dq ++ "version" ++ dq ++ " in body (e.g. "
           ++ dq ++ "2026.2.12" ++ dq ++ ")") 400
  | Some version =>
      if negb (truthyStr version) then
        VersionRejected
          ("Missing " ++ dq ++ "version" ++ dq ++ " in body (e.g. "
             ++ dq ++ "2026.2.12" ++ dq ++ ")") 400
      else if negb (matchesVersion version) then
        VersionRejected "Version must be semver (e.g. 2026.2.12)" 400
      else VersionAccepted version
  end.

Definition installCommand (version : string) : string :=
  "npm install -g openclaw@" ++ version.

Section WithSandbox.
Variable sb : Sandbox.

(** [adminApi.get('/devices', ...)]; [JSON.parse] is the platform's,
    its result kept abstract. *)
Definition listDevices {J : Type} (jsonParse : string -> Res J)
           (env : MoltbotEnv) : M (DevicesReply J * Z) :=
  tryCatch
    (ensureMoltbotGateway sb ;;;
     proc <- startProcess sb (Api.listCommand env) ;;
     waitForProcess sb proc Api.CLI_TIMEOUT_MS ;;;
     logs <- getLogs sb proc ;;
     let out := orDefault (logStdout logs) "" in
     let err := orDefault (logStderr logs) "" in
     match Api.jsonMatch out with
     | Some text =>
         match jsonParse text with
         | Ok data => ret (DevicesData data, 200%Z)
         | Thrown _ =>
             ret (DevicesRaw out err (Some "Failed to parse CLI output"), 200%Z)
         end
     | None => ret (DevicesRaw out err None, 200%Z)
     end)
    (fun error =>
       ret (DevicesError (messageOr "Unknown error" error), 500%Z)).

(** [adminApi.post('/devices/:requestId/approve', ...)]. *)
Definition approveOne (env : MoltbotEnv) (requestId : string)
  : M (ApproveReply * Z) :=
  if negb (truthyStr requestId)
  then ret (ApproveError "requestId is required", 400%Z)
  else
    tryCatch
      (ensureMoltbotGateway sb ;;;
       proc <- startProcess sb (approveOneCommand env requestId) ;;
       waitForProcess sb proc Api.CLI_TIMEOUT_MS ;;;
       logs <- getLogs sb proc ;;
       code <- readExitCode sb proc ;;
       let out := orDefault (logStdout logs) "" in
       let err := orDefault (logStderr logs) "" in
       let success :=
         includes "approved" (toLowerCase out)
         || match code with
            | Some z => (z =? 0)%Z
            | None => false
            end in
       ret (ApproveResult success requestId
                          (if success then "Device approved"
                           else "Approval may have failed")
                          out err, 200%Z))
      (fun error =>
         ret (ApproveError (messageOr "Unknown error" error), 500%Z)).

(** [adminApi.get('/storage', ...)]. *)
Definition storageStatus (env : MoltbotEnv) : M StorageStatus :=
  let has := hasCredentials env in
  let missingNames := missingPushed env in
  stamp <- (if has then
              tryCatch
                (result <- exec sb lastSyncCommand None ;;
                 let timestamp := trimOpt (stdout result) in
                 if truthy timestamp && negb (strictEqOpt timestamp "")
                 then ret timestamp
                 else ret None)
                (fun _ => ret None)
            else ret None) ;;
  ret (mkStatus has
         (if (0 <? List.length missingNames)%nat then Some missingNames
          else None)
         stamp
         (if has
          then "R2 storage is configured. Your data will persist across container restarts."
          else "R2 storage is not configured. Paired devices and conversations will be lost when the container restarts.")).

(** [adminApi.post('/storage/sync', ...)]. *)
Definition storageSync (env : MoltbotEnv) : M (SyncResponse * Z) :=
  result <- Sync.syncToR2 sb env ;;
  if Sync.success result then
    ret (mkSyncResponse true (Some "Sync completed successfully")
                        (Sync.lastSync result) None None, 200%Z)
  else
    ret (mkSyncResponse false None None
                        (Sync.error result) (Sync.details result),
         failureStatus (Sync.error result)).

End WithSandbox.

End Routes.

(* ------------------------------------------------------------------ *)
(** ** Admin page and setup wizard helpers *)

Module Ui.

(** Template-literal rendering of an integer. *)
Definition showZ (z : Z) : string :=
  if (z <? 0)%Z then "-" ++ showNat (Z.to_nat (- z))
  else showNat (Z.to_nat z).

(** A JavaScript number is an IEEE double.  The model of
    [formatTimeAgo] covers the numbers on which its arithmetic is
    exact: the safe integers, of magnitude below 2^53
    ([Number.isSafeInteger]).  The difference of two safe integers that
    is itself safe is computed exactly, and for a safe integer [x] and
    a divisor [d] among 1000, 60 and 24 the rounding error of [x / d]
    is below [1 / d], the least distance of an inexact quotient from a
    whole number, so [Math.floor(x / d)] is the integer quotient
    rounded down. *)
Definition MAX_SAFE_INTEGER : Z := 9007199254740991.

Definition isSafeInteger (z : Z) : bool :=
  ((- MAX_SAFE_INTEGER <=? z) && (z <=? MAX_SAFE_INTEGER))%Z.

(** [formatTimeAgo(ts)] of [AdminPage.tsx], with [Date.now()] passed in
    as [now].  Both are whole milliseconds; where [now], [ts] or their
    difference is not a safe integer the double arithmetic of the
    source is not modelled and no answer is given. *)
Definition formatTimeAgo (now ts : Z) : option string :=
  if isSafeInteger now && isSafeInteger ts && isSafeInteger (now - ts)
  then
    let seconds := ((now - ts) / 1000)%Z in
    if (seconds <? 60)%Z then Some (showZ seconds ++ "s ago")
    else
      let minutes := (seconds / 60)%Z in
      if (minutes <? 60)%Z then Some (showZ minutes ++ "m ago")
      else
        let hours := (minutes / 60)%Z in
        if (hours <? 24)%Z then Some (showZ hours ++ "h ago")
        else
          let days := (hours / 24)%Z in
          Some (showZ days ++ "d ago")
  else None.

(** The wizard's step index ([App.tsx]): [STEPS] has six entries. *)
Definition STEPS_length : Z := 6.

Definition next (s : Z) : Z := Z.min (s + 1) (STEPS_length - 1).
Definition prev (s : Z) : Z := Z.max (s - 1) 0.
Definition goTo (index : Z) : Z := Z.max 0 (Z.min index (STEPS_length - 1)).

Inductive Action : Type := Next | Prev | GoTo (index : Z).

Definition act (step : Z) (a : Action) : Z :=
  match a with
  | Next => next step
  | Prev => prev step
  | GoTo index => goTo index
  end.

(** [randomHex32] of [GatewayTokenStep.tsx]; [bytes] is the array
    filled by [crypto.getRandomValues]. *)
Definition hexDigit (n : nat) : ascii :=
  nth n (list_ascii_of_string "0123456789abcdef") "0"%char.

(** [b.toString(16)] for a byte. *)
Definition toString16 (b : nat) : string :=
  if (b <? 16)%nat then String (hexDigit b) EmptyString
  else String (hexDigit (b / 16)) (String (hexDigit (b mod 16)) EmptyString).

(** [s.padStart(n, fill)] for a one-character [fill]. *)
Fixpoint padding (n : nat) (fill : ascii) : string :=
  match n with
  | O => EmptyString
  | S k => String fill (padding k fill)
  end.

Definition padStart (n : nat) (fill : ascii) (s : string) : string :=
  padding (n - String.length s) fill ++ s.

Definition byteToHex (b : Byte.byte) : string :=
  padStart 2 "0" (toString16 (Byte.to_nat b)).

Definition randomHex32 (bytes : list Byte.byte) : string :=
  join "" (map byteToHex bytes).

(** [config.gatewayToken.trim().length >= 16]. *)
Definition hasToken (gatewayToken : string) : bool :=
  (16 <=? String.length (trim gatewayToken))%nat.

End Ui.

(* ------------------------------------------------------------------ *)
(** ** Further readings of strings and histories *)

Module Observe2.

Fixpoint countChar (c : ascii) (s : string) : nat :=
  match s with
  | EmptyString => O
  | String d rest => (if Ascii.eqb d c then 1 else 0) + countChar c rest
  end.

Definition hasChar (c : ascii) (s : string) : bool :=
  existsb (Ascii.eqb c) (list_ascii_of_string s).

Definition isStamp (c : Call) : bool :=
  match c with
  | Exec command _ => command =? Sync.writeStampCommand
  | _ => false
  end.

(** The result [runRcloneWithFreshConfig] makes up without touching
    the sandbox. *)
Definition notConfiguredResult : RcloneResult :=
  mkRclone "" "R2 not configured" false 1%Z.

(** Value of one hexadecimal digit, and decoding of a hex string. *)
Definition hexValue (c : ascii) : nat :=
  let n := nat_of_ascii c in
  if ((48 <=? n) && (n <=? 57))%nat then n - 48 else n - 87.

Fixpoint decodeHex (s : string) : list Byte.byte :=
  match s with
  | String hi (String lo rest) =>
      match Byte.of_nat (16 * hexValue hi + hexValue lo) with
      | Some b => b :: decodeHex rest
      | None => decodeHex rest
      end
  | _ => []
  end.

Definition isHexDigit (c : ascii) : bool :=
  let n := nat_of_ascii c in
  (((48 <=? n) && (n <=? 57)) || ((97 <=? n) && (n <=? 102)))%nat.

(** A computation that issues at most [n] calls satisfying [p]. *)
Definition adds {A : Type} (p : Call -> bool) (n : nat) (m : M A) : Prop :=
  forall h, countCalls p (snd (m h)) <= countCalls p h + n.


Definition stamps (h : History) : nat := countCalls isStamp h.

(** The error with which the sandbox rejects call [c] issued at history
    [h]; none when the call fulfils. *)
Definition errorOf {A : Type} (r : Res A) : option Exn :=
  match r with
  | Ok _ => None
  | Thrown e => Some e
  end.

Definition rejection (sb : Sandbox) (h : History) (c : Call) : option Exn :=
  match c with
  | WriteFile path content => errorOf (onWriteFile sb h path content)
  | Exec command timeout => errorOf (onExec sb h command timeout)
  | StartProcess command => errorOf (onStartProcess sb h command)
  | WaitForProcess proc timeout => errorOf (onWaitForProcess sb h proc timeout)
  | GetLogs proc => errorOf (onGetLogs sb h proc)
  | EnsureGateway => errorOf (onEnsureGateway sb h)
  | Sleep _ => None
  end.

(** Every call of [calls], issued one after another from history [h],
    fulfils. *)
Fixpoint allFulfil (sb : Sandbox) (h : History) (calls : list Call) : Prop :=
  match calls with
  | [] => True
  | c :: rest => rejection sb h c = None /\ allFulfil sb (logged h c) rest
  end.

End Observe2.
Import Observe2.

(* ------------------------------------------------------------------ *)
(** * Properties *)

(** ** String and truthiness facts *)

Lemma truthyStr_true (s : string) : truthyStr s = true <-> s <> "".
Proof.
  unfold truthyStr. rewrite negb_true_iff. split; intro H.
  - intro E. subst s. discriminate H.
  - destruct (String.eqb_spec s ""); congruence.
Qed.

Lemma truthyStr_false (s : string) : truthyStr s = false <-> s = "".
Proof.
  unfold truthyStr. rewrite negb_false_iff. apply String.eqb_eq.
Qed.

Lemma truthy_some (o : option string) :
  truthy o = true <-> exists s, o = Some s /\ s <> "".
Proof.
  destruct o as [s|]; simpl.
  - rewrite truthyStr_true. split.
    + intro H. now exists s.
    + intros (s' & E & H). now inversion E; subst.
  - split; [discriminate | intros (s & E & _); discriminate].
Qed.

Lemma orElse_none_shape (a : option string) :
  orElse a None = None \/ truthy (orElse a None) = true.
Proof.
  unfold orElse. destruct (truthy a) eqn:E; auto.
Qed.

Lemma trim_empty : trim "" = "".
Proof. reflexivity. Qed.

Lemma trimmed_nonempty_truthy (o : option string) :
  trimmed o <> "" -> truthy o = true.
Proof.
  destruct o as [s|]; unfold trimmed; simpl; intro H.
  - apply truthyStr_true. intro E. subst s. now apply H.
  - now contradiction H.
Qed.

Lemma trimmed_truthy (o : option string) :
  truthy (trimOpt o) = truthyStr (trimmed o).
Proof. destruct o; reflexivity. Qed.

Lemma substring_length_le (n m : nat) (s : string) :
  String.length (substring n m s) <= m.
Proof.
  revert n m. induction s as [|c s IH]; intros n m.
  - destruct n, m; simpl; lia.
  - destruct n as [|n].
    + destruct m as [|m]; simpl; [lia|]. specialize (IH 0 m). lia.
    + simpl. apply IH.
Qed.

Lemma sliceLast_length (n : nat) (s : string) :
  String.length (sliceLast n s) <= n.
Proof. apply substring_length_le. Qed.

(** ** The access gate *)

Section AccessGate.
Import Auth.

Variable verifyAccessJWT : string -> string -> string -> Res AccessUser.
Variable next : Res unit.

Local Abbreviation middleware := (createAccessMiddleware verifyAccessJWT next).

Lemma tokenMatches_iff (p g : option string) :
  truthy g = true -> (tokenMatches p g = true <-> p = g).
Proof.
  intro Hg. apply truthy_some in Hg as (s & -> & Hs).
  unfold tokenMatches. destruct p as [t|]; simpl.
  - apply truthyStr_true in Hs. rewrite Hs, andb_true_r. split.
    + intro H. apply andb_true_iff in H as [_ H].
      apply String.eqb_eq in H. now subst.
    + intro E. inversion E; subst. now rewrite Hs, String.eqb_refl.
  - split; discriminate.
Qed.

Lemma bootstrap_mode_inv (env : MoltbotEnv) :
  isBootstrapMode env = true ->
  truthy (getGatewayToken env) = true
  /\ negb (truthy (CF_ACCESS_TEAM_DOMAIN env))
     || negb (truthy (CF_ACCESS_AUD env)) = true.
Proof.
  unfold isBootstrapMode. intro H. apply andb_true_iff in H as [H1 H2].
  split; [exact H2|]. now rewrite <- negb_andb.
Qed.

Lemma bootstrap_outcome (options : AccessMiddlewareOptions)
      (env : MoltbotEnv) (c : Request) :
  isDevMode env = false -> isE2ETestMode env = false ->
  isBootstrapMode env = true ->
  middleware options env c =
    if tokenMatches (extractGatewayToken c) (getGatewayToken env)
    then mkOutcome (Some bootstrapUser) true (Downstream next)
    else denied (type options) 401 bootstrapDeniedJson bootstrapDeniedHtml
                None false.
Proof.
  intros Hdev He2e Hboot.
  destruct (bootstrap_mode_inv env Hboot) as [_ Hissuer].
  unfold createAccessMiddleware.
  now rewrite Hdev, He2e, Hissuer, Hboot.
Qed.

Lemma denied_bootstrap_facts (t : ResponseType) :
  let o := denied t 401 bootstrapDeniedJson bootstrapDeniedHtml None false in
  replyStatus (reply o) = Some 401%Z
  /\ describesToken (reply o) = true
  /\ nextCalled o = false
  /\ accessUser o = None.
Proof. destruct t; repeat split; reflexivity. Qed.

(** C6.  When DEV_MODE or E2E_TEST_MODE is "true" the middleware sets
    the user dev@localhost / Dev User and hands over to the next
    handler, whatever the rest of the environment, the options and the
    request are. *)
Theorem C6_dev_or_e2e_mode_allows
        (options : AccessMiddlewareOptions) (env : MoltbotEnv) (c : Request) :
  isDevMode env || isE2ETestMode env = true ->
  middleware options env c
  = mkOutcome (Some (mkUser "dev@localhost" (Some "Dev User"))) true
              (Downstream next).
Proof.
  intro H. unfold createAccessMiddleware. now rewrite H.
Qed.

(** C4.  With dev and E2E mode off, the issuer not configured (team
    domain or audience missing) and no gateway token, the middleware
    answers 500 with the not-configured body (JSON or HTML by option),
    never 401, sets no user and does not call the next handler. *)
Theorem C4_unconfigured_gate_is_server_error
        (options : AccessMiddlewareOptions) (env : MoltbotEnv) (c : Request) :
  isDevMode env = false -> isE2ETestMode env = false ->
  truthy (CF_ACCESS_TEAM_DOMAIN env) && truthy (CF_ACCESS_AUD env) = false ->
  truthy (getGatewayToken env) = false ->
  let o := middleware options env c in
  o = denied (type options) 500 notConfiguredJson notConfiguredHtml None false
  /\ reply o = match type options with
               | json => JsonReply notConfiguredJson 500
               | html => HtmlReply notConfiguredHtml 500
               end
  /\ replyStatus (reply o) = Some 500%Z
  /\ replyStatus (reply o) <> Some 401%Z
  /\ nextCalled o = false
  /\ accessUser o = None.
Proof.
  intros Hdev He2e Hissuer Htoken o.
  assert (E : o = denied (type options) 500 notConfiguredJson
                         notConfiguredHtml None false).
  { subst o. unfold createAccessMiddleware, isBootstrapMode.
    rewrite Hdev, He2e, <- negb_andb, Hissuer, Htoken. reflexivity. }
  rewrite E. destruct (type options); repeat split; simpl; congruence.
Qed.

(** C5.  In bootstrap mode (issuer not configured, gateway token set,
    dev and E2E off): a request whose supplied token equals the
    configured token is let through as the bootstrap user; any other
    supplied token, an empty one or none at all gets the 401 reply
    whose body tells how to pass the token. *)
Theorem C5_bootstrap_token_decides
        (options : AccessMiddlewareOptions) (env : MoltbotEnv) (c : Request) :
  isDevMode env = false -> isE2ETestMode env = false ->
  isBootstrapMode env = true ->
  let o := middleware options env c in
  (extractGatewayToken c = getGatewayToken env ->
     o = mkOutcome (Some (mkUser "bootstrap" (Some "Setup (Gateway Token)")))
                   true (Downstream next))
  /\ (extractGatewayToken c <> getGatewayToken env ->
        o = denied (type options) 401 bootstrapDeniedJson bootstrapDeniedHtml
                   None false
        /\ replyStatus (reply o) = Some 401%Z
        /\ describesToken (reply o) = true
        /\ nextCalled o = false)
  /\ (truthy (searchParamsGet "token" (searchParams c)) = false ->
      truthy (header c "X-Gateway-Token") = false ->
      extractGatewayToken c = None
      /\ extractGatewayToken c <> getGatewayToken env).
Proof.
  intros Hdev He2e Hboot o.
  destruct (bootstrap_mode_inv env Hboot) as [Hsecret _].
  pose proof (tokenMatches_iff (extractGatewayToken c) _ Hsecret) as Hiff.
  assert (Ho : o = middleware options env c) by reflexivity.
  rewrite (bootstrap_outcome options env c Hdev He2e Hboot) in Ho.
  split; [|split].
  - intro E. apply Hiff in E. now rewrite E in Ho.
  - intro N.
    destruct (tokenMatches (extractGatewayToken c) (getGatewayToken env)) eqn:E.
    + exfalso. apply N. now apply Hiff.
    + rewrite Ho.
      destruct (denied_bootstrap_facts (type options)) as (A & B & C & _).
      auto.
  - intros Hq Hh.
    assert (E : extractGatewayToken c = None).
    { unfold extractGatewayToken, orElse. now rewrite Hq, Hh. }
    split; [exact E|]. rewrite E. intro N. rewrite <- N in Hsecret.
    discriminate Hsecret.
Qed.

Lemma extract_nonempty_query (c : Request) (q : string) :
  searchParamsGet "token" (searchParams c) = Some q -> q <> "" ->
  extractGatewayToken c = Some q.
Proof.
  intros Hq Hne. apply truthyStr_true in Hne.
  unfold extractGatewayToken, orElse. rewrite Hq. simpl.
  rewrite Hne. simpl. now rewrite Hne.
Qed.

Lemma extract_falsy_query (c : Request) :
  truthy (searchParamsGet "token" (searchParams c)) = false ->
  extractGatewayToken c = orElse (header c "X-Gateway-Token") None.
Proof.
  intro Hq. unfold extractGatewayToken. unfold orElse at 2. now rewrite Hq.
Qed.

(** C7 (amended).  In bootstrap mode a non-empty query parameter
    [token] is the supplied token: the outcome is the same whatever the
    X-Gateway-Token header holds, present or not. *)
Theorem C7_nonempty_query_token_wins
        (options : AccessMiddlewareOptions) (env : MoltbotEnv) (c : Request)
        (q : string) :
  isDevMode env = false -> isE2ETestMode env = false ->
  isBootstrapMode env = true ->
  searchParamsGet "token" (searchParams c) = Some q -> q <> "" ->
  extractGatewayToken c = Some q
  /\ forall value : option string,
       middleware options env (withGatewayHeader value c)
       = middleware options env c.
Proof.
  intros Hdev He2e Hboot Hq Hne. split.
  - now apply extract_nonempty_query.
  - intro value.
    rewrite !(bootstrap_outcome options env _ Hdev He2e Hboot).
    rewrite (extract_nonempty_query c q Hq Hne).
    now rewrite (extract_nonempty_query (withGatewayHeader value c) q Hq Hne).
Qed.

(** C10.  A query parameter [token] that is empty (or absent) does not
    shadow the X-Gateway-Token header: the supplied token is the
    header's value when that is non-empty and null otherwise.  In
    bootstrap mode such a request with the right header token is let
    through, and one without a header token is refused with 401. *)
Theorem C10_empty_query_token_falls_back_to_header
        (options : AccessMiddlewareOptions) (env : MoltbotEnv) (c : Request) :
  isDevMode env = false -> isE2ETestMode env = false ->
  isBootstrapMode env = true ->
  truthy (searchParamsGet "token" (searchParams c)) = false ->
  extractGatewayToken c = orElse (header c "X-Gateway-Token") None
  /\ (header c "X-Gateway-Token" = getGatewayToken env ->
        middleware options env c
        = mkOutcome (Some bootstrapUser) true (Downstream next))
  /\ (truthy (header c "X-Gateway-Token") = false ->
        extractGatewayToken c = None
        /\ middleware options env c
           = denied (type options) 401 bootstrapDeniedJson
                    bootstrapDeniedHtml None false).
Proof.
  intros Hdev He2e Hboot Hq.
  destruct (bootstrap_mode_inv env Hboot) as [Hsecret _].
  pose proof (extract_falsy_query c Hq) as Hx.
  rewrite (bootstrap_outcome options env c Hdev He2e Hboot), Hx.
  split; [reflexivity|split].
  - intro Hh. rewrite Hh. unfold orElse. rewrite Hsecret.
    assert (T : tokenMatches (getGatewayToken env) (getGatewayToken env) = true)
      by now apply tokenMatches_iff.
    now rewrite T.
  - intro Hh. unfold orElse. rewrite Hh. split; [reflexivity|].
    unfold tokenMatches. reflexivity.
Qed.

End AccessGate.

(** *** Instances *)

Section AccessGateInstances.
Import Auth Examples.

Lemma C6_witness :
  createAccessMiddleware rejectJwt (Ok tt) jsonOptions devEnv
                         (request [("token", "wrong")] None)
  = mkOutcome (Some (mkUser "dev@localhost" (Some "Dev User"))) true
              (Downstream (Ok tt)).
Proof.
  apply C6_dev_or_e2e_mode_allows. reflexivity.
Defined.

Lemma C4_witness :
  replyStatus
    (reply (createAccessMiddleware rejectJwt (Ok tt) htmlOptions emptyEnv
                                   (request [("token", "anything")] None)))
  = Some 500%Z.
Proof.
  destruct (C4_unconfigured_gate_is_server_error
              rejectJwt (Ok tt) htmlOptions emptyEnv
              (request [("token", "anything")] None)
              eq_refl eq_refl eq_refl eq_refl) as (_ & _ & S & _).
  exact S.
Defined.

Lemma C5_witness :
  createAccessMiddleware rejectJwt (Ok tt) htmlOptions bootstrapEnv
                         (request [("token", "my-secret-token")] None)
  = mkOutcome (Some bootstrapUser) true (Downstream (Ok tt)).
Proof.
  destruct (C5_bootstrap_token_decides
              rejectJwt (Ok tt) htmlOptions bootstrapEnv
              (request [("token", "my-secret-token")] None)
              eq_refl eq_refl eq_refl) as (A & _ & _).
  apply A. reflexivity.
Defined.

(** C7 as stated fails when the query token is empty: with [?token=]
    and the right token in the header the request is let through, and
    the same request without the header is refused, so the header
    decided. *)
Lemma C7_counterexample :
  let c := request [("token", "")] (Some "my-secret-token") in
  isDevMode bootstrapEnv = false
  /\ isE2ETestMode bootstrapEnv = false
  /\ isBootstrapMode bootstrapEnv = true
  /\ searchParamsGet "token" (searchParams c) = Some ""
  /\ header c "X-Gateway-Token" = Some "my-secret-token"
  /\ createAccessMiddleware rejectJwt (Ok tt) jsonOptions bootstrapEnv c
     = mkOutcome (Some bootstrapUser) true (Downstream (Ok tt))
  /\ createAccessMiddleware rejectJwt (Ok tt) jsonOptions bootstrapEnv
                            (withGatewayHeader None c)
     = mkOutcome None false (JsonReply bootstrapDeniedJson 401).
Proof. repeat split. Qed.

Lemma C7_witness :
  createAccessMiddleware rejectJwt (Ok tt) jsonOptions bootstrapEnv
    (withGatewayHeader (Some "wrong")
       (request [("token", "my-secret-token")] None))
  = createAccessMiddleware rejectJwt (Ok tt) jsonOptions bootstrapEnv
      (request [("token", "my-secret-token")] None).
Proof.
  apply (C7_nonempty_query_token_wins
           rejectJwt (Ok tt) jsonOptions bootstrapEnv
           (request [("token", "my-secret-token")] None)
           "my-secret-token" eq_refl eq_refl eq_refl eq_refl).
  discriminate.
Defined.

Lemma C10_witness :
  createAccessMiddleware rejectJwt (Ok tt) jsonOptions bootstrapEnv
                         (request [("token", "")] (Some "my-secret-token"))
  = mkOutcome (Some bootstrapUser) true (Downstream (Ok tt)).
Proof.
  destruct (C10_empty_query_token_falls_back_to_header
              rejectJwt (Ok tt) jsonOptions bootstrapEnv
              (request [("token", "")] (Some "my-secret-token"))
              eq_refl eq_refl eq_refl eq_refl) as (_ & A & _).
  apply A. reflexivity.
Defined.

End AccessGateInstances.

(** *** The repository's middleware tests, replayed on the model *)

Section MiddlewareTests.
Import Auth Examples.

Example test_isDevMode :
  isDevMode (envWith (Some "true") None None None None) = true
  /\ isDevMode (envWith None None None None None) = false
  /\ isDevMode (envWith (Some "false") None None None None) = false
  /\ isDevMode (envWith (Some "yes") None None None None) = false
  /\ isDevMode (envWith (Some "") None None None None) = false.
Proof. repeat split. Qed.

Example test_isE2ETestMode :
  isE2ETestMode (envWith None (Some "true") None None None) = true
  /\ isE2ETestMode (envWith None None None None None) = false
  /\ isE2ETestMode (envWith None (Some "false") None None None) = false
  /\ isE2ETestMode (envWith None (Some "yes") None None None) = false.
Proof. repeat split. Qed.

Example test_extractJWT :
  extractJWT (requestOf [("CF-Access-JWT-Assertion", "header.payload.signature")] [])
  = Some "header.payload.signature"
  /\ extractJWT (requestOf [("Cookie", "CF_Authorization=cookie.payload.signature")] [])
     = Some "cookie.payload.signature"
  /\ extractJWT (requestOf [("Cookie", "other=value; CF_Authorization=cookie.payload.signature; another=test")] [])
     = Some "cookie.payload.signature"
  /\ extractJWT (requestOf [("CF-Access-JWT-Assertion", "header.jwt.token");
                            ("Cookie", "CF_Authorization=cookie.jwt.token")] [])
     = Some "header.jwt.token"
  /\ extractJWT (requestOf [] []) = None
  /\ extractJWT (requestOf [("Cookie", "other=value; session=abc123")] []) = None.
Proof. repeat split. Qed.

Example test_extractGatewayToken :
  extractGatewayToken (requestOf [] [("token", "abc123")]) = Some "abc123"
  /\ extractGatewayToken (requestOf [] []) = None.
Proof. repeat split. Qed.

Example test_isBootstrapMode :
  isBootstrapMode (envWith None None None None (Some "token")) = true
  /\ isBootstrapMode (envWith None None (Some "team.cloudflareaccess.com")
                              (Some "aud") (Some "token")) = false
  /\ isBootstrapMode (envWith None None None None None) = false.
Proof. repeat split. Qed.

Example test_middleware_not_configured :
  reply (createAccessMiddleware rejectJwt (Ok tt) jsonOptions emptyEnv
                                (requestOf [] []))
  = JsonReply notConfiguredJson 500
  /\ reply (createAccessMiddleware rejectJwt (Ok tt) htmlOptions emptyEnv
                                   (requestOf [] []))
     = HtmlReply notConfiguredHtml 500
  /\ includes "Admin UI Not Configured" notConfiguredHtml = true.
Proof. repeat split. Qed.

Example test_middleware_missing_jwt :
  reply (createAccessMiddleware rejectJwt (Ok tt) jsonOptions accessEnv
                                (requestOf [] []))
  = JsonReply missingJwtJson 401
  /\ reply (createAccessMiddleware rejectJwt (Ok tt) htmlOptions accessEnv
                                   (requestOf [] []))
     = HtmlReply (missingJwtHtml "team.cloudflareaccess.com") 401
  /\ reply (createAccessMiddleware rejectJwt (Ok tt)
                                   (mkOptions html (Some true)) accessEnv
                                   (requestOf [] []))
     = RedirectReply "https://team.cloudflareaccess.com" 302.
Proof. repeat split. Qed.

Example test_middleware_bootstrap :
  let env := envWith None None None None (Some "my-secret-token") in
  accessUser (createAccessMiddleware rejectJwt (Ok tt) htmlOptions env
                (requestOf [] [("token", "my-secret-token")]))
  = Some bootstrapUser
  /\ accessUser (createAccessMiddleware rejectJwt (Ok tt) jsonOptions env
                   (requestOf [("X-Gateway-Token", "my-secret-token")] []))
     = Some bootstrapUser
  /\ reply (createAccessMiddleware rejectJwt (Ok tt) jsonOptions
              (envWith None None None None (Some "correct-token"))
              (requestOf [] [("token", "wrong-token")]))
     = JsonReply bootstrapDeniedJson 401
  /\ reply (createAccessMiddleware rejectJwt (Ok tt) htmlOptions
              (envWith None None None None (Some "my-token"))
              (requestOf [] []))
     = HtmlReply bootstrapDeniedHtml 401
  /\ includes "Add your gateway token to the URL" bootstrapDeniedHtml = true.
Proof. repeat split. Qed.

End MiddlewareTests.

(** ** Histories *)

Lemma fileAfter_logged (path : string) (h : History) (c : Call) :
  fileAfter path (logged h c) = applyCall path (fileAfter path h) c.
Proof. unfold fileAfter, logged. now rewrite fold_left_app. Qed.

Lemma countCalls_app (p : Call -> bool) (h ext : History) :
  countCalls p (h ++ ext)%list = countCalls p h + countCalls p ext.
Proof. unfold countCalls. now rewrite filter_app, length_app. Qed.

Lemma countCalls_logged (p : Call -> bool) (h : History) (c : Call) :
  countCalls p (logged h c) = countCalls p h + (if p c then 1 else 0).
Proof.
  unfold logged. rewrite countCalls_app. unfold countCalls. simpl.
  now destruct (p c).
Qed.

Lemma startedCommands_app (h ext : History) :
  startedCommands (h ++ ext)%list
  = (startedCommands h ++ startedCommands ext)%list.
Proof.
  induction h as [|c h IH]; [reflexivity|].
  destruct c; simpl; now rewrite IH.
Qed.

Lemma isTransfer_transferCommand (command : string) (timeout : option Z) :
  isTransfer (Exec (transferCommand command) timeout) = true.
Proof. unfold isTransfer, transferCommand. simpl. now destruct command. Qed.

Lemma transferCommand_not_remove (command : string) :
  (transferCommand command =? "rm -f " ++ RCLONE_TEMP_CONFIG) = false.
Proof. reflexivity. Qed.

Lemma secretsConfigured_hasR2Config (env : MoltbotEnv) :
  Sync.hasR2Config env = true <-> secretsConfigured env.
Proof.
  unfold Sync.hasR2Config, secretsConfigured.
  rewrite !trimmed_truthy, !andb_true_iff, !truthyStr_true. tauto.
Qed.

(** ** [runRcloneWithFreshConfig] *)

Section FreshConfig.
Variable sb : Sandbox.

(** With the secrets configured the function is the straight line
    write, transfer, remove; a rejection at any of the three calls
    ends it there. *)
Lemma run_configured (env : MoltbotEnv) (command : string)
      (timeout : option Z) (h : History) :
  secretsConfigured env ->
  let h1 := logged h (WriteFile RCLONE_TEMP_CONFIG (freshContent env)) in
  let h2 := logged h1 (Exec (transferCommand command)
                            (effectiveTimeout timeout)) in
  let h3 := logged h2 (Exec removeCommand None) in
  runRcloneWithFreshConfig sb env command timeout h
  = match onWriteFile sb h RCLONE_TEMP_CONFIG (freshContent env) with
    | Thrown e => (Thrown e, h1)
    | Ok _ =>
        match onExec sb h1 (transferCommand command)
                     (effectiveTimeout timeout) with
        | Thrown e => (Thrown e, h2)
        | Ok result =>
            match onExec sb h2 removeCommand None with
            | Thrown e => (Thrown e, h3)
            | Ok _ => (Ok (fromExec result), h3)
            end
        end
    end.
Proof.
  intros (Ha & Hs & Hc) h1 h2 h3.
  apply truthyStr_true in Ha, Hs, Hc.
  unfold runRcloneWithFreshConfig. rewrite Ha, Hs, Hc.
  change (negb true || negb true || negb true) with false. cbv iota.
  unfold bind, writeFile, exec, ret.
  fold (freshContent env). fold (effectiveTimeout timeout). fold h1.
  destruct (onWriteFile sb h RCLONE_TEMP_CONFIG (freshContent env));
    [|reflexivity].
  fold h2.
  destruct (onExec sb h1 (transferCommand command) (effectiveTimeout timeout));
    [|reflexivity].
  fold h3. now destruct (onExec sb h2 removeCommand None).
Qed.

(** With the three secrets non-empty the function first writes the
    credential file, built from the current secrets, to the temp path,
    then runs the transfer against it.  Once the transfer call has
    returned a result, whether it reports success or failure, [rm -f]
    of that path is the next call; when that call has returned too, the
    function returns the transfer's result and the file is gone. *)
Lemma run_removes_config_after_transfer
      (env : MoltbotEnv) (command : string) (timeout : option Z)
      (h : History) (result : ExecResult) :
  secretsConfigured env ->
  let h1 := logged h (WriteFile RCLONE_TEMP_CONFIG (freshContent env)) in
  let h2 := logged h1 (Exec (transferCommand command)
                            (effectiveTimeout timeout)) in
  let h3 := logged h2 (Exec removeCommand None) in
  let final := snd (runRcloneWithFreshConfig sb env command timeout h) in
  onWriteFile sb h RCLONE_TEMP_CONFIG (freshContent env) = Ok tt ->
  onExec sb h1 (transferCommand command) (effectiveTimeout timeout)
    = Ok result ->
  final = (h ++ [ WriteFile RCLONE_TEMP_CONFIG (freshContent env);
                  Exec (transferCommand command) (effectiveTimeout timeout);
                  Exec removeCommand None ])%list
  /\ fileAfter RCLONE_TEMP_CONFIG h1 = Some (freshContent env)
  /\ fileAfter RCLONE_TEMP_CONFIG h2 = Some (freshContent env)
  /\ (forall removed : ExecResult,
        onExec sb h2 removeCommand None = Ok removed ->
        runRcloneWithFreshConfig sb env command timeout h
        = (Ok (fromExec result), h3)
        /\ fileAfter RCLONE_TEMP_CONFIG h3 = None
        /\ r_success (fromExec result) = success result).
Proof.
  intros Hcfg h1 h2 h3 final Hw He.
  pose proof (run_configured env command timeout h Hcfg) as Hrun.
  cbv zeta in Hrun. fold h1 h2 h3 in Hrun. rewrite Hw, He in Hrun.
  assert (Hfinal : final = h3).
  { unfold final. rewrite Hrun.
    now destruct (onExec sb h2 removeCommand None). }
  assert (F1 : fileAfter RCLONE_TEMP_CONFIG h1 = Some (freshContent env)).
  { unfold h1. rewrite fileAfter_logged. simpl. reflexivity. }
  assert (F2 : fileAfter RCLONE_TEMP_CONFIG h2 = Some (freshContent env)).
  { unfold h2. rewrite fileAfter_logged, F1. unfold applyCall.
    now rewrite transferCommand_not_remove. }
  rewrite Hfinal. split; [|split; [exact F1|split; [exact F2|]]].
  - unfold h3, h2, h1, logged. now rewrite <- !app_assoc.
  - intros removed Hr. rewrite Hrun, Hr. split; [reflexivity|split].
    + unfold h3. rewrite fileAfter_logged, F2. reflexivity.
    + reflexivity.
Qed.

(** Calls added by one configured invocation: exactly one write of the
    credential file and at most one transfer, exactly one when the
    invocation returns. *)
Lemma run_history (env : MoltbotEnv) (command : string)
      (timeout : option Z) (h : History) :
  secretsConfigured env ->
  let final := snd (runRcloneWithFreshConfig sb env command timeout h) in
  attempts final = attempts h + 1
  /\ transfers final <= transfers h + 1
  /\ (exists ext, final = (h ++ ext)%list)
  /\ (forall r h', runRcloneWithFreshConfig sb env command timeout h
                   = (Ok r, h') -> transfers h' = transfers h + 1).
Proof.
  intros Hcfg final. subst final.
  rewrite (run_configured env command timeout h Hcfg). cbv zeta.
  set (w := WriteFile RCLONE_TEMP_CONFIG (freshContent env)).
  set (e := Exec (transferCommand command) (effectiveTimeout timeout)).
  set (r := Exec removeCommand None).
  assert (Te : isTransfer e = true) by apply isTransfer_transferCommand.
  assert (A1 : attempts (logged h w) = attempts h + 1)
    by (unfold attempts; now rewrite countCalls_logged).
  assert (A2 : attempts (logged (logged h w) e) = attempts h + 1)
    by (unfold attempts in *; rewrite countCalls_logged, A1;
        change (isFreshConfigWrite e) with false; cbv iota; lia).
  assert (A3 : attempts (logged (logged (logged h w) e) r) = attempts h + 1)
    by (unfold attempts in *; rewrite countCalls_logged, A2;
        change (isFreshConfigWrite r) with false; cbv iota; lia).
  assert (T1 : transfers (logged h w) = transfers h)
    by (unfold transfers; rewrite countCalls_logged;
        change (isTransfer w) with false; cbv iota; lia).
  assert (T2 : transfers (logged (logged h w) e) = transfers h + 1)
    by (unfold transfers in *; rewrite countCalls_logged, T1, Te; cbv iota; lia).
  assert (T3 : transfers (logged (logged (logged h w) e) r) = transfers h + 1)
    by (unfold transfers in *; rewrite countCalls_logged, T2;
        change (isTransfer r) with false; cbv iota; lia).
  assert (X1 : exists ext, logged h w = (h ++ ext)%list)
    by (now exists [w]).
  assert (X2 : exists ext, logged (logged h w) e = (h ++ ext)%list)
    by (exists [w; e]; unfold logged; now rewrite <- app_assoc).
  assert (X3 : exists ext,
             logged (logged (logged h w) e) r = (h ++ ext)%list)
    by (exists [w; e; r]; unfold logged; now rewrite <- !app_assoc).
  destruct (onWriteFile sb h RCLONE_TEMP_CONFIG (freshContent env)).
  2:{ simpl. repeat split; try lia; try assumption. intros; discriminate. }
  destruct (onExec sb (logged h w) (transferCommand command)
                   (effectiveTimeout timeout)).
  2:{ simpl. repeat split; try lia; try assumption. intros; discriminate. }
  destruct (onExec sb (logged (logged h w) e) removeCommand None); simpl.
  - repeat split; try lia; try assumption.
    intros r0 h' E. inversion E; subst. exact T3.
  - repeat split; try lia; try assumption. intros; discriminate.
Qed.

End FreshConfig.

Section FreshConfigInstances.
Import Examples.

Lemma r2Env_configured : secretsConfigured r2Env.
Proof. repeat split; intro H; vm_compute in H; discriminate H. Qed.

(** C2.  The credential file is to be deleted before the function
    returns on every code path, failure of the transfer included.  On
    the code this holds where the transfer call returns a result, and
    fails where the call itself rejects.  With a transfer that reports
    failure (connection refused), [rm -f] follows it and the file is
    gone when the function returns that result.  With a transfer whose
    [exec] promise rejects (the timeout), the function rejects after
    the write and the transfer: no [rm -f] is issued and the credential
    file stays in the sandbox. *)
Theorem C2_rejected_transfer_leaves_the_credential_file :
  secretsConfigured r2Env
  /\ runRcloneWithFreshConfig unreachableSandbox r2Env
                              "size r2:clawworker-data/" None []
     = (Ok (mkRclone "Failed to size: connection refused" "" false 1%Z),
        [ WriteFile RCLONE_TEMP_CONFIG (freshContent r2Env);
          Exec (transferCommand "size r2:clawworker-data/") (Some 15000%Z);
          Exec removeCommand None ])
  /\ fileAfter RCLONE_TEMP_CONFIG
       (snd (runRcloneWithFreshConfig unreachableSandbox r2Env
               "size r2:clawworker-data/" None []))
     = None
  /\ runRcloneWithFreshConfig timeoutSandbox r2Env "size r2:clawworker-data/"
                              None []
     = (Thrown (ErrorObj "Command timed out"),
        [ WriteFile RCLONE_TEMP_CONFIG (freshContent r2Env);
          Exec (transferCommand "size r2:clawworker-data/") (Some 15000%Z) ])
  /\ fileAfter RCLONE_TEMP_CONFIG
       (snd (runRcloneWithFreshConfig timeoutSandbox r2Env
               "size r2:clawworker-data/" None []))
     = Some (freshContent r2Env).
Proof.
  split; [exact r2Env_configured|].
  split; [|split; [|split]]; vm_compute; reflexivity.
Qed.

Example run_removes_config_on_reported_failure :
  fileAfter RCLONE_TEMP_CONFIG
    (snd (runRcloneWithFreshConfig unreachableSandbox r2Env
            "size r2:clawworker-data/" None []))
  = None
  /\ fst (runRcloneWithFreshConfig unreachableSandbox r2Env
            "size r2:clawworker-data/" None [])
     = Ok (mkRclone "Failed to size: connection refused" "" false 1%Z).
Proof.
  destruct (run_removes_config_after_transfer
              unreachableSandbox r2Env "size r2:clawworker-data/" None []
              (failedExec "Failed to size: connection refused")
              r2Env_configured eq_refl eq_refl)
    as (_ & _ & _ & R).
  destruct (R (okExec "") eq_refl) as (E & F & _).
  rewrite E. split; [exact F | reflexivity].
Qed.

End FreshConfigInstances.

(** ** The connectivity probe *)

Section Probe.
Variable sb : Sandbox.

Lemma storageTest_unfold (env : MoltbotEnv) (h : History) :
  secretsConfigured env ->
  Api.storageTest sb env h
  = match runRcloneWithFreshConfig sb env (Api.sizeCommand env) None h with
    | (Thrown e, h1) => (Thrown e, h1)
    | (Ok r1, h1) =>
        if r_success r1 then (Ok (Api.probeBody env r1), h1)
        else
          match runRcloneWithFreshConfig sb env (Api.sizeCommand env) None
                                         (logged h1 (Sleep 1500)) with
          | (Ok r2, h2) => (Ok (Api.probeBody env r2), h2)
          | (Thrown e, h2) => (Thrown e, h2)
          end
    end.
Proof.
  intros (Ha & Hs & Hc).
  apply trimmed_nonempty_truthy in Ha, Hs, Hc.
  unfold Api.storageTest. rewrite Ha, Hs, Hc.
  change (negb true || negb true || negb true) with false. cbv iota.
  unfold bind at 1.
  destruct (runRcloneWithFreshConfig sb env (Api.sizeCommand env) None h)
    as [[r1|e] h1]; [|reflexivity].
  unfold bind at 1. destruct (r_success r1); simpl; [reflexivity|].
  unfold bind at 1. unfold sleep.
  now destruct (runRcloneWithFreshConfig sb env (Api.sizeCommand env) None
                  (logged h1 (Sleep 1500))) as [[r2|e] h2].
Qed.

(** C9.  With the secrets configured the probe invokes the transfer
    tool at most twice.  A first invocation that reports success is the
    answer, with nothing issued after it.  A first invocation that
    reports failure is followed by the 1500 ms pause and exactly one
    more invocation, whose result, success or failure, is the answer. *)
Theorem C9_probe_retries_exactly_once (env : MoltbotEnv) (h : History) :
  secretsConfigured env ->
  let run := runRcloneWithFreshConfig sb env (Api.sizeCommand env) None in
  let final := snd (Api.storageTest sb env h) in
  attempts final <= attempts h + 2
  /\ transfers final <= transfers h + 2
  /\ (forall r1 h1,
        run h = (Ok r1, h1) -> r_success r1 = true ->
        Api.storageTest sb env h = (Ok (Api.probeBody env r1), h1)
        /\ attempts h1 = attempts h + 1
        /\ transfers h1 = transfers h + 1)
  /\ (forall r1 h1,
        run h = (Ok r1, h1) -> r_success r1 = false ->
        attempts final = attempts h + 2
        /\ (exists tail, final = (h1 ++ Sleep 1500 :: tail)%list)
        /\ forall r2 h2,
             run (logged h1 (Sleep 1500)) = (Ok r2, h2) ->
             Api.storageTest sb env h = (Ok (Api.probeBody env r2), h2)
             /\ transfers h2 = transfers h + 2).
Proof.
  intros Hcfg run final. subst final.
  rewrite (storageTest_unfold env h Hcfg). fold run.
  destruct (run_history sb env (Api.sizeCommand env) None h Hcfg)
    as (A1 & T1 & _ & R1).
  fold run in A1, T1, R1.
  destruct (run h) as [[r1|e] h1] eqn:E1; simpl in A1, T1.
  2:{ simpl. repeat split; try lia; intros; discriminate. }
  specialize (R1 r1 h1 eq_refl).
  set (hs := logged h1 (Sleep 1500)).
  assert (As : attempts hs = attempts h1)
    by (unfold hs, attempts; rewrite countCalls_logged; simpl; lia).
  assert (Ts : transfers hs = transfers h1)
    by (unfold hs, transfers; rewrite countCalls_logged; simpl; lia).
  destruct (run_history sb env (Api.sizeCommand env) None hs Hcfg)
    as (A2 & T2 & (ext & X2) & R2).
  fold run in A2, T2, X2, R2.
  destruct (r_success r1) eqn:S1.
  - simpl. split; [lia|]. split; [lia|]. split.
    + intros r h' E _. inversion E; subst. repeat split; lia.
    + intros r h' E S2. inversion E; subst. congruence.
  - assert (F : snd (match run hs with
                     | (Ok r2, h2) => (Ok (Api.probeBody env r2), h2)
                     | (Thrown e, h2) => (Thrown e, h2)
                     end) = snd (run hs))
      by (now destruct (run hs) as [[r2|e] h2]).
    rewrite F. split; [lia|]. split; [lia|]. split.
    + intros r h' E S2. inversion E; subst. congruence.
    + intros r h' E _. inversion E; subst. split; [lia|]. split.
      * exists ext. rewrite X2. unfold hs, logged. now rewrite <- app_assoc.
      * intros r2 h2 E2. fold hs in E2. rewrite E2.
        split; [reflexivity|]. rewrite (R2 r2 h2 E2). lia.
Qed.

End Probe.

Section ProbeInstances.
Import Examples.

Lemma C9_witness :
  attempts (snd (Api.storageTest unreachableSandbox r2Env [])) = 2
  /\ transfers (snd (Api.storageTest unreachableSandbox r2Env [])) = 2.
Proof.
  destruct (C9_probe_retries_exactly_once unreachableSandbox r2Env []
              r2Env_configured) as (_ & _ & _ & Retry).
  destruct (Retry _ _ eq_refl eq_refl) as (A & _ & Second).
  destruct (Second _ _ eq_refl) as (E & T).
  split; [exact A|]. rewrite E. exact T.
Defined.

End ProbeInstances.

(** ** Sequencing *)

Lemma bind_ok {A B : Type} (m : M A) (k : A -> M B) (h h1 : History) (a : A) :
  m h = (Ok a, h1) -> bind m k h = k a h1.
Proof. intro E. unfold bind. now rewrite E. Qed.

Lemma bind_thrown {A B : Type} (m : M A) (k : A -> M B) (h h1 : History)
      (e : Exn) :
  m h = (Thrown e, h1) -> bind m k h = (Thrown e, h1).
Proof. intro E. unfold bind. now rewrite E. Qed.

Lemma bind_inv {A B : Type} (m : M A) (k : A -> M B) (h h' : History) (b : B) :
  bind m k h = (Ok b, h') ->
  exists a h1, m h = (Ok a, h1) /\ k a h1 = (Ok b, h').
Proof.
  unfold bind. destruct (m h) as [[a|e] h1]; intro E.
  - now exists a, h1.
  - discriminate E.
Qed.

(** ** [syncToR2] *)

Section SyncToR2.
Variable sb : Sandbox.

Lemma detectConfigDir_dir (h h1 : History) (dir : string) :
  Sync.detectConfigDir sb h = (Ok (Some dir), h1) -> truthyStr dir = true.
Proof.
  unfold Sync.detectConfigDir. intro E.
  apply bind_inv in E as (check & h0 & _ & E).
  destruct (strictEqOpt (trimOpt (stdout check)) "openclaw").
  - inversion E. reflexivity.
  - destruct (strictEqOpt (trimOpt (stdout check)) "clawdbot");
      inversion E. reflexivity.
Qed.

Lemma syncToR2_after_config (env : MoltbotEnv) (h h1 h2 : History)
      (dir : string) (cfg : RcloneResult) :
  Sync.hasR2Config env = true ->
  Sync.detectConfigDir sb h = (Ok (Some dir), h1) ->
  runRcloneWithFreshConfig sb env (Sync.configSyncCommand env dir)
                           (Some Sync.SYNC_TIMEOUT) h1 = (Ok cfg, h2) ->
  Sync.syncToR2 sb env h
  = if negb (r_success cfg)
    then (Ok (Sync.mkSync false None (Some "Config sync failed")
                          (Some (Sync.configFailureDetails cfg))), h2)
    else Sync.syncOptionalAndStamp sb env h2.
Proof.
  intros Hcfg Hdir Hrun. unfold Sync.syncToR2. rewrite Hcfg.
  change (negb true) with false. cbv iota.
  rewrite (bind_ok _ _ _ _ _ Hdir).
  rewrite (detectConfigDir_dir _ _ _ Hdir).
  change (negb true) with false. cbv iota.
  rewrite (bind_ok _ _ _ _ _ Hrun). now destruct (r_success cfg).
Qed.

(** Whenever the tail of the sync returns, it returns success with the
    trimmed read-back of the stamp file. *)
Lemma syncOptionalAndStamp_result (env : MoltbotEnv) (h h' : History)
      (res : Sync.SyncResult) :
  Sync.syncOptionalAndStamp sb env h = (Ok res, h') ->
  exists hr ts,
    onExec sb hr Sync.readStampCommand None = Ok ts
    /\ h' = logged hr (Exec Sync.readStampCommand None)
    /\ res = Sync.mkSync true (trimOpt (stdout ts)) None None.
Proof.
  unfold Sync.syncOptionalAndStamp. intro E.
  apply bind_inv in E as (hasWorkspace & h1 & _ & E).
  apply bind_inv in E as (u1 & h2 & _ & E).
  apply bind_inv in E as (hasSkills & h3 & _ & E).
  apply bind_inv in E as (u2 & h4 & _ & E).
  apply bind_inv in E as (stamp & h5 & _ & E).
  apply bind_inv in E as (ts & h6 & Hread & E).
  unfold exec in Hread. inversion Hread as [[Hts Hh6]].
  unfold ret in E. inversion E. subst.
  exists h5, ts. repeat split. exact Hts.
Qed.

Lemma exec_fulfils (command : string) (timeout : option Z) (h : History) :
  fulfils sb ->
  exists r, exec sb command timeout h = (Ok r, logged h (Exec command timeout)).
Proof.
  intros [_ He]. destruct (He h command timeout) as [r E].
  exists r. unfold exec. now rewrite E.
Qed.

Lemma run_fulfils (env : MoltbotEnv) (command : string)
      (timeout : option Z) (h : History) :
  fulfils sb -> secretsConfigured env ->
  exists r h', runRcloneWithFreshConfig sb env command timeout h = (Ok r, h').
Proof.
  intros [Hw He] Hcfg.
  rewrite (run_configured sb env command timeout h Hcfg). cbv zeta.
  rewrite Hw.
  destruct (He (logged h (WriteFile RCLONE_TEMP_CONFIG (freshContent env)))
               (transferCommand command) (effectiveTimeout timeout))
    as [r ->].
  match goal with
  | |- context [onExec sb ?hh removeCommand None] =>
      destruct (He hh removeCommand None) as [r' ->]
  end.
  eauto.
Qed.

Lemma optional_sync_fulfils (env : MoltbotEnv) (present : bool)
      (command : string) (h : History) :
  fulfils sb -> secretsConfigured env ->
  exists h',
    (if present
     then runRcloneWithFreshConfig sb env command (Some Sync.SYNC_TIMEOUT)
            ;;; ret tt
     else ret tt) h = (Ok tt, h').
Proof.
  intros Hf Hcfg. destruct present.
  - destruct (run_fulfils env command (Some Sync.SYNC_TIMEOUT) h Hf Hcfg)
      as (r & h' & E).
    exists h'. now rewrite (bind_ok _ _ _ _ _ E).
  - now exists h.
Qed.

Lemma syncOptionalAndStamp_fulfils (env : MoltbotEnv) (h : History) :
  fulfils sb -> secretsConfigured env ->
  exists res h', Sync.syncOptionalAndStamp sb env h = (Ok res, h').
Proof.
  intros Hf Hcfg. unfold Sync.syncOptionalAndStamp.
  destruct (exec_fulfils Sync.hasWorkspaceCommand None h Hf) as [r1 E1].
  rewrite (bind_ok _ _ _ _ _ E1).
  destruct (optional_sync_fulfils env
              (strictEqOpt (trimOpt (stdout r1)) "yes")
              (Sync.workspaceSyncCommand env)
              (logged h (Exec Sync.hasWorkspaceCommand None)) Hf Hcfg)
    as [h2 E2].
  rewrite (bind_ok _ _ _ _ _ E2).
  destruct (exec_fulfils Sync.hasSkillsCommand None h2 Hf) as [r3 E3].
  rewrite (bind_ok _ _ _ _ _ E3).
  destruct (optional_sync_fulfils env
              (strictEqOpt (trimOpt (stdout r3)) "yes")
              (Sync.skillsSyncCommand env)
              (logged h2 (Exec Sync.hasSkillsCommand None)) Hf Hcfg)
    as [h4 E4].
  rewrite (bind_ok _ _ _ _ _ E4).
  destruct (exec_fulfils Sync.writeStampCommand None h4 Hf) as [r5 E5].
  rewrite (bind_ok _ _ _ _ _ E5).
  destruct (exec_fulfils Sync.readStampCommand None
              (logged h4 (Exec Sync.writeStampCommand None)) Hf) as [r6 E6].
  rewrite (bind_ok _ _ _ _ _ E6).
  unfold ret. eauto.
Qed.

Lemma configFailureDetails_bounded (cfg : RcloneResult) :
  String.length (Sync.configFailureDetails cfg) <= 2000.
Proof.
  unfold Sync.configFailureDetails.
  match goal with
  | |- context [truthyStr ?s] => destruct (truthyStr s)
  end.
  - apply sliceLast_length.
  - vm_compute. lia.
Qed.

(** With the three secrets configured and a config directory detected,
    a config sync reporting failure is fatal: syncToR2 returns at once,
    with success false, error "Config sync failed" and at most the last
    2000 code units of the captured output as details.  A config sync
    reporting success leads to success true with the read-back stamp as
    lastSync in every run in which the sandbox calls fulfil, whatever
    the workspace and skills syncs report.  Whenever syncToR2 returns a
    result, it has success true exactly when the config sync reported
    success. *)
Lemma syncToR2_decided_by_config_sync
        (env : MoltbotEnv) (h h1 h2 : History) (dir : string)
        (cfg : RcloneResult) :
  Sync.hasR2Config env = true ->
  Sync.detectConfigDir sb h = (Ok (Some dir), h1) ->
  runRcloneWithFreshConfig sb env (Sync.configSyncCommand env dir)
                           (Some Sync.SYNC_TIMEOUT) h1 = (Ok cfg, h2) ->
  (r_success cfg = false ->
     Sync.syncToR2 sb env h
     = (Ok (Sync.mkSync false None (Some "Config sync failed")
                        (Some (Sync.configFailureDetails cfg))), h2)
     /\ String.length (Sync.configFailureDetails cfg) <= 2000)
  /\ (r_success cfg = true -> fulfils sb ->
        exists hr ts,
          onExec sb hr Sync.readStampCommand None = Ok ts
          /\ Sync.syncToR2 sb env h
             = (Ok (Sync.mkSync true (trimOpt (stdout ts)) None None),
                logged hr (Exec Sync.readStampCommand None)))
  /\ (forall res hend,
        Sync.syncToR2 sb env h = (Ok res, hend) ->
        (Sync.success res = true <-> r_success cfg = true)).
Proof.
  intros Hcfg Hdir Hrun.
  pose proof (syncToR2_after_config env h h1 h2 dir cfg Hcfg Hdir Hrun) as U.
  split; [|split].
  - intro F. rewrite F in U. split; [exact U|].
    apply configFailureDetails_bounded.
  - intros T Hf. rewrite T in U. simpl in U.
    apply secretsConfigured_hasR2Config in Hcfg.
    destruct (syncOptionalAndStamp_fulfils env h2 Hf Hcfg) as (res & h' & E).
    destruct (syncOptionalAndStamp_result env h2 h' res E)
      as (hr & ts & Hts & -> & ->).
    exists hr, ts. split; [exact Hts|]. now rewrite U.
  - intros res hend E. rewrite U in E. destruct (r_success cfg); simpl in E.
    + destruct (syncOptionalAndStamp_result env h2 hend res E)
        as (hr & ts & _ & _ & ->).
      simpl. tauto.
    + inversion E. simpl. split; discriminate.
Qed.

End SyncToR2.

Section SyncToR2Instances.
Import Examples.

Lemma syncSandbox_fulfils (workspace : ExecResult) :
  fulfils (syncSandbox (Ok workspace)).
Proof.
  split; intros; [reflexivity|]. simpl.
  repeat match goal with
         | |- context [if ?b then _ else _] => destruct b
         end; eauto.
Qed.

(** C1.  Failures of the workspace and skills syncs are to be swallowed
    and must not prevent a success:true result.  On the code this holds
    for a workspace sync that reports failure, and fails for one whose
    [exec] promise rejects.  The sandbox holds an openclaw config and a
    workspace, the secrets are configured and the config sync succeeds.
    With a workspace sync that reports failure, syncToR2 returns
    success true with the stamp.  With a workspace sync that rejects
    (the exec timeout), syncToR2 rejects with that error: the
    workspace transfer is its last call, and no stamp is written. *)
Theorem C1_rejected_workspace_sync_aborts_the_sync :
  let reporting :=
    syncSandbox (Ok (failedExec "Failed to sync: directory not found")) in
  let rejecting := syncSandbox (Thrown (ErrorObj "Command timed out")) in
  Sync.hasR2Config r2Env = true
  /\ fst (Sync.detectConfigDir rejecting []) = Ok (Some "/root/.openclaw")
  /\ option_map r_success
       (match fst (runRcloneWithFreshConfig rejecting r2Env
                     (Sync.configSyncCommand r2Env "/root/.openclaw")
                     (Some Sync.SYNC_TIMEOUT)
                     (snd (Sync.detectConfigDir rejecting []))) with
        | Ok cfg => Some cfg
        | Thrown _ => None
        end) = Some true
  /\ fst (Sync.syncToR2 reporting r2Env [])
     = Ok (Sync.mkSync true (Some "2026-02-12T10:00:00+00:00") None None)
  /\ fst (Sync.syncToR2 rejecting r2Env [])
     = Thrown (ErrorObj "Command timed out")
  /\ last (snd (Sync.syncToR2 rejecting r2Env [])) EnsureGateway
     = Exec (transferCommand (Sync.workspaceSyncCommand r2Env))
            (Some Sync.SYNC_TIMEOUT)
  /\ stamps (snd (Sync.syncToR2 rejecting r2Env [])) = 0.
Proof.
  cbv zeta.
  split; [|split; [|split; [|split; [|split; [|split]]]]];
    vm_compute; reflexivity.
Qed.

Example syncToR2_swallows_a_reported_workspace_failure :
  fst (Sync.syncToR2
         (syncSandbox (Ok (failedExec "Failed to sync: directory not found")))
         r2Env [])
  = Ok (Sync.mkSync true (Some "2026-02-12T10:00:00+00:00") None None).
Proof.
  set (sb := syncSandbox (Ok (failedExec "Failed to sync: directory not found"))).
  edestruct (syncToR2_decided_by_config_sync sb r2Env [])
    as (_ & S & _).
  - reflexivity.
  - vm_compute. reflexivity.
  - vm_compute. reflexivity.
  - destruct (S eq_refl (syncSandbox_fulfils _)) as (hr & ts & Hts & E).
    rewrite E. simpl in Hts. inversion Hts. reflexivity.
Qed.

End SyncToR2Instances.

(** ** Approve-all *)

Lemma filter_split_length (rs : list Api.Approval) :
  List.length (filter Api.isSuccess rs) + List.length (filter Api.isFailure rs)
  = List.length rs.
Proof.
  induction rs as [|r rs IH]; [reflexivity|].
  unfold Api.isSuccess, Api.isFailure in *. simpl.
  destruct (Api.a_success r); simpl; lia.
Qed.

Section ApproveAll.
Variable sb : Sandbox.
Variable parsePending : string -> Res (list Api.Device).

(** One pass of the loop body always completes with an entry for the
    device; it starts one process and no other. *)
Lemma approveDevice_completes (env : MoltbotEnv) (device : Api.Device)
      (h : History) :
  exists r ext,
    Api.approveDevice sb env device h
    = (Ok r, (h ++ StartProcess (Api.approveCommand env device) :: ext)%list)
    /\ Api.a_requestId r = Api.requestId device
    /\ startedCommands ext = [].
Proof.
  unfold Api.approveDevice, tryCatch, bind, startProcess, waitForProcess,
    getLogs, readExitCode, ret, logged.
  destruct (onStartProcess sb h (Api.approveCommand env device)) as [p|e].
  2:{ eexists; exists []. repeat split. }
  destruct (onWaitForProcess sb _ p Api.CLI_TIMEOUT_MS) as [u|e].
  2:{ eexists; exists [WaitForProcess p Api.CLI_TIMEOUT_MS].
      rewrite <- app_assoc. repeat split. }
  destruct (onGetLogs sb _ p) as [logs|e];
    eexists; exists [WaitForProcess p Api.CLI_TIMEOUT_MS; GetLogs p];
    rewrite <- !app_assoc; repeat split.
Qed.

Lemma approveEach_completes (env : MoltbotEnv) (pending : list Api.Device) :
  forall (results : list Api.Approval) (h : History),
  exists rs ext,
    Api.approveEach sb env pending results h
    = (Ok (results ++ rs)%list, (h ++ ext)%list)
    /\ map Api.a_requestId rs = map Api.requestId pending
    /\ startedCommands ext = map (Api.approveCommand env) pending.
Proof.
  induction pending as [|device rest IH]; intros results h.
  - exists [], []. simpl. unfold ret. now rewrite !app_nil_r.
  - destruct (approveDevice_completes env device h)
      as (r & ext1 & E1 & Hid & Hs1).
    simpl. rewrite (bind_ok _ _ _ _ _ E1).
    destruct (IH (results ++ [r])%list
                 (h ++ StartProcess (Api.approveCommand env device) :: ext1)%list)
      as (rs & ext2 & E2 & Hids & Hs2).
    exists (r :: rs),
      (StartProcess (Api.approveCommand env device) :: ext1 ++ ext2)%list.
    rewrite E2. rewrite <- !app_assoc. simpl. repeat split.
    + now rewrite Hid, Hids.
    + now rewrite startedCommands_app, Hs1, Hs2.
Qed.

Lemma approvePending_completes (env : MoltbotEnv)
      (pending : list Api.Device) (h : History) :
  exists body ext,
    Api.approvePending sb env pending h = (Ok (body, 200%Z), (h ++ ext)%list)
    /\ List.length (entries (Api.approved body))
       + List.length (entries (Api.failed body)) = List.length pending
    /\ startedCommands ext = map (Api.approveCommand env) pending
    /\ (pending <> [] ->
        exists rs,
          map Api.a_requestId rs = map Api.requestId pending
          /\ body = Api.batchBody pending rs).
Proof.
  unfold Api.approvePending. destruct pending as [|d rest] eqn:P.
  - exists Api.nothingPendingBody, []. simpl. unfold ret.
    rewrite app_nil_r. repeat split. intro N. now contradiction N.
  - rewrite <- P. replace (List.length pending =? 0)%nat with false
      by (subst pending; reflexivity).
    destruct (approveEach_completes env pending [] h)
      as (rs & ext & E & Hids & Hs).
    rewrite (bind_ok _ _ _ _ _ E). simpl app.
    exists (Api.batchBody pending rs), ext. unfold ret. repeat split.
    + simpl. rewrite length_map, filter_split_length.
      rewrite <- (length_map Api.a_requestId), Hids. apply length_map.
    + exact Hs.
    + intros _. now exists rs.
Qed.






End ApproveAll.

Section ApproveAllInstances.
Import Examples.


(** Three requests on a sandbox where every call fulfils: after the
    list call the history is the three turns, one after another. *)
Example approve_all_runs_one_turn_after_another :
  let turn command :=
    [StartProcess command;
     WaitForProcess (mkProcess command) Api.CLI_TIMEOUT_MS;
     GetLogs (mkProcess command)] in
  Api.approveAll pairingSandbox parseThree emptyEnv []
  = (Ok (Api.mkApproveAll (Some ["req-1"; "req-2"; "req-3"]) (Some [])
                          (Some "Approved 3 of 3 device(s)") None None,
         200%Z),
     (EnsureGateway :: turn (Api.listCommand emptyEnv)
        ++ flat_map (fun d => turn (Api.approveCommand emptyEnv d))
                    threePending)%list).
Proof. vm_compute. reflexivity. Qed.

End ApproveAllInstances.

(* ------------------------------------------------------------------ *)
(** * Further properties *)

(** ** Token extraction and the gate as a whole *)

Section GateExtras.
Import Auth.

Variable verifyAccessJWT : string -> string -> string -> Res AccessUser.
Variable next : Res unit.

Local Abbreviation gate := (createAccessMiddleware verifyAccessJWT next).

Lemma orElse_truthy_left (a b : option string) :
  truthy a = true -> orElse a b = a.
Proof. intro H. unfold orElse. now rewrite H. Qed.

Lemma orElse_falsy_left (a b : option string) :
  truthy a = false -> orElse a b = b.
Proof. intro H. unfold orElse. now rewrite H. Qed.

(** X1.  Both extractors answer null or a non-empty string, never the
    empty string; a non-empty dedicated header wins over the cookie (for
    the JWT) and a non-empty query parameter over the header (for the
    gateway token). *)
Theorem X1_extractors_return_null_or_nonempty (c : Request) :
  (extractJWT c = None \/ truthy (extractJWT c) = true)
  /\ (extractGatewayToken c = None \/ truthy (extractGatewayToken c) = true)
  /\ (truthy (header c "CF-Access-JWT-Assertion") = true ->
      extractJWT c = header c "CF-Access-JWT-Assertion")
  /\ (truthy (searchParamsGet "token" (searchParams c)) = true ->
      extractGatewayToken c = searchParamsGet "token" (searchParams c)).
Proof.
  split; [apply orElse_none_shape|]. split; [apply orElse_none_shape|]. split.
  - intro H. unfold extractJWT. rewrite (orElse_truthy_left _ _ H).
    now apply orElse_truthy_left.
  - intro H. unfold extractGatewayToken. rewrite (orElse_truthy_left _ _ H).
    now apply orElse_truthy_left.
Qed.

(** X2.  Whatever the configuration and the request, the next handler
    runs only with an identity set, and a request that is not passed on
    is answered with 401, 500 or 302; the redirect occurs only for HTML
    routes created with [redirectOnMissing]. *)
Theorem X2_gate_decision_is_total
        (options : AccessMiddlewareOptions) (env : MoltbotEnv) (c : Request) :
  let o := gate options env c in
  (nextCalled o = true -> accessUser o <> None)
  /\ (accessUser o <> None -> nextCalled o = true)
  /\ (nextCalled o = false ->
      replyStatus (reply o) = Some 401%Z
      \/ replyStatus (reply o) = Some 500%Z
      \/ replyStatus (reply o) = Some 302%Z)
  /\ (replyStatus (reply o) = Some 302%Z ->
      type options = html /\ redirectOnMissing options = Some true).
Proof.
  unfold createAccessMiddleware, denied.
  destruct options as [t [[|]|]]; simpl type; simpl redirectOnMissing;
  repeat match goal with
         | |- context [if ?b then _ else _] => destruct b
         | |- context [match ?x with _ => _ end] => destruct x
         end;
    simpl; repeat split; intros; try discriminate; try congruence; auto.
Qed.

(** X3.  Once team domain and audience are configured (dev and E2E
    off), the gateway token no longer opens the gate: the outcome is a
    function of the JWT alone, and a request without one is refused
    whatever token it carries in its query or X-Gateway-Token header. *)
Theorem X3_issuer_mode_ignores_gateway_token
        (options : AccessMiddlewareOptions) (env : MoltbotEnv) (c c' : Request) :
  isDevMode env = false -> isE2ETestMode env = false ->
  truthy (CF_ACCESS_TEAM_DOMAIN env) = true ->
  truthy (CF_ACCESS_AUD env) = true ->
  (extractJWT c = extractJWT c' -> gate options env c = gate options env c')
  /\ (extractJWT c = None ->
      nextCalled (gate options env c) = false
      /\ accessUser (gate options env c) = None
      /\ (replyStatus (reply (gate options env c)) = Some 401%Z
          \/ replyStatus (reply (gate options env c)) = Some 302%Z)).
Proof.
  intros Hdev He2e Ht Ha.
  unfold createAccessMiddleware. rewrite Hdev, He2e, Ht, Ha. simpl.
  split.
  - intro E. now rewrite E.
  - intro E. rewrite E. unfold denied.
    destruct (type options), (redirectOnMissing options) as [[|]|];
      simpl; auto.
Qed.

(** X4.  The two token variables are joined with [??]: an empty
    GATEWAY_TOKEN hides a MOLTBOT_GATEWAY_TOKEN.  Bootstrap mode holds
    exactly when the issuer is not configured and GATEWAY_TOKEN is
    non-empty, or absent with a non-empty legacy token. *)
Theorem X4_bootstrap_mode_characterised (env : MoltbotEnv) :
  isBootstrapMode env = true
  <-> (truthy (CF_ACCESS_TEAM_DOMAIN env) && truthy (CF_ACCESS_AUD env) = false
       /\ match GATEWAY_TOKEN env with
          | Some token => token <> ""
          | None => truthy (MOLTBOT_GATEWAY_TOKEN env) = true
          end).
Proof.
  unfold isBootstrapMode, getGatewayToken, nullish.
  rewrite andb_true_iff, negb_true_iff.
  destruct (GATEWAY_TOKEN env) as [token|]; simpl.
  - now rewrite truthyStr_true.
  - reflexivity.
Qed.

End GateExtras.

Section GateExtrasInstances.
Import Auth Examples.

Lemma X1_witness :
  extractJWT (requestOf [("CF-Access-JWT-Assertion", "header.jwt.token");
                         ("Cookie", "CF_Authorization=cookie.jwt.token")] [])
  = Some "header.jwt.token".
Proof.
  destruct (X1_extractors_return_null_or_nonempty
              (requestOf [("CF-Access-JWT-Assertion", "header.jwt.token");
                          ("Cookie", "CF_Authorization=cookie.jwt.token")] []))
    as (_ & _ & H & _).
  apply H. reflexivity.
Defined.

Lemma X2_witness :
  accessUser (createAccessMiddleware rejectJwt (Ok tt) jsonOptions bootstrapEnv
                (request [("token", "my-secret-token")] None))
  <> None.
Proof.
  destruct (X2_gate_decision_is_total rejectJwt (Ok tt) jsonOptions bootstrapEnv
              (request [("token", "my-secret-token")] None)) as (H & _).
  apply H. reflexivity.
Defined.

Lemma X3_witness :
  nextCalled (createAccessMiddleware rejectJwt (Ok tt) jsonOptions
                (envWith None None (Some "team.cloudflareaccess.com")
                         (Some "aud123") (Some "my-secret-token"))
                (request [("token", "my-secret-token")]
                         (Some "my-secret-token")))
  = false.
Proof.
  destruct (X3_issuer_mode_ignores_gateway_token
              rejectJwt (Ok tt) jsonOptions
              (envWith None None (Some "team.cloudflareaccess.com")
                       (Some "aud123") (Some "my-secret-token"))
              (request [("token", "my-secret-token")] (Some "my-secret-token"))
              (request [] None)
              eq_refl eq_refl eq_refl eq_refl) as (_ & H).
  destruct (H eq_refl) as (N & _). exact N.
Defined.

Lemma X4_witness :
  isBootstrapMode
    (mkEnv None None None None (Some "") (Some "legacy-token")
           None None None None) = false.
Proof.
  destruct (isBootstrapMode
              (mkEnv None None None None (Some "") (Some "legacy-token")
                     None None None None)) eqn:E; [|reflexivity].
  apply X4_bootstrap_mode_characterised in E. destruct E as [_ N].
  now contradiction N.
Defined.

End GateExtrasInstances.

(** ** The generated rclone configuration *)

Lemma countChar_app (c : ascii) (a b : string) :
  countChar c (a ++ b) = countChar c a + countChar c b.
Proof.
  induction a as [|d a IH]; [reflexivity|]. simpl. rewrite IH. lia.
Qed.

Lemma countChar_filter (c : ascii) (l : list ascii) :
  countChar c (string_of_list_ascii l)
  = List.length (filter (fun d => Ascii.eqb d c) l).
Proof.
  induction l as [|d l IH]; [reflexivity|]. simpl.
  destruct (Ascii.eqb d c); simpl; now rewrite IH.
Qed.

Lemma filter_dropWhite_le (p : ascii -> bool) (l : list ascii) :
  List.length (filter p (dropWhite l)) <= List.length (filter p l).
Proof.
  induction l as [|d l IH]; [simpl; lia|].
  simpl dropWhite. destruct (isWhite d); [|lia].
  simpl. destruct (p d); simpl; lia.
Qed.

Lemma countChar_trim_le (c : ascii) (s : string) :
  countChar c (trim s) <= countChar c s.
Proof.
  unfold trim. rewrite countChar_filter.
  rewrite <- (string_of_list_ascii_of_string s) at 2.
  rewrite countChar_filter.
  rewrite filter_rev, length_rev.
  etransitivity; [apply filter_dropWhite_le|].
  rewrite filter_rev, length_rev. apply filter_dropWhite_le.
Qed.

Lemma stripNewlines_no_LF (s : string) :
  countChar nl (stripNewlines s) = 0
  /\ forall c, countChar nl (stripNewlines (String c s)) = 0.
Proof.
  induction s as [|d s [IH1 IH2]].
  - split; [reflexivity|]. intro c. simpl.
    destruct (Ascii.eqb c nl) eqn:E; [reflexivity|].
    destruct (Ascii.eqb c cr); simpl; now rewrite E.
  - split; [apply IH2|]. intro c.
    change (stripNewlines (String c (String d s)))
      with (if Ascii.eqb c nl then stripNewlines (String d s)
            else if Ascii.eqb c cr then
                   if Ascii.eqb d nl then stripNewlines s
                   else String c (stripNewlines (String d s))
                 else String c (stripNewlines (String d s))).
    destruct (Ascii.eqb c nl) eqn:E; [apply IH2|].
    destruct (Ascii.eqb c cr).
    + destruct (Ascii.eqb d nl); [exact IH1|].
      cbn [countChar]. rewrite E. now rewrite IH2.
    + cbn [countChar]. rewrite E. now rewrite IH2.
Qed.

Lemma safe_no_LF (s : string) : countChar nl (safe s) = 0.
Proof.
  unfold safe. pose proof (countChar_trim_le nl (stripNewlines s)) as H.
  destruct (stripNewlines_no_LF s) as [Z _]. lia.
Qed.

Lemma split_single (sep : ascii) (a : string) :
  countChar sep a = 0 -> split sep a = [a].
Proof.
  induction a as [|d a IH]; [reflexivity|]. simpl.
  destruct (Ascii.eqb d sep); [discriminate|]. simpl. intro H.
  now rewrite (IH H).
Qed.

Lemma split_cons (sep : ascii) (a rest : string) :
  countChar sep a = 0 ->
  split sep (a ++ String sep rest) = a :: split sep rest.
Proof.
  induction a as [|d a IH]; simpl.
  - intros _. now rewrite Ascii.eqb_refl.
  - destruct (Ascii.eqb d sep); [discriminate|]. simpl. intro H.
    now rewrite (IH H).
Qed.

Lemma split_line (sep : ascii) (a rest : string) :
  countChar sep a = 0 ->
  split sep (a ++ String sep "" ++ rest) = a :: split sep rest.
Proof. apply split_cons. Qed.

(** X5.  Whatever the three secrets contain, the generated rclone
    configuration splits at its line feeds into exactly the eight
    intended lines: no secret can add a line or a section. *)
Theorem X5_rclone_config_has_exactly_its_eight_lines
        (accessKey secretKey accountId : string) :
  split nl (buildRcloneConfigContent accessKey secretKey accountId)
  = [ "[r2]";
      "type = s3";
      "provider = Cloudflare";
      "access_key_id = " ++ safe accessKey;
      "secret_access_key = " ++ safe secretKey;
      "endpoint = https://" ++ safe accountId ++ ".r2.cloudflarestorage.com";
      "acl = private";
      "no_check_bucket = true" ]
  /\ countChar nl (buildRcloneConfigContent accessKey secretKey accountId) = 7.
Proof.
  assert (L4 : countChar nl ("access_key_id = " ++ safe accessKey) = 0)
    by (rewrite countChar_app, safe_no_LF; reflexivity).
  assert (L5 : countChar nl ("secret_access_key = " ++ safe secretKey) = 0)
    by (rewrite countChar_app, safe_no_LF; reflexivity).
  assert (L6 : countChar nl ("endpoint = https://" ++ safe accountId
                               ++ ".r2.cloudflarestorage.com") = 0)
    by (rewrite !countChar_app, safe_no_LF; reflexivity).
  unfold buildRcloneConfigContent, join, NL. split.
  - repeat (rewrite split_line; [f_equal | first [reflexivity | assumption]]);
      try reflexivity.
  - rewrite !countChar_app, !safe_no_LF. reflexivity.
Qed.

(** ** Which code touches the sandbox, and when *)

Section ConfigExtras.
Variable sb : Sandbox.

Lemma hasR2Config_false_trimmed (env : MoltbotEnv) :
  Sync.hasR2Config env = false ->
  negb (truthyStr (trimmed (R2_ACCESS_KEY_ID env)))
  || negb (truthyStr (trimmed (R2_SECRET_ACCESS_KEY env)))
  || negb (truthyStr (trimmed (CF_ACCOUNT_ID env))) = true.
Proof.
  unfold Sync.hasR2Config. rewrite !trimmed_truthy.
  destruct (truthyStr (trimmed (R2_ACCESS_KEY_ID env))),
    (truthyStr (trimmed (R2_SECRET_ACCESS_KEY env))),
    (truthyStr (trimmed (CF_ACCOUNT_ID env))); simpl; congruence.
Qed.

Lemma attempts_extension_differs (h : History) (final : History) :
  attempts final = attempts h + 1 -> final <> h.
Proof. intros H E. subst. lia. Qed.

(** X6.  [runRcloneWithFreshConfig] and [hasR2Config] test the same
    thing: the sandbox is left untouched exactly when a secret is empty
    after trimming, and the answer is then the fixed failure
    "R2 not configured" with exit code 1; otherwise a credential file is
    written. *)
Theorem X6_transfer_layer_agrees_with_hasR2Config
        (env : MoltbotEnv) (command : string) (timeout : option Z)
        (h : History) :
  (snd (runRcloneWithFreshConfig sb env command timeout h) = h
   <-> Sync.hasR2Config env = false)
  /\ (Sync.hasR2Config env = false ->
      runRcloneWithFreshConfig sb env command timeout h
      = (Ok notConfiguredResult, h))
  /\ (Sync.hasR2Config env = true ->
      attempts (snd (runRcloneWithFreshConfig sb env command timeout h))
      = attempts h + 1).
Proof.
  assert (Off : Sync.hasR2Config env = false ->
                runRcloneWithFreshConfig sb env command timeout h
                = (Ok notConfiguredResult, h)).
  { intro H. unfold runRcloneWithFreshConfig.
    now rewrite (hasR2Config_false_trimmed env H). }
  assert (On : Sync.hasR2Config env = true ->
               attempts (snd (runRcloneWithFreshConfig sb env command timeout h))
               = attempts h + 1).
  { intro H. apply secretsConfigured_hasR2Config in H.
    now destruct (run_history sb env command timeout h H) as (A & _). }
  split; [|split; assumption].
  destruct (Sync.hasR2Config env) eqn:E.
  - split; [|discriminate]. intro S.
    exfalso. now apply (attempts_extension_differs h _ (On eq_refl)).
  - split; [reflexivity|]. intros _. now rewrite (Off eq_refl).
Qed.

(** X7.  [ensureRcloneConfig] answers true exactly when the three
    secrets survive trimming.  When it answers false it has made no
    call.  When it answers true it has issued mkdir, [rm -f] of the
    config path and the write, in this order, so that no stale file is
    left when the write happens and the file then holds the content
    built from the current secrets. *)
Theorem X7_ensureRcloneConfig_rewrites_the_config
        (env : MoltbotEnv) (h h' : History) (answer : bool) :
  R2Persist.ensureRcloneConfig sb env h = (Ok answer, h') ->
  answer = Sync.hasR2Config env
  /\ (answer = false -> h' = h)
  /\ (answer = true ->
      h' = (h ++ [ Exec R2Persist.mkdirCommand None;
                   Exec R2Persist.removeStaleCommand None;
                   WriteFile R2Persist.RCLONE_CONF_PATH (freshContent env) ])%list
      /\ fileAfter R2Persist.RCLONE_CONF_PATH
           (h ++ [ Exec R2Persist.mkdirCommand None;
                   Exec R2Persist.removeStaleCommand None ])%list = None
      /\ fileAfter R2Persist.RCLONE_CONF_PATH h' = Some (freshContent env)).
Proof.
  unfold R2Persist.ensureRcloneConfig, Sync.hasR2Config.
  destruct (truthy (trimOpt (R2_ACCESS_KEY_ID env)));
    destruct (truthy (trimOpt (R2_SECRET_ACCESS_KEY env)));
    destruct (truthy (trimOpt (CF_ACCOUNT_ID env))); simpl;
    try (unfold ret; intro E; inversion E; subst;
         repeat split; congruence).
  intro E.
  apply bind_inv in E as (r1 & h1 & E1 & E).
  apply bind_inv in E as (r2 & h2 & E2 & E).
  apply bind_inv in E as (r3 & h3 & E3 & E).
  unfold exec in E1, E2. unfold writeFile in E3. unfold ret in E.
  inversion E1; inversion E2; inversion E3; inversion E; subst.
  split; [reflexivity|]. split; [discriminate|]. intros _.
  fold (freshContent env). unfold logged. rewrite <- !app_assoc. simpl.
  split; [reflexivity|].
  unfold fileAfter. rewrite !fold_left_app. simpl. split; reflexivity.
Qed.

End ConfigExtras.

Section ConfigExtrasInstances.
Import Examples.

Lemma X7_witness :
  fileAfter R2Persist.RCLONE_CONF_PATH
    (snd (R2Persist.ensureRcloneConfig healthySandbox r2Env
            [WriteFile R2Persist.RCLONE_CONF_PATH "stale"]))
  = Some (freshContent r2Env).
Proof.
  destruct (X7_ensureRcloneConfig_rewrites_the_config
              healthySandbox r2Env
              [WriteFile R2Persist.RCLONE_CONF_PATH "stale"]
              _ true eq_refl) as (_ & _ & W).
  destruct (W eq_refl) as (_ & _ & F). exact F.
Defined.

Lemma X6_witness :
  runRcloneWithFreshConfig healthySandbox
    (mkEnv None None None None None None
           (Some "key") (Some "   ") (Some "account") None)
    "size r2:clawworker-data/" None []
  = (Ok notConfiguredResult, []).
Proof.
  destruct (X6_transfer_layer_agrees_with_hasR2Config
              healthySandbox
              (mkEnv None None None None None None
                     (Some "key") (Some "   ") (Some "account") None)
              "size r2:clawworker-data/" None []) as (_ & Off & _).
  apply Off. reflexivity.
Defined.

End ConfigExtrasInstances.

(** ** [syncToR2] and the sync route *)

Section Composition.
Variable sb : Sandbox.

Lemma adds_ret {A : Type} (p : Call -> bool) (a : A) : adds p 0 (ret a).
Proof. intro h. simpl. lia. Qed.

Lemma adds_exec (p : Call -> bool) (command : string) (timeout : option Z) :
  p (Exec command timeout) = false -> adds p 0 (exec sb command timeout).
Proof.
  intros H h. unfold exec. simpl. rewrite countCalls_logged, H. lia.
Qed.

Lemma adds_bind {A B : Type} (p : Call -> bool) (a b : nat)
      (m : M A) (k : A -> M B) :
  adds p a m -> (forall x, adds p b (k x)) -> adds p (a + b) (bind m k).
Proof.
  intros Hm Hk h. unfold bind. specialize (Hm h).
  destruct (m h) as [[x|e] h1]; simpl in *.
  - specialize (Hk x h1). lia.
  - lia.
Qed.

Lemma adds_weaken {A : Type} (p : Call -> bool) (a b : nat) (m : M A) :
  adds p a m -> a <= b -> adds p b m.
Proof. intros H L h. specialize (H h). lia. Qed.

Lemma run_unconfigured (env : MoltbotEnv) (command : string)
      (timeout : option Z) (h : History) :
  Sync.hasR2Config env = false ->
  runRcloneWithFreshConfig sb env command timeout h
  = (Ok notConfiguredResult, h).
Proof.
  intro H. unfold runRcloneWithFreshConfig.
  now rewrite (hasR2Config_false_trimmed env H).
Qed.

Lemma adds_run_transfers (env : MoltbotEnv) (command : string)
      (timeout : option Z) :
  adds isTransfer 1 (runRcloneWithFreshConfig sb env command timeout).
Proof.
  intro h. destruct (Sync.hasR2Config env) eqn:E.
  - apply secretsConfigured_hasR2Config in E.
    destruct (run_history sb env command timeout h E) as (_ & T & _).
    exact T.
  - rewrite (run_unconfigured env command timeout h E). simpl. lia.
Qed.

Lemma adds_run_attempts (env : MoltbotEnv) (command : string)
      (timeout : option Z) :
  adds isFreshConfigWrite 1 (runRcloneWithFreshConfig sb env command timeout).
Proof.
  intro h. destruct (Sync.hasR2Config env) eqn:E.
  - apply secretsConfigured_hasR2Config in E.
    destruct (run_history sb env command timeout h E) as (A & _).
    fold (attempts h).
    fold (attempts (snd (runRcloneWithFreshConfig sb env command timeout h))).
    lia.
  - rewrite (run_unconfigured env command timeout h E). simpl. lia.
Qed.

Lemma adds_run_stamps (env : MoltbotEnv) (command : string)
      (timeout : option Z) :
  adds isStamp 0 (runRcloneWithFreshConfig sb env command timeout).
Proof.
  intro h. destruct (Sync.hasR2Config env) eqn:E.
  - apply secretsConfigured_hasR2Config in E.
    rewrite (run_configured sb env command timeout h E). cbv zeta.
    assert (St : isStamp (Exec (transferCommand command)
                               (effectiveTimeout timeout)) = false)
      by (unfold isStamp, transferCommand; reflexivity).
    destruct (onWriteFile sb h RCLONE_TEMP_CONFIG (freshContent env)); simpl.
    2:{ rewrite countCalls_logged. simpl. lia. }
    match goal with
    | |- context [match ?x with _ => _ end] => destruct x
    end; simpl.
    2:{ rewrite !countCalls_logged, St. simpl. lia. }
    match goal with
    | |- context [match ?x with _ => _ end] => destruct x
    end; simpl; rewrite !countCalls_logged, St; simpl; lia.
  - rewrite (run_unconfigured env command timeout h E). simpl. lia.
Qed.

Lemma adds_optional (p : Call -> bool) (env : MoltbotEnv) (present : bool)
      (command : string) (n : nat) :
  adds p n (runRcloneWithFreshConfig sb env command (Some Sync.SYNC_TIMEOUT)) ->
  adds p n (if present
            then runRcloneWithFreshConfig sb env command
                   (Some Sync.SYNC_TIMEOUT) ;;; ret tt
            else ret tt).
Proof.
  intro H. destruct present.
  - replace n with (n + 0) by lia. apply adds_bind; [exact H|].
    intros _. apply adds_ret.
  - apply (adds_weaken p 0 n); [apply adds_ret | lia].
Qed.

Lemma adds_detect (p : Call -> bool) :
  p (Exec Sync.detectCommand None) = false ->
  adds p 0 (Sync.detectConfigDir sb).
Proof.
  intro H. unfold Sync.detectConfigDir.
  change 0 with (0 + 0). apply adds_bind; [now apply adds_exec|].
  intro check.
  destruct (strictEqOpt (trimOpt (stdout check)) "openclaw");
    [apply adds_ret|].
  destruct (strictEqOpt (trimOpt (stdout check)) "clawdbot"); apply adds_ret.
Qed.

(** The tail of the sync adds [2 * n] calls of a kind of which one
    transfer invocation adds [n], provided the kind excludes its own
    four shell commands. *)
Lemma adds_tail (p : Call -> bool) (env : MoltbotEnv) (n : nat) :
  p (Exec Sync.hasWorkspaceCommand None) = false ->
  p (Exec Sync.hasSkillsCommand None) = false ->
  p (Exec Sync.writeStampCommand None) = false ->
  p (Exec Sync.readStampCommand None) = false ->
  (forall command,
      adds p n (runRcloneWithFreshConfig sb env command
                  (Some Sync.SYNC_TIMEOUT))) ->
  adds p (n + n) (Sync.syncOptionalAndStamp sb env).
Proof.
  intros H1 H2 H3 H4 Hrun. unfold Sync.syncOptionalAndStamp.
  replace (n + n) with (0 + (n + (0 + (n + (0 + (0 + 0)))))) by lia.
  apply adds_bind; [now apply adds_exec|]. intro hasWorkspace.
  apply adds_bind; [apply adds_optional, Hrun|]. intros _.
  apply adds_bind; [now apply adds_exec|]. intro hasSkills.
  apply adds_bind; [apply adds_optional, Hrun|]. intros _.
  apply adds_bind; [now apply adds_exec|]. intros _.
  apply adds_bind; [now apply adds_exec|]. intro ts. apply adds_ret.
Qed.

Lemma adds_syncToR2 (p : Call -> bool) (env : MoltbotEnv) (n : nat) :
  p (Exec Sync.detectCommand None) = false ->
  p (Exec Sync.hasWorkspaceCommand None) = false ->
  p (Exec Sync.hasSkillsCommand None) = false ->
  p (Exec Sync.writeStampCommand None) = false ->
  p (Exec Sync.readStampCommand None) = false ->
  (forall command,
      adds p n (runRcloneWithFreshConfig sb env command
                  (Some Sync.SYNC_TIMEOUT))) ->
  adds p (n + (n + n)) (Sync.syncToR2 sb env).
Proof.
  intros H0 H1 H2 H3 H4 Hrun. unfold Sync.syncToR2.
  destruct (negb (Sync.hasR2Config env)).
  { apply (adds_weaken p 0); [apply adds_ret | lia]. }
  replace (n + (n + n)) with (0 + (n + (n + n))) by lia.
  apply adds_bind; [now apply adds_detect|]. intros [dir|].
  2:{ apply (adds_weaken p 0); [apply adds_ret | lia]. }
  destruct (negb (truthyStr dir)).
  { apply (adds_weaken p 0); [apply adds_ret | lia]. }
  apply adds_bind; [apply Hrun|]. intro cfg.
  destruct (negb (r_success cfg)).
  - apply (adds_weaken p 0); [apply adds_ret | lia].
  - now apply adds_tail.
Qed.

Lemma detect_counts (p : Call -> bool) (h : History) :
  p (Exec Sync.detectCommand None) = false ->
  countCalls p (snd (Sync.detectConfigDir sb h)) = countCalls p h.
Proof.
  intro H. unfold Sync.detectConfigDir, bind, exec.
  destruct (onExec sb h Sync.detectCommand None); simpl;
    repeat match goal with
           | |- context [if ?b then _ else _] => destruct b
           end; simpl; rewrite countCalls_logged, H; lia.
Qed.

Lemma syncToR2_cases (env : MoltbotEnv) (h : History) :
  (Sync.hasR2Config env = false /\ snd (Sync.syncToR2 sb env h) = h)
  \/ (Sync.hasR2Config env = true
      /\ ((exists dir h1, Sync.detectConfigDir sb h = (Ok (Some dir), h1))
          \/ snd (Sync.syncToR2 sb env h)
             = snd (Sync.detectConfigDir sb h))).
Proof.
  unfold Sync.syncToR2. destruct (Sync.hasR2Config env).
  - change (negb true) with false. cbv iota.
    right. split; [reflexivity|]. unfold bind at 1.
    destruct (Sync.detectConfigDir sb h) as [[[dir|]|e] h1].
    + left. now exists dir, h1.
    + now right.
    + now right.
  - left. now split.
Qed.

(** X8.  One sync invokes the transfer tool at most three times and
    writes at most three credential files, whatever the sandbox does.
    It writes none and transfers nothing unless the secrets are
    configured and a config directory was detected. *)
Theorem X8_sync_transfers_at_most_three_times
        (env : MoltbotEnv) (h : History) :
  let final := snd (Sync.syncToR2 sb env h) in
  transfers final <= transfers h + 3
  /\ attempts final <= attempts h + 3
  /\ (attempts final <> attempts h \/ transfers final <> transfers h ->
      Sync.hasR2Config env = true
      /\ exists dir h1, Sync.detectConfigDir sb h = (Ok (Some dir), h1)).
Proof.
  intro final. subst final. split; [|split].
  - apply (adds_syncToR2 isTransfer env 1); try reflexivity.
    intro command. apply adds_run_transfers.
  - apply (adds_syncToR2 isFreshConfigWrite env 1); try reflexivity.
    intro command. apply adds_run_attempts.
  - destruct (syncToR2_cases env h) as [[_ E]|[C [D|E]]].
    + rewrite E. intros [N|N]; now contradiction N.
    + intros _. now split.
    + rewrite E. unfold transfers, attempts.
      rewrite !detect_counts by reflexivity.
      intros [N|N]; now contradiction N.
Qed.

(** X9.  The last-sync stamp is written only after the config sync has
    reported success: if a run issues the [date] command that writes
    the stamp, the secrets were configured, a config directory was
    found and the config transfer returned [success]. *)
Theorem X9_stamp_requires_successful_config_sync
        (env : MoltbotEnv) (h : History) :
  stamps (snd (Sync.syncToR2 sb env h)) <> stamps h ->
  Sync.hasR2Config env = true
  /\ exists dir h1 cfg h2,
       Sync.detectConfigDir sb h = (Ok (Some dir), h1)
       /\ runRcloneWithFreshConfig sb env (Sync.configSyncCommand env dir)
            (Some Sync.SYNC_TIMEOUT) h1 = (Ok cfg, h2)
       /\ r_success cfg = true.
Proof.
  unfold stamps. intro Changed.
  destruct (syncToR2_cases env h) as [[_ E]|[C [(dir & h1 & D)|E]]].
  - rewrite E in Changed. now contradiction Changed.
  - split; [exact C|].
    pose proof (detect_counts isStamp h eq_refl) as Dc.
    rewrite D in Dc. simpl in Dc.
    pose proof (adds_run_stamps env (Sync.configSyncCommand env dir)
                  (Some Sync.SYNC_TIMEOUT) h1) as R.
    destruct (runRcloneWithFreshConfig sb env (Sync.configSyncCommand env dir)
                (Some Sync.SYNC_TIMEOUT) h1) as [[cfg|e] h2] eqn:Er;
      simpl in R.
    + destruct (r_success cfg) eqn:S.
      * now exists dir, h1, cfg, h2.
      * exfalso. apply Changed.
        rewrite (syncToR2_after_config sb env h h1 h2 dir cfg C D Er), S.
        simpl. apply secretsConfigured_hasR2Config in C.
        destruct (run_history sb env (Sync.configSyncCommand env dir)
                    (Some Sync.SYNC_TIMEOUT) h1 C) as (_ & _ & (ext & X) & _).
        rewrite Er in X. simpl in X. rewrite X, countCalls_app in R |- *.
        lia.
    + exfalso. apply Changed. unfold Sync.syncToR2. rewrite C.
      change (negb true) with false. cbv iota.
      rewrite (bind_ok _ _ _ _ _ D).
      rewrite (detectConfigDir_dir sb _ _ _ D).
      change (negb true) with false. cbv iota.
      rewrite (bind_thrown _ _ _ _ _ Er). simpl.
      apply secretsConfigured_hasR2Config in C.
      destruct (run_history sb env (Sync.configSyncCommand env dir)
                  (Some Sync.SYNC_TIMEOUT) h1 C) as (_ & _ & (ext & X) & _).
      rewrite Er in X. simpl in X. rewrite X, countCalls_app in R |- *.
      lia.
  - rewrite E in Changed. exfalso. apply Changed. now apply detect_counts.
Qed.

End Composition.

Section CleanRuns.
Variable sb : Sandbox.
Hypothesis sandbox_fulfils : fulfils sb.








End CleanRuns.


(** ** Results of the sync and their HTTP status *)

Section SyncResults.
Variable sb : Sandbox.

Lemma syncToR2_result_shape (env : MoltbotEnv) (h h' : History)
      (res : Sync.SyncResult) :
  Sync.syncToR2 sb env h = (Ok res, h') ->
  (Sync.hasR2Config env = false
   /\ res = Sync.mkSync false None (Some "R2 storage is not configured") None
   /\ h' = h)
  \/ (Sync.hasR2Config env = true /\ Sync.success res = false
      /\ (Sync.error res = Some "Sync aborted: no config file found"
          \/ Sync.error res = Some "Config sync failed"))
  \/ (Sync.hasR2Config env = true /\ Sync.success res = true
      /\ Sync.error res = None).
Proof.
  unfold Sync.syncToR2. destruct (Sync.hasR2Config env).
  2:{ simpl. unfold ret. intro E. inversion E. left. now repeat split. }
  change (negb true) with false. cbv iota. intro E. right.
  apply bind_inv in E as ([dir|] & h1 & D & E).
  2:{ unfold ret in E. inversion E. left. simpl. auto. }
  rewrite (detectConfigDir_dir sb _ _ _ D) in E.
  change (negb true) with false in E. cbv iota in E.
  apply bind_inv in E as (cfg & h2 & R & E).
  destruct (r_success cfg); simpl in E.
  - right. destruct (syncOptionalAndStamp_result sb env h2 h' res E)
      as (hr & ts & _ & _ & ->).
    simpl. auto.
  - unfold ret in E. inversion E. left. simpl. auto.
Qed.

(** X11.  The sync route answers with what [syncToR2] returned.  A
    rejection of [syncToR2] is not caught: the handler rejects with the
    same error.  A returned result is answered with its success flag:
    status 200 exactly when the result has success true, with its
    lastSync; otherwise the result's error and details with status 400
    exactly when the secrets are not configured (and then no sandbox
    call was made), and status 500 exactly for the other failures (no
    config file found, config sync failed). *)
Theorem X11_sync_route_status
        (env : MoltbotEnv) (h h' : History)
        (outcome : Res Sync.SyncResult) :
  Sync.syncToR2 sb env h = (outcome, h') ->
  match outcome with
  | Thrown e => Routes.storageSync sb env h = (Thrown e, h')
  | Ok res =>
      exists body status,
        Routes.storageSync sb env h = (Ok (body, status), h')
        /\ Routes.sr_success body = Sync.success res
        /\ (status = 200%Z <-> Sync.success res = true)
        /\ (status = 400%Z <-> Sync.hasR2Config env = false)
        /\ (status = 500%Z <->
            Sync.success res = false /\ Sync.hasR2Config env = true)
        /\ (Sync.success res = true ->
            body = Routes.mkSyncResponse
                     true (Some "Sync completed successfully")
                     (Sync.lastSync res) None None)
        /\ (Sync.success res = false ->
            body = Routes.mkSyncResponse
                     false None None (Sync.error res) (Sync.details res))
        /\ (Sync.hasR2Config env = false -> h' = h)
  end.
Proof.
  intro S. unfold Routes.storageSync, bind. rewrite S.
  destruct outcome as [res|e]; [|reflexivity].
  destruct (syncToR2_result_shape env h h' res S)
    as [(C & -> & ->)|[(C & F & Err)|(C & T & Err)]].
  - simpl. unfold ret. eexists; eexists. split; [reflexivity|].
    rewrite C. simpl.
    repeat match goal with |- _ /\ _ => split end;
      intuition (try discriminate; try reflexivity).
  - rewrite F. unfold ret. eexists; eexists. split; [reflexivity|].
    rewrite C.
    assert (St : Routes.failureStatus (Sync.error res) = 500%Z)
      by (destruct Err as [-> | ->]; reflexivity).
    rewrite St. simpl.
    repeat match goal with |- _ /\ _ => split end;
      intuition (try discriminate; try reflexivity).
  - rewrite T. unfold ret. eexists; eexists. split; [reflexivity|].
    rewrite C. simpl.
    repeat match goal with |- _ /\ _ => split end;
      intuition (try discriminate; try reflexivity).
Qed.

End SyncResults.

(** ** The details of a failed config sync *)

Lemma append_length (a b : string) :
  String.length (a ++ b) = String.length a + String.length b.
Proof. induction a as [|c a IH]; [reflexivity|]. simpl. now rewrite IH. Qed.

Lemma substring_beyond (s : string) :
  forall k m, String.length s - k <= m ->
              substring k m s = substring k (String.length s - k) s.
Proof.
  induction s as [|c s IH]; intros k m H.
  - destruct k, m; reflexivity.
  - destruct k as [|k].
    + simpl String.length in *. destruct m as [|m]; [simpl in H; lia|].
      simpl. f_equal. rewrite (IH 0 m) by (simpl in H; lia).
      now rewrite Nat.sub_0_r.
    + simpl. apply IH. simpl in H. lia.
Qed.

Lemma substring_split (s : string) :
  forall k, k <= String.length s ->
            s = substring 0 k s ++ substring k (String.length s - k) s.
Proof.
  induction s as [|c s IH]; intros k H.
  - destruct k; reflexivity.
  - destruct k as [|k].
    + simpl. f_equal. clear. induction s as [|d s IH]; [reflexivity|].
      simpl. now rewrite <- IH.
    + simpl. f_equal. apply IH. simpl in H. lia.
Qed.

Lemma sliceLast_suffix (n : nat) (s : string) :
  exists pre, s = pre ++ sliceLast n s.
Proof.
  unfold sliceLast. exists (substring 0 (String.length s - n) s).
  rewrite (substring_beyond s (String.length s - n) n) by lia.
  apply substring_split. lia.
Qed.

Lemma sliceLast_short (n : nat) (s : string) :
  String.length s <= n -> sliceLast n s = s.
Proof.
  intro H. unfold sliceLast. replace (String.length s - n) with 0 by lia.
  rewrite (substring_beyond s 0 n) by lia.
  rewrite Nat.sub_0_r.
  pose proof (substring_split s 0 (Nat.le_0_l _)) as E.
  rewrite Nat.sub_0_r in E. replace (substring 0 0 s) with "" in E.
  - now symmetry.
  - now destruct s.
Qed.

(** X12.  The details of a failed config sync are never empty.  They
    are the fixed fallback text exactly when rclone printed nothing;
    otherwise they are the last at most 2000 code units of stderr and
    stdout joined, stderr first, and the whole of it when that is not
    longer than 2000. *)
Theorem X12_failure_details_are_a_bounded_tail (cfg : RcloneResult) :
  let joined :=
    join (NL ++ "---" ++ NL)
         (filterBoolean [r_stderr cfg; r_stdout cfg]) in
  Sync.configFailureDetails cfg <> ""
  /\ String.length (Sync.configFailureDetails cfg) <= 2000
  /\ (joined = "" <-> r_stderr cfg = "" /\ r_stdout cfg = "")
  /\ (joined = "" ->
      Sync.configFailureDetails cfg
      = "No error output from rclone (exit code may indicate failure)")
  /\ (joined <> "" ->
      (exists pre, joined = pre ++ Sync.configFailureDetails cfg)
      /\ (String.length joined <= 2000 ->
          Sync.configFailureDetails cfg = joined)).
Proof.
  intro joined. unfold Sync.configFailureDetails. fold joined.
  split; [|split; [|split; [|split]]].
  - destruct (truthyStr (sliceLast 2000 joined)) eqn:T.
    + now apply truthyStr_true.
    + discriminate.
  - destruct (truthyStr (sliceLast 2000 joined)).
    + apply sliceLast_length.
    + vm_compute. lia.
  - subst joined. unfold filterBoolean.
    destruct (r_stderr cfg) as [|a e], (r_stdout cfg) as [|b o]; simpl;
      split; intro H; try discriminate; try tauto;
      destruct H; discriminate.
  - intros ->. reflexivity.
  - intro N.
    assert (Short : String.length joined <= 2000 -> sliceLast 2000 joined = joined)
      by apply sliceLast_short.
    destruct (sliceLast_suffix 2000 joined) as [pre E].
    destruct (truthyStr (sliceLast 2000 joined)) eqn:T.
    + split; [now exists pre | exact Short].
    + apply truthyStr_false in T. split.
      * exfalso. destruct (Nat.le_gt_cases (String.length joined) 2000) as [L|G].
        -- rewrite (Short L) in T. now apply N.
        -- pose proof (f_equal String.length E) as Len.
           rewrite T in Len. rewrite append_length in Len.
           unfold sliceLast in T.
           assert (P : String.length
                         (substring (String.length joined - 2000) 2000 joined)
                       = 2000).
           { rewrite (substring_beyond joined) by lia.
             pose proof (substring_split joined (String.length joined - 2000))
               as Sp.
             pose proof (f_equal String.length (Sp ltac:(lia))) as Q.
             rewrite append_length in Q.
             pose proof (substring_length_le 0 (String.length joined - 2000)
                           joined).
             pose proof (substring_length_le (String.length joined - 2000)
                           (String.length joined
                            - (String.length joined - 2000)) joined).
             lia. }
           rewrite T in P. discriminate P.
      * intro L. exfalso. rewrite (Short L) in T. now apply N.
Qed.

(** ** The storage status route and the untrimmed checks *)

Section StorageStatus.
Variable sb : Sandbox.

Lemma missingPushed_empty (env : MoltbotEnv) :
  Routes.missingPushed env = [] <-> Routes.hasCredentials env = true.
Proof.
  unfold Routes.missingPushed, Routes.hasCredentials.
  destruct (truthy (R2_ACCESS_KEY_ID env)),
    (truthy (R2_SECRET_ACCESS_KEY env)), (truthy (CF_ACCOUNT_ID env));
    simpl; split; intro H; try reflexivity; discriminate H.
Qed.

Lemma hasR2Config_hasCredentials (env : MoltbotEnv) :
  Sync.hasR2Config env = true -> Routes.hasCredentials env = true.
Proof.
  intro H. apply secretsConfigured_hasR2Config in H as (A & B & C).
  unfold Routes.hasCredentials.
  now rewrite !trimmed_nonempty_truthy.
Qed.

Lemma storageStatus_returns (env : MoltbotEnv) (h : History) :
  exists body h',
    Routes.storageStatus sb env h = (Ok body, h')
    /\ Routes.configured body = Routes.hasCredentials env.
Proof.
  unfold Routes.storageStatus.
  destruct (Routes.hasCredentials env).
  - unfold bind, tryCatch, exec.
    destruct (onExec sb h Routes.lastSyncCommand None) as [r|e].
    + destruct (truthy (trimOpt (stdout r))
                && negb (strictEqOpt (trimOpt (stdout r)) ""));
        unfold ret; eexists; eexists; split; reflexivity.
    + unfold ret. eexists; eexists; split; reflexivity.
  - unfold bind, ret. eexists; eexists; split; reflexivity.
Qed.

(** X13.  The storage status route never rejects.  It reports
    [configured] by the raw secrets, lists in [missing] exactly the
    absent or empty ones and leaves [missing] out exactly when
    configured.  Unconfigured, it makes no sandbox call and reports no
    last sync; configured, it makes the one [cat] call, and a rejected
    call or blank output gives [lastSync: null], never an empty
    string. *)
Theorem X13_storage_status_is_total (env : MoltbotEnv) (h : History) :
  exists body h',
    Routes.storageStatus sb env h = (Ok body, h')
    /\ Routes.configured body = Routes.hasCredentials env
    /\ (Routes.missing body = None <-> Routes.configured body = true)
    /\ (forall names, Routes.missing body = Some names ->
                      names = Routes.missingPushed env /\ names <> [])
    /\ Routes.lastSync body <> Some ""
    /\ (Routes.configured body = false ->
        h' = h /\ Routes.lastSync body = None)
    /\ (Routes.configured body = true ->
        h' = logged h (Exec Routes.lastSyncCommand None)
        /\ (forall e, onExec sb h Routes.lastSyncCommand None = Thrown e ->
                      Routes.lastSync body = None)).
Proof.
  unfold Routes.storageStatus.
  pose proof (missingPushed_empty env) as M.
  destruct (Routes.hasCredentials env) eqn:C.
  - assert (Me : Routes.missingPushed env = []) by now apply M.
    rewrite Me. simpl.
    unfold bind, tryCatch, exec.
    destruct (onExec sb h Routes.lastSyncCommand None) as [r|e] eqn:Ex.
    + destruct (truthy (trimOpt (stdout r))
                && negb (strictEqOpt (trimOpt (stdout r)) "")) eqn:T;
        unfold ret; eexists; eexists; (split; [reflexivity|]); simpl;
        repeat split; try congruence; try discriminate.
      * intro E. rewrite E in T. simpl in T. discriminate T.
    + unfold ret. eexists; eexists. split; [reflexivity|]. simpl.
      repeat split; try congruence; try discriminate.
  - assert (Me : Routes.missingPushed env <> []).
    { intro E. apply M in E. discriminate. }
    unfold bind, ret. simpl.
    destruct (Routes.missingPushed env) as [|n names] eqn:P;
      [now contradiction Me|].
    simpl. eexists; eexists. split; [reflexivity|]. simpl.
    repeat split; try congruence; try discriminate.
Qed.

(** X14.  The routes test the raw secrets, the transfer layer the
    trimmed ones.  Every environment [hasR2Config] accepts passes the
    routes' test; but when all three secrets are set and one of them is
    blank, the status route reports configured while the sync answers
    "R2 storage is not configured", and the probe touches the sandbox
    with nothing but its 1500 ms pause and answers with the fixed
    failure "R2 not configured". *)
Theorem X14_blank_secret_passes_the_route_checks
        (env : MoltbotEnv) (h : History) :
  (Sync.hasR2Config env = true -> Routes.hasCredentials env = true)
  /\ (Routes.hasCredentials env = true -> Sync.hasR2Config env = false ->
      Sync.syncToR2 sb env h
      = (Ok (Sync.mkSync false None (Some "R2 storage is not configured") None),
         h)
      /\ Api.storageTest sb env h
         = (Ok (Api.probeBody env notConfiguredResult), logged h (Sleep 1500))
      /\ exists body h',
           Routes.storageStatus sb env h = (Ok body, h')
           /\ Routes.configured body = true).
Proof.
  split; [apply hasR2Config_hasCredentials|]. intros C N. split; [|split].
  - unfold Sync.syncToR2. now rewrite N.
  - unfold Api.storageTest. unfold Routes.hasCredentials in C.
    apply andb_true_iff in C as [C C3]. apply andb_true_iff in C as [C1 C2].
    rewrite C1, C2, C3. change (negb true || negb true || negb true) with false.
    cbv iota.
    rewrite (bind_ok _ _ _ _ _ (run_unconfigured sb env _ None h N)).
    change (negb (r_success notConfiguredResult)) with true. cbv iota.
    unfold bind at 1. unfold bind at 1. unfold sleep.
    now rewrite (run_unconfigured sb env _ None _ N).
  - destruct (storageStatus_returns env h) as (body & h' & E & Cf).
    exists body, h'. split; [exact E|]. now rewrite Cf.
Qed.

End StorageStatus.

(** ** Finding the JSON in the CLI output *)

Lemma hasChar_cons (x c : ascii) (s : string) :
  hasChar x (String c s) = Ascii.eqb x c || hasChar x s.
Proof. reflexivity. Qed.

Lemma hasChar_cons_false (x c : ascii) (s : string) :
  hasChar x (String c s) = false -> c <> x /\ hasChar x s = false.
Proof.
  rewrite hasChar_cons. intro H. apply orb_false_iff in H as [Hc H].
  split; [|exact H]. intro E. subst. now rewrite Ascii.eqb_refl in Hc.
Qed.

Lemma fromFirstOpen_cons (c : ascii) (s : string) :
  Api.fromFirstOpen (String c s)
  = if Ascii.eqb c "{" then Some (String c s) else Api.fromFirstOpen s.
Proof. reflexivity. Qed.

Lemma upToLastClose_cons (c : ascii) (s : string) :
  Api.upToLastClose (String c s)
  = match Api.upToLastClose s with
    | Some t => Some (String c t)
    | None => if Ascii.eqb c "}" then Some (String c EmptyString) else None
    end.
Proof. reflexivity. Qed.

Lemma fromFirstOpen_skip (pre rest : string) :
  hasChar "{" pre = false ->
  Api.fromFirstOpen (pre ++ String "{" rest) = Some (String "{" rest).
Proof.
  induction pre as [|c pre IH]; [reflexivity|].
  intro H. apply hasChar_cons_false in H as [Hc H].
  change (String c pre ++ String "{" rest)
    with (String c (pre ++ String "{" rest)).
  rewrite fromFirstOpen_cons.
  destruct (Ascii.eqb_spec c "{"); [contradiction|]. now apply IH.
Qed.

Lemma fromFirstOpen_none (s : string) :
  hasChar "{" s = false -> Api.fromFirstOpen s = None.
Proof.
  induction s as [|c s IH]; [reflexivity|].
  intro H. apply hasChar_cons_false in H as [Hc H].
  rewrite fromFirstOpen_cons.
  destruct (Ascii.eqb_spec c "{"); [contradiction|]. now apply IH.
Qed.

Lemma upToLastClose_none (s : string) :
  hasChar "}" s = false -> Api.upToLastClose s = None.
Proof.
  induction s as [|c s IH]; [reflexivity|].
  intro H. apply hasChar_cons_false in H as [Hc H].
  rewrite upToLastClose_cons, (IH H).
  destruct (Ascii.eqb_spec c "}"); [contradiction|reflexivity].
Qed.

Lemma upToLastClose_keep (body post : string) :
  hasChar "}" post = false ->
  Api.upToLastClose (body ++ String "}" post) = Some (body ++ "}").
Proof.
  intro H. induction body as [|c body IH].
  - change ("" ++ String "}" post) with (String "}" post).
    rewrite upToLastClose_cons, (upToLastClose_none post H). reflexivity.
  - change (String c body ++ String "}" post)
      with (String c (body ++ String "}" post)).
    rewrite upToLastClose_cons, IH. reflexivity.
Qed.

Lemma upToLastClose_prefix (s t : string) :
  Api.upToLastClose s = Some t -> exists post, s = t ++ post.
Proof.
  revert t. induction s as [|c s IH]; intros t; [discriminate|].
  rewrite upToLastClose_cons.
  destruct (Api.upToLastClose s) as [u|].
  - intro E. inversion E. destruct (IH u eq_refl) as [post ->].
    now exists post.
  - destruct (Ascii.eqb c "}"); [|discriminate].
    intro E. inversion E. now exists s.
Qed.

Lemma fromFirstOpen_suffix (s t : string) :
  Api.fromFirstOpen s = Some t ->
  exists pre rest, s = pre ++ t /\ t = String "{" rest.
Proof.
  induction s as [|c s IH]; [discriminate|]. rewrite fromFirstOpen_cons.
  destruct (Ascii.eqb_spec c "{") as [->|N].
  - intro E. inversion E. now exists "", s.
  - intro E. destruct (IH E) as (pre & rest & -> & ->).
    now exists (String c pre), rest.
Qed.

(** X15.  [jsonMatch] cuts the JSON object out of CLI output: log text
    before it that holds no opening brace and text after it that holds
    no closing brace are dropped, and the object comes back unchanged.
    Output without an opening brace gives no match, and every match is
    a piece of the output that starts with an opening brace. *)
Theorem X15_jsonMatch_extracts_the_object (pre body post : string) :
  (hasChar "{" pre = false -> hasChar "}" post = false ->
   Api.jsonMatch (pre ++ "{" ++ body ++ "}" ++ post)
   = Some ("{" ++ body ++ "}"))
  /\ (hasChar "{" pre = false -> Api.jsonMatch pre = None)
  /\ (forall s t, Api.jsonMatch s = Some t ->
                  exists before after rest,
                    s = before ++ t ++ after /\ t = String "{" rest).
Proof.
  split; [|split].
  - intros Hpre Hpost. unfold Api.jsonMatch.
    change ("{" ++ body ++ "}" ++ post)
      with (String "{" (body ++ String "}" post)).
    rewrite (fromFirstOpen_skip pre _ Hpre).
    change (String "{" (body ++ String "}" post))
      with ((String "{" body) ++ String "}" post).
    now rewrite (upToLastClose_keep _ post Hpost).
  - intro H. unfold Api.jsonMatch. now rewrite (fromFirstOpen_none pre H).
  - intros s t. unfold Api.jsonMatch.
    destruct (Api.fromFirstOpen s) as [u|] eqn:F; [|discriminate].
    intro U. destruct (fromFirstOpen_suffix s u F) as (before & rest & -> & ->).
    destruct (upToLastClose_prefix _ _ U) as [after E].
    exists before, after.
    destruct t as [|c t'].
    + rewrite upToLastClose_cons in U.
      destruct (Api.upToLastClose rest); [discriminate U|].
      destruct (Ascii.eqb "{" "}"); discriminate U.
    + change (String c t' ++ after) with (String c (t' ++ after)) in E.
      inversion E. subst. exists t'. split; reflexivity.
Qed.

(** ** Approvals *)

Lemma prefix_append (p rest : string) : prefix p (p ++ rest) = true.
Proof.
  induction p as [|c p IH]; simpl; [now destruct rest|].
  destruct (ascii_dec c c); [exact IH | congruence].
Qed.

Lemma includes_unfold (p s : string) :
  includes p s
  = prefix p s || match s with
                  | EmptyString => false
                  | String _ rest => includes p rest
                  end.
Proof. now destruct s. Qed.

Lemma includes_append (p before after : string) :
  includes p (before ++ p ++ after) = true.
Proof.
  induction before as [|c before IH].
  - change ("" ++ p ++ after) with (p ++ after).
    rewrite includes_unfold, prefix_append. reflexivity.
  - change (String c before ++ p ++ after)
      with (String c (before ++ p ++ after)).
    rewrite includes_unfold, IH. apply orb_true_r.
Qed.

Lemma toLowerCase_append (a b : string) :
  toLowerCase (a ++ b) = toLowerCase a ++ toLowerCase b.
Proof. induction a as [|c a IH]; [reflexivity|]. simpl. now rewrite IH. Qed.

(** X16.  An approval counts as successful when the exit code is 0, or
    when the output mentions "approved" in any mix of upper and lower
    case anywhere in it; without output it depends on the exit code
    alone. *)
Theorem X16_approval_success_criterion
        (logs : ProcessLogs) (code : option Z) :
  (code = Some 0%Z -> Api.approvalSucceeded logs code = true)
  /\ (forall before word after,
        toLowerCase word = "approved" ->
        logStdout logs = Some (before ++ word ++ after) ->
        Api.approvalSucceeded logs code = true)
  /\ (logStdout logs = None -> code <> Some 0%Z ->
      Api.approvalSucceeded logs code = false).
Proof.
  unfold Api.approvalSucceeded. split; [|split].
  - intros ->. simpl. apply orb_true_r.
  - intros before word after W ->.
    rewrite !toLowerCase_append, W, includes_append. reflexivity.
  - intros -> N. simpl. destruct code as [z|]; [|reflexivity].
    destruct (Z.eqb_spec z 0); [|reflexivity]. subst. now contradiction N.
Qed.

Lemma count_split (ids : list Api.Approval) (x : string) :
  count_occ string_dec (map Api.a_requestId (filter Api.isSuccess ids)) x
  + count_occ string_dec (map Api.a_requestId (filter Api.isFailure ids)) x
  = count_occ string_dec (map Api.a_requestId ids) x.
Proof.
  induction ids as [|r ids IH]; [reflexivity|].
  unfold Api.isSuccess, Api.isFailure in *. simpl.
  destruct (Api.a_success r); simpl;
    destruct (string_dec (Api.a_requestId r) x); lia.
Qed.

Section ApproveExtras.
Variable sb : Sandbox.
Variable parsePending : string -> Res (list Api.Device).

Lemma approveAll_after_list (env : MoltbotEnv) (h : History)
      (listProc : Process) (logs : ProcessLogs) (pending : list Api.Device) :
  let h1 := logged h EnsureGateway in
  let h2 := logged h1 (StartProcess (Api.listCommand env)) in
  let h3 := logged h2 (WaitForProcess listProc Api.CLI_TIMEOUT_MS) in
  let h4 := logged h3 (GetLogs listProc) in
  let out := orDefault (logStdout logs) "" in
  onEnsureGateway sb h = Ok tt ->
  onStartProcess sb h1 (Api.listCommand env) = Ok listProc ->
  onWaitForProcess sb h2 listProc Api.CLI_TIMEOUT_MS = Ok tt ->
  onGetLogs sb h3 listProc = Ok logs ->
  (Api.jsonMatch out = None /\ pending = []
   \/ exists text, Api.jsonMatch out = Some text
                   /\ parsePending text = Ok pending) ->
  Api.approveAll sb parsePending env h
  = match Api.approvePending sb env pending h4 with
    | (Ok answer, h') => (Ok answer, h')
    | (Thrown e, h') =>
        (Ok (Api.errorBody (messageOr "Unknown error" e) None, 500%Z), h')
    end.
Proof.
  intros h1 h2 h3 h4 out Hg Hs Hw Hl Hp.
  unfold Api.approveAll, tryCatch, bind at 1, ensureMoltbotGateway.
  rewrite Hg. fold h1. unfold bind at 1, startProcess. rewrite Hs.
  fold h2. unfold bind at 1, waitForProcess. rewrite Hw. fold h3.
  unfold bind at 1, getLogs. rewrite Hl. fold h4. fold out.
  destruct Hp as [[Hm ->]|(text & Hm & Hparse)]; rewrite Hm.
  - reflexivity.
  - now rewrite Hparse.
Qed.

(** X17.  When the list call yields a non-empty pending list, the
    answer of approve-all names every pending request exactly as often
    as the list does, each time either under [approved] or under
    [failed], never under both and never dropped; the message counts
    the approved ones out of all. *)
Theorem X17_approve_all_partitions_the_pending_list
        (env : MoltbotEnv) (h : History)
        (listProc : Process) (logs : ProcessLogs) (pending : list Api.Device) :
  let h1 := logged h EnsureGateway in
  let h2 := logged h1 (StartProcess (Api.listCommand env)) in
  let h3 := logged h2 (WaitForProcess listProc Api.CLI_TIMEOUT_MS) in
  let out := orDefault (logStdout logs) "" in
  onEnsureGateway sb h = Ok tt ->
  onStartProcess sb h1 (Api.listCommand env) = Ok listProc ->
  onWaitForProcess sb h2 listProc Api.CLI_TIMEOUT_MS = Ok tt ->
  onGetLogs sb h3 listProc = Ok logs ->
  (exists text, Api.jsonMatch out = Some text
                /\ parsePending text = Ok pending) ->
  pending <> [] ->
  exists approvedIds failedEntries h',
    Api.approveAll sb parsePending env h
    = (Ok (Api.mkApproveAll
             (Some approvedIds) (Some failedEntries)
             (Some ("Approved " ++ showNat (List.length approvedIds)
                      ++ " of " ++ showNat (List.length pending)
                      ++ " device(s)"))
             None None, 200%Z), h')
    /\ (forall r, In r failedEntries -> Api.a_success r = false)
    /\ forall id,
         count_occ string_dec approvedIds id
         + count_occ string_dec (map Api.a_requestId failedEntries) id
         = count_occ string_dec (map Api.requestId pending) id.
Proof.
  intros h1 h2 h3 out Hg Hs Hw Hl Hp Hne.
  rewrite (approveAll_after_list env h listProc logs pending
             Hg Hs Hw Hl (or_intror Hp)).
  destruct (approvePending_completes sb env pending
              (logged h3 (GetLogs listProc)))
    as (body & ext & E & _ & _ & B).
  destruct (B Hne) as (rs & Hids & ->).
  fold h1 h2 h3. rewrite E. unfold Api.batchBody.
  eexists; eexists; eexists. split.
  - rewrite length_map. reflexivity.
  - split.
    + intros r Hin. apply filter_In in Hin as [_ F].
      unfold Api.isFailure in F. now apply negb_true_iff in F.
    + intro id. rewrite count_split. now rewrite Hids.
Qed.

End ApproveExtras.

(** ** The device routes *)

Section DeviceRoutes.
Variable sb : Sandbox.

(** The gateway check and one CLI run, as the device routes make them:
    ensure the gateway, start the process, wait for it, read its logs.
    Either all four calls fulfil, or the run ends behind the first call
    that rejected. *)
Lemma cli_run_cases {A : Type} (command : string) (h : History)
      (k : Process -> ProcessLogs -> M A) (handler : Exn -> M A) :
  let h1 := logged h EnsureGateway in
  let h2 := logged h1 (StartProcess command) in
  let run :=
    tryCatch
      (ensureMoltbotGateway sb ;;;
       proc <- startProcess sb command ;;
       waitForProcess sb proc Api.CLI_TIMEOUT_MS ;;;
       logs <- getLogs sb proc ;;
       k proc logs)
      handler in
  (exists proc logs,
      let calls := [EnsureGateway; StartProcess command;
                    WaitForProcess proc Api.CLI_TIMEOUT_MS; GetLogs proc] in
      allFulfil sb h calls
      /\ onStartProcess sb h1 command = Ok proc
      /\ onGetLogs sb (logged h2 (WaitForProcess proc Api.CLI_TIMEOUT_MS)) proc
         = Ok logs
      /\ run h = tryCatch (k proc logs) handler (h ++ calls)%list)
  \/ (exists pre c e,
        allFulfil sb h pre
        /\ rejection sb (h ++ pre)%list c = Some e
        /\ ~ allFulfil sb h (pre ++ [c])%list
        /\ (startedCommands (pre ++ [c])%list = []
            \/ startedCommands (pre ++ [c])%list = [command])
        /\ run h = handler e (h ++ pre ++ [c])%list).
Proof.
  intros h1 h2 run. subst run h1 h2.
  unfold tryCatch, bind, ensureMoltbotGateway, startProcess, waitForProcess,
    getLogs, logged.
  cbn [allFulfil rejection]. unfold logged.
  rewrite <- ?app_assoc. cbn [app].
  destruct (onEnsureGateway sb h) as [[]|e] eqn:Eg.
  2:{ right. exists [], EnsureGateway, e. rewrite app_nil_r.
      cbn [app allFulfil rejection]. rewrite ?Eg.
      split; [exact I|]. split; [reflexivity|].
      split; [intros [D _]; discriminate D|]. split; [auto|reflexivity]. }
  destruct (onStartProcess sb (h ++ [EnsureGateway])%list command)
    as [proc|e] eqn:Es.
  2:{ right. exists [EnsureGateway], (StartProcess command), e.
      cbn [app allFulfil rejection]. unfold logged. rewrite ?Eg, ?Es.
      split; [auto|]. split; [reflexivity|].
      split; [intros (_ & D & _); discriminate D|].
      split; [auto|reflexivity]. }
  rewrite <- ?app_assoc. cbn [app].
  destruct (onWaitForProcess sb (h ++ [EnsureGateway; StartProcess command])%list
              proc Api.CLI_TIMEOUT_MS) as [[]|e] eqn:Ew.
  2:{ right. exists [EnsureGateway; StartProcess command],
        (WaitForProcess proc Api.CLI_TIMEOUT_MS), e.
      cbn [app allFulfil rejection]. unfold logged.
      rewrite <- ?app_assoc. cbn [app]. rewrite ?Eg, ?Es, ?Ew.
      split; [auto|]. split; [reflexivity|].
      split; [intros (_ & _ & D & _); discriminate D|].
      split; [auto|reflexivity]. }
  rewrite <- ?app_assoc. cbn [app].
  destruct (onGetLogs sb
              (h ++ [EnsureGateway; StartProcess command;
                     WaitForProcess proc Api.CLI_TIMEOUT_MS])%list proc)
    as [logs|e] eqn:El.
  2:{ right. exists [EnsureGateway; StartProcess command;
                     WaitForProcess proc Api.CLI_TIMEOUT_MS],
        (GetLogs proc), e.
      cbn [app allFulfil rejection]. unfold logged.
      rewrite <- ?app_assoc. cbn [app]. rewrite ?Eg, ?Es, ?Ew, ?El.
      split; [auto|]. split; [reflexivity|].
      split; [intros (_ & _ & _ & D & _); discriminate D|].
      split; [auto|reflexivity]. }
  left. exists proc, logs. cbv zeta.
  cbn [app allFulfil rejection]. unfold logged.
  rewrite <- ?app_assoc. cbn [app]. rewrite ?Eg, ?Es, ?Ew, ?El.
  split; [cbn; auto|]. split; [reflexivity|]. split; [reflexivity|].
  reflexivity.
Qed.

(** The single approve reads the logs as the approve-all loop does. *)
Lemma approved_in_stdout (o : option string) :
  includes "approved" (toLowerCase (orDefault o ""))
  = match o with
    | Some out => includes "approved" (toLowerCase out)
    | None => false
    end.
Proof. destruct o as [[|c out]|]; reflexivity. Qed.

(** X18.  The single-approve route never rejects.  An empty request id
    is answered 400 without any call.  Otherwise the answer is 200 or
    500.  It is 200 exactly when every call it made fulfilled: these are
    the gateway check, the start of the approve process with the very
    command the approve-all loop uses for that request, the wait for
    it and the read of its logs, and the answer echoes the request id
    and the logs and judges success as the approve-all loop does.  It is
    500 exactly when a call rejected: that call is the last one made,
    and the error sent is the rejection's message. *)
Theorem X18_single_approve_is_total
        (env : MoltbotEnv) (requestId : string) (h : History) :
  (requestId = "" ->
   Routes.approveOne sb env requestId h
   = (Ok (Routes.ApproveError "requestId is required", 400%Z), h))
  /\ (requestId <> "" ->
      exists reply status ext,
        Routes.approveOne sb env requestId h
        = (Ok (reply, status), (h ++ ext)%list)
        /\ (status = 200%Z \/ status = 500%Z)
        /\ (status = 200%Z <-> allFulfil sb h ext)
        /\ (status = 200%Z ->
            exists proc logs,
              ext = [EnsureGateway;
                     StartProcess
                       (Api.approveCommand env (Api.mkDevice requestId));
                     WaitForProcess proc Api.CLI_TIMEOUT_MS;
                     GetLogs proc]
              /\ onStartProcess sb (h ++ [EnsureGateway])%list
                    (Api.approveCommand env (Api.mkDevice requestId))
                 = Ok proc
              /\ onGetLogs sb
                    (h ++ [EnsureGateway;
                           StartProcess
                             (Api.approveCommand env (Api.mkDevice requestId));
                           WaitForProcess proc Api.CLI_TIMEOUT_MS])%list
                    proc
                 = Ok logs
              /\ let success :=
                   Api.approvalSucceeded
                     logs (exitCodeOf sb (h ++ ext)%list proc) in
                 reply = Routes.ApproveResult
                           success requestId
                           (if success then "Device approved"
                            else "Approval may have failed")
                           (orDefault (logStdout logs) "")
                           (orDefault (logStderr logs) ""))
        /\ (status = 500%Z ->
            exists pre c e,
              ext = (pre ++ [c])%list
              /\ allFulfil sb h pre
              /\ rejection sb (h ++ pre)%list c = Some e
              /\ reply = Routes.ApproveError (messageOr "Unknown error" e))
        /\ (startedCommands ext = []
            \/ startedCommands ext
               = [Api.approveCommand env (Api.mkDevice requestId)])).
Proof.
  split.
  - intro E. rewrite E. reflexivity.
  - intro Hid. apply truthyStr_true in Hid.
    unfold Routes.approveOne. rewrite Hid.
    change (negb true) with false. cbv iota.
    destruct (cli_run_cases
                (Routes.approveOneCommand env requestId) h
                (fun proc logs =>
                   code <- readExitCode sb proc ;;
                   let out := orDefault (logStdout logs) "" in
                   let err := orDefault (logStderr logs) "" in
                   let success :=
                     includes "approved" (toLowerCase out)
                     || match code with
                        | Some z => (z =? 0)%Z
                        | None => false
                        end in
                   ret (Routes.ApproveResult
                          success requestId
                          (if success then "Device approved"
                           else "Approval may have failed")
                          out err, 200%Z))
                (fun error =>
                   ret (Routes.ApproveError (messageOr "Unknown error" error),
                        500%Z)))
      as [(proc & logs & F & Hs & Hl & R)|(pre & c & e & F & Rj & N & St & R)];
      cbv zeta in F, R |- *.
    + eexists; exists 200%Z; eexists.
      split; [etransitivity; [exact R|reflexivity]|].
      split; [now left|]. split; [tauto|]. split; [|split].
      * intros _. exists proc, logs.
        split; [reflexivity|].
        unfold logged in Hs, Hl. rewrite <- ?app_assoc in Hl. cbn [app] in Hl.
        split; [exact Hs|]. split; [exact Hl|].
        cbv zeta. unfold Api.approvalSucceeded.
        now rewrite approved_in_stdout.
      * intro D. discriminate D.
      * right. reflexivity.
    + eexists; exists 500%Z; exists (pre ++ [c])%list.
      split; [etransitivity; [exact R|reflexivity]|].
      split; [now right|].
      split; [split; [intro D; discriminate D | intro A; now contradiction N]|].
      split; [intro D; discriminate D|]. split.
      * intros _. exists pre, c, e. now repeat split.
      * exact St.
Qed.

(** X19.  The device list route never rejects; its answer is 200 or
    500.  It is 200 exactly when every call it made fulfilled: these
    are the gateway check, the start of the list process, the wait for
    it and the read of its logs.  The body is then built from the
    stdout of those logs: the parsed value of the text between the
    first opening and the last closing brace when there is such a text
    and it parses, and otherwise the raw stdout and stderr, with a
    parse error exactly when such a text was found but did not parse.
    It is 500 exactly when a call rejected: that call is the last one
    made, and the error sent is the rejection's message. *)
Theorem X19_device_list_is_total
        {J : Type} (jsonParse : string -> Res J)
        (env : MoltbotEnv) (h : History) :
  exists reply status ext,
    Routes.listDevices sb jsonParse env h
    = (Ok (reply, status), (h ++ ext)%list)
    /\ (status = 200%Z \/ status = 500%Z)
    /\ (status = 200%Z <-> allFulfil sb h ext)
    /\ (status = 200%Z ->
        exists proc logs,
          ext = [EnsureGateway; StartProcess (Api.listCommand env);
                 WaitForProcess proc Api.CLI_TIMEOUT_MS; GetLogs proc]
          /\ onStartProcess sb (h ++ [EnsureGateway])%list
                (Api.listCommand env)
             = Ok proc
          /\ onGetLogs sb
                (h ++ [EnsureGateway; StartProcess (Api.listCommand env);
                       WaitForProcess proc Api.CLI_TIMEOUT_MS])%list
                proc
             = Ok logs
          /\ let out := orDefault (logStdout logs) "" in
             let err := orDefault (logStderr logs) "" in
             match reply with
             | Routes.DevicesData data =>
                 exists text, Api.jsonMatch out = Some text
                              /\ jsonParse text = Ok data
             | Routes.DevicesRaw rawOut errOut parseError =>
                 rawOut = out /\ errOut = err
                 /\ (parseError = None <-> Api.jsonMatch out = None)
                 /\ (forall text,
                       Api.jsonMatch out = Some text ->
                       parseError = Some "Failed to parse CLI output"
                       /\ exists e, jsonParse text = Thrown e)
             | Routes.DevicesError _ => False
             end)
    /\ (status = 500%Z ->
        exists pre c e,
          ext = (pre ++ [c])%list
          /\ allFulfil sb h pre
          /\ rejection sb (h ++ pre)%list c = Some e
          /\ reply = Routes.DevicesError (messageOr "Unknown error" e)).
Proof.
  unfold Routes.listDevices.
  destruct (cli_run_cases
              (Api.listCommand env) h
              (fun (_ : Process) logs =>
                 let out := orDefault (logStdout logs) "" in
                 let err := orDefault (logStderr logs) "" in
                 match Api.jsonMatch out with
                 | Some text =>
                     match jsonParse text with
                     | Ok data => ret (Routes.DevicesData data, 200%Z)
                     | Thrown _ =>
                         ret (Routes.DevicesRaw
                                out err (Some "Failed to parse CLI output"),
                              200%Z)
                     end
                 | None => ret (Routes.DevicesRaw out err None, 200%Z)
                 end)
              (fun error =>
                 ret (Routes.DevicesError (messageOr "Unknown error" error),
                      500%Z)))
    as [(proc & logs & F & Hs & Hl & R)|(pre & c & e & F & Rj & N & St & R)];
    cbv zeta in F, R |- *.
  - unfold logged in Hs, Hl. rewrite <- ?app_assoc in Hl. cbn [app] in Hl.
    assert (Shape :
      forall reply,
        (let out := orDefault (logStdout logs) "" in
         let err := orDefault (logStderr logs) "" in
         match reply with
         | Routes.DevicesData data =>
             exists text, Api.jsonMatch out = Some text
                          /\ jsonParse text = Ok data
         | Routes.DevicesRaw rawOut errOut parseError =>
             rawOut = out /\ errOut = err
             /\ (parseError = None <-> Api.jsonMatch out = None)
             /\ (forall text,
                   Api.jsonMatch out = Some text ->
                   parseError = Some "Failed to parse CLI output"
                   /\ exists e, jsonParse text = Thrown e)
         | Routes.DevicesError _ => False
         end) ->
        exists status ext,
          (Ok (reply, 200%Z),
           (h ++ [EnsureGateway; StartProcess (Api.listCommand env);
                  WaitForProcess proc Api.CLI_TIMEOUT_MS; GetLogs proc])%list)
          = (Ok (reply, status), (h ++ ext)%list)
          /\ (status = 200%Z \/ status = 500%Z)
          /\ (status = 200%Z <-> allFulfil sb h ext)
          /\ (status = 200%Z ->
              exists proc0 logs0,
                ext = [EnsureGateway; StartProcess (Api.listCommand env);
                       WaitForProcess proc0 Api.CLI_TIMEOUT_MS; GetLogs proc0]
                /\ onStartProcess sb (h ++ [EnsureGateway])%list
                      (Api.listCommand env)
                   = Ok proc0
                /\ onGetLogs sb
                      (h ++ [EnsureGateway; StartProcess (Api.listCommand env);
                             WaitForProcess proc0 Api.CLI_TIMEOUT_MS])%list
                      proc0
                   = Ok logs0
                /\ let out := orDefault (logStdout logs0) "" in
                   let err := orDefault (logStderr logs0) "" in
                   match reply with
                   | Routes.DevicesData data =>
                       exists text, Api.jsonMatch out = Some text
                                    /\ jsonParse text = Ok data
                   | Routes.DevicesRaw rawOut errOut parseError =>
                       rawOut = out /\ errOut = err
                       /\ (parseError = None <-> Api.jsonMatch out = None)
                       /\ (forall text,
                             Api.jsonMatch out = Some text ->
                             parseError = Some "Failed to parse CLI output"
                             /\ exists e, jsonParse text = Thrown e)
                   | Routes.DevicesError _ => False
                   end)
          /\ (status = 500%Z ->
              exists pre c e,
                ext = (pre ++ [c])%list
                /\ allFulfil sb h pre
                /\ rejection sb (h ++ pre)%list c = Some e
                /\ reply = Routes.DevicesError (messageOr "Unknown error" e))).
    { intros reply Hreply. exists 200%Z; eexists.
      split; [reflexivity|]. split; [now left|]. split; [tauto|].
      split; [|intro D; discriminate D].
      intros _. exists proc, logs. now repeat split. }
    destruct (Api.jsonMatch (orDefault (logStdout logs) "")) as [text|] eqn:Jm.
    + destruct (jsonParse text) as [data|e] eqn:P.
      * destruct (Shape (Routes.DevicesData data)) as (status & ext & E & Rest).
        { cbv zeta. rewrite Jm. eauto. }
        exists (Routes.DevicesData data), status, ext.
        split; [|exact Rest].
        etransitivity; [exact R|]. unfold tryCatch. cbv beta zeta.
        rewrite ?Jm, ?P. exact E.
      * destruct (Shape (Routes.DevicesRaw
                           (orDefault (logStdout logs) "")
                           (orDefault (logStderr logs) "")
                           (Some "Failed to parse CLI output")))
          as (status & ext & E & Rest).
        { cbv zeta. rewrite Jm. split; [reflexivity|]. split; [reflexivity|].
          split; [split; discriminate|].
          intros t Ht. inversion Ht; subst. eauto. }
        exists (Routes.DevicesRaw (orDefault (logStdout logs) "")
                                  (orDefault (logStderr logs) "")
                                  (Some "Failed to parse CLI output")),
          status, ext.
        split; [|exact Rest].
        etransitivity; [exact R|]. unfold tryCatch. cbv beta zeta.
        rewrite ?Jm, ?P. exact E.
    + destruct (Shape (Routes.DevicesRaw
                         (orDefault (logStdout logs) "")
                         (orDefault (logStderr logs) "") None))
        as (status & ext & E & Rest).
      { cbv zeta. rewrite Jm. split; [reflexivity|]. split; [reflexivity|].
        split; [tauto|]. intros t Ht. discriminate Ht. }
      exists (Routes.DevicesRaw (orDefault (logStdout logs) "")
                                (orDefault (logStderr logs) "") None),
        status, ext.
      split; [|exact Rest].
      etransitivity; [exact R|]. unfold tryCatch. cbv beta zeta.
      rewrite ?Jm. exact E.
  - eexists; exists 500%Z; exists (pre ++ [c])%list.
    split; [etransitivity; [exact R|reflexivity]|].
    split; [now right|].
    split; [split; [intro D; discriminate D | intro A; now contradiction N]|].
    split; [intro D; discriminate D|].
    intros _. exists pre, c, e. now repeat split.
Qed.

End DeviceRoutes.

(** ** The version check of the update route *)

Lemma join_split (sep : ascii) (s : string) :
  join (String sep "") (split sep s) = s.
Proof.
  induction s as [|c s IH]; [reflexivity|].
  change (split sep (String c s))
    with (if Ascii.eqb c sep then EmptyString :: split sep s
          else match split sep s with
               | x :: xs => String c x :: xs
               | [] => [String c EmptyString]
               end).
  destruct (Ascii.eqb_spec c sep) as [->|N].
  - destruct (split sep s) as [|x xs] eqn:E.
    + destruct s; simpl in E; [discriminate|].
      destruct (Ascii.eqb a sep); [discriminate|].
      destruct (split sep s); discriminate.
    + change (join (String sep "") ("" :: x :: xs))
        with (String sep (join (String sep "") (x :: xs))).
      now rewrite IH.
  - destruct (split sep s) as [|x xs] eqn:E.
    + destruct s; simpl in E; [discriminate|].
      destruct (Ascii.eqb a sep); [discriminate|].
      destruct (split sep s); discriminate.
    + rewrite <- IH. destruct xs; reflexivity.
Qed.

Lemma digitRun_no_dot (s : string) :
  forallb Routes.isDigit (list_ascii_of_string s) = true ->
  countChar "." s = 0.
Proof.
  induction s as [|c s IH]; [reflexivity|]. simpl. intro H.
  apply andb_true_iff in H as [Hc H]. rewrite (IH H).
  destruct (Ascii.eqb_spec c "."); [subst; discriminate Hc | reflexivity].
Qed.

Lemma digitRun_digits (s : string) :
  Routes.digitRun s = true ->
  s <> "" /\ forallb Routes.isDigit (list_ascii_of_string s) = true.
Proof.
  unfold Routes.digitRun. intro H. apply andb_true_iff in H as [N D].
  split; [|exact D]. apply negb_true_iff in N.
  intro E. subst. discriminate N.
Qed.

Lemma forallb_append (p : ascii -> bool) (a b : string) :
  forallb p (list_ascii_of_string (a ++ b))
  = forallb p (list_ascii_of_string a) && forallb p (list_ascii_of_string b).
Proof.
  induction a as [|c a IH]; [reflexivity|]. simpl. rewrite IH.
  now rewrite andb_assoc.
Qed.

(** X20.  The update route accepts a version exactly when, after
    trimming, it is three non-empty runs of decimal digits joined by two
    dots, and rejects everything else with 400.  An accepted version
    therefore holds digits and dots only, so the install command built
    from it carries no white space or shell syntax. *)
Theorem X20_update_accepts_only_dotted_digits (bodyVersion : option string) :
  (forall version,
      Routes.checkVersion bodyVersion = Routes.VersionAccepted version ->
      trimOpt bodyVersion = Some version
      /\ (exists a b c,
             version = a ++ "." ++ b ++ "." ++ c
             /\ Routes.digitRun a = true /\ Routes.digitRun b = true
             /\ Routes.digitRun c = true)
      /\ forallb (fun ch => Routes.isDigit ch || Ascii.eqb ch ".")
                 (list_ascii_of_string version) = true)
  /\ (forall a b c,
         Routes.digitRun a = true -> Routes.digitRun b = true ->
         Routes.digitRun c = true ->
         trimOpt bodyVersion = Some (a ++ "." ++ b ++ "." ++ c) ->
         Routes.checkVersion bodyVersion
         = Routes.VersionAccepted (a ++ "." ++ b ++ "." ++ c))
  /\ (forall error status,
         Routes.checkVersion bodyVersion = Routes.VersionRejected error status ->
         status = 400%Z).
Proof.
  unfold Routes.checkVersion. split; [|split].
  - intros version.
    destruct (trimOpt bodyVersion) as [v|]; [|discriminate].
    destruct (truthyStr v); simpl; [|discriminate].
    destruct (Routes.matchesVersion v) eqn:Mv; simpl; [|discriminate].
    intro E. inversion E. subst v. split; [reflexivity|].
    unfold Routes.matchesVersion in Mv.
    pose proof (join_split "." version) as J.
    destruct (split "." version) as [|a [|b [|c [|d rest]]]];
      try discriminate Mv.
    apply andb_true_iff in Mv as [Mv Hc].
    apply andb_true_iff in Mv as [Ha Hb].
    assert (Shape : version = a ++ "." ++ b ++ "." ++ c)
      by (rewrite <- J; reflexivity).
    split; [now exists a, b, c|].
    rewrite Shape, !forallb_append.
    assert (W : forall s, Routes.digitRun s = true ->
                          forallb (fun ch => Routes.isDigit ch || Ascii.eqb ch ".")
                                  (list_ascii_of_string s) = true).
    { intros s Hs. apply digitRun_digits in Hs as [_ Hs].
      rewrite forallb_forall in *. intros x Hx.
      now rewrite (Hs x Hx). }
    now rewrite (W a Ha), (W b Hb), (W c Hc).
  - intros a b c Ha Hb Hc ->.
    destruct (digitRun_digits a Ha) as [Na Da].
    destruct (digitRun_digits b Hb) as [Nb Db].
    destruct (digitRun_digits c Hc) as [Nc Dc].
    assert (T : truthyStr (a ++ "." ++ b ++ "." ++ c) = true).
    { apply truthyStr_true. destruct a; [now contradiction Na | discriminate]. }
    rewrite T. change (negb true) with false. cbv iota.
    assert (Mv : Routes.matchesVersion (a ++ "." ++ b ++ "." ++ c) = true).
    { unfold Routes.matchesVersion.
      rewrite (split_line "." a _ (digitRun_no_dot a Da)).
      rewrite (split_line "." b _ (digitRun_no_dot b Db)).
      rewrite (split_single "." c (digitRun_no_dot c Dc)).
      now rewrite Ha, Hb, Hc. }
    now rewrite Mv.
  - intros error status.
    destruct (trimOpt bodyVersion) as [v|];
      [|intro E; now inversion E].
    destruct (truthyStr v); simpl; [|intro E; now inversion E].
    destruct (Routes.matchesVersion v); simpl; [discriminate|].
    intro E. now inversion E.
Qed.

(** ** Elapsed time on the admin page *)

Lemma showZ_nonneg (z : Z) : (0 <= z)%Z -> Ui.showZ z = showNat (Z.to_nat z).
Proof.
  intro H. unfold Ui.showZ. destruct (Z.ltb_spec z 0); [lia | reflexivity].
Qed.

(** X21.  For a current time and a timestamp that are safe integers
    with a safe difference, [formatTimeAgo] shows whole seconds below a
    minute, whole minutes below an hour, whole hours below a day and
    whole days from then on: the number shown is the elapsed time
    divided by the unit, rounded down, and lies in 1..59 for minutes,
    1..23 for hours and from 1 up for days.  A timestamp in the future
    is shown as a negative number of seconds. *)
Theorem X21_formatTimeAgo_picks_the_largest_unit (now ts : Z) :
  Ui.isSafeInteger now = true ->
  Ui.isSafeInteger ts = true ->
  Ui.isSafeInteger (now - ts) = true ->
  let elapsed := ((now - ts) / 1000)%Z in
  ((elapsed < 60)%Z ->
   Ui.formatTimeAgo now ts = Some (Ui.showZ elapsed ++ "s ago"))
  /\ ((60 <= elapsed < 3600)%Z ->
      Ui.formatTimeAgo now ts = Some (Ui.showZ (elapsed / 60) ++ "m ago")
      /\ (1 <= elapsed / 60 < 60)%Z)
  /\ ((3600 <= elapsed < 86400)%Z ->
      Ui.formatTimeAgo now ts = Some (Ui.showZ (elapsed / 3600) ++ "h ago")
      /\ (1 <= elapsed / 3600 < 24)%Z)
  /\ ((86400 <= elapsed)%Z ->
      Ui.formatTimeAgo now ts = Some (Ui.showZ (elapsed / 86400) ++ "d ago")
      /\ (1 <= elapsed / 86400)%Z)
  /\ ((now < ts)%Z ->
      (elapsed < 0)%Z
      /\ exists n, Ui.formatTimeAgo now ts
                   = Some ("-" ++ showNat n ++ "s ago")
                   /\ (0 < n)%nat).
Proof.
  intros Sn St Sd elapsed. unfold Ui.formatTimeAgo. rewrite Sn, St, Sd.
  cbn [andb]. fold elapsed.
  assert (H1 : (elapsed / 60 / 60 = elapsed / 3600)%Z)
    by (rewrite Z.div_div by lia; reflexivity).
  assert (H2 : (elapsed / 60 / 60 / 24 = elapsed / 86400)%Z)
    by (rewrite !Z.div_div by lia; reflexivity).
  rewrite H2, H1.
  split; [|split; [|split; [|split]]].
  - intro L. destruct (Z.ltb_spec elapsed 60); [reflexivity | lia].
  - intros [L U]. destruct (Z.ltb_spec elapsed 60); [lia|].
    assert (B : (1 <= elapsed / 60 < 60)%Z).
    { split; [apply Z.div_le_lower_bound; lia
             | apply Z.div_lt_upper_bound; lia]. }
    destruct (Z.ltb_spec (elapsed / 60) 60); [now split | lia].
  - intros [L U]. destruct (Z.ltb_spec elapsed 60); [lia|].
    assert (M : (60 <= elapsed / 60)%Z)
      by (apply Z.div_le_lower_bound; lia).
    destruct (Z.ltb_spec (elapsed / 60) 60); [lia|].
    assert (B : (1 <= elapsed / 3600 < 24)%Z).
    { split; [apply Z.div_le_lower_bound; lia
             | apply Z.div_lt_upper_bound; lia]. }
    destruct (Z.ltb_spec (elapsed / 3600) 24); [now split | lia].
  - intro L. destruct (Z.ltb_spec elapsed 60); [lia|].
    assert (M : (60 <= elapsed / 60)%Z)
      by (apply Z.div_le_lower_bound; lia).
    destruct (Z.ltb_spec (elapsed / 60) 60); [lia|].
    assert (Hh : (24 <= elapsed / 3600)%Z)
      by (apply Z.div_le_lower_bound; lia).
    destruct (Z.ltb_spec (elapsed / 3600) 24); [lia|].
    split; [reflexivity|]. apply Z.div_le_lower_bound; lia.
  - intro F.
    assert (Neg : (elapsed < 0)%Z)
      by (subst elapsed; apply Z.div_lt_upper_bound; lia).
    split; [exact Neg|].
    destruct (Z.ltb_spec elapsed 60); [|lia].
    exists (Z.to_nat (- elapsed)). unfold Ui.showZ.
    destruct (Z.ltb_spec elapsed 0); [|lia].
    split; [reflexivity | lia].
Qed.

(** ** The wizard's step index *)

(** X22.  Whatever sequence of Next, Back and direct jumps is applied,
    starting from a valid step, the wizard's step index stays within
    the six steps; Next at the last step and Back at the first change
    nothing, and a jump to a valid step lands on it. *)
Theorem X22_wizard_step_stays_in_range (actions : list Ui.Action) (start : Z) :
  (0 <= start <= 5)%Z ->
  (0 <= fold_left Ui.act actions start <= 5)%Z
  /\ Ui.next 5 = 5%Z /\ Ui.prev 0 = 0%Z
  /\ forall index, (0 <= index <= 5)%Z -> Ui.goTo index = index.
Proof.
  intro H. split; [|split; [reflexivity|split; [reflexivity|]]].
  - revert start H. induction actions as [|a actions IH]; intros start H.
    + exact H.
    + simpl. apply IH.
      destruct a; unfold Ui.act, Ui.next, Ui.prev, Ui.goTo, Ui.STEPS_length;
        lia.
  - intros index Hi. unfold Ui.goTo, Ui.STEPS_length. lia.
Qed.

(** ** The generated gateway token *)

Lemma append_empty (s : string) : s ++ "" = s.
Proof. induction s as [|c s IH]; [reflexivity|]. simpl. now rewrite IH. Qed.

Lemma join_empty_cons (p : string) (rest : list string) :
  join "" (p :: rest) = p ++ join "" rest.
Proof. destruct rest; [now rewrite append_empty | reflexivity]. Qed.

Lemma byteToHex_shape (b : Byte.byte) :
  exists hi lo,
    Ui.byteToHex b = String hi (String lo EmptyString)
    /\ isHexDigit hi = true /\ isHexDigit lo = true
    /\ isWhite hi = false /\ isWhite lo = false
    /\ Byte.of_nat (16 * hexValue hi + hexValue lo) = Some b.
Proof.
  destruct b; eexists; eexists; (split; [reflexivity|]);
    repeat split; reflexivity.
Qed.

Lemma dropWhite_id (l : list ascii) :
  (forall c, In c l -> isWhite c = false) -> dropWhite l = l.
Proof.
  destruct l as [|c l]; [reflexivity|]. intro H. simpl.
  now rewrite (H c (or_introl eq_refl)).
Qed.

Lemma trim_id (s : string) :
  (forall c, In c (list_ascii_of_string s) -> isWhite c = false) ->
  trim s = s.
Proof.
  intro H. unfold trim. rewrite (dropWhite_id _ H).
  rewrite dropWhite_id.
  - now rewrite rev_involutive, string_of_list_ascii_of_string.
  - intros c Hc. apply H. now apply in_rev.
Qed.

Lemma randomHex32_facts (bytes : list Byte.byte) :
  String.length (Ui.randomHex32 bytes) = 2 * List.length bytes
  /\ decodeHex (Ui.randomHex32 bytes) = bytes
  /\ (forall c, In c (list_ascii_of_string (Ui.randomHex32 bytes)) ->
                isHexDigit c = true /\ isWhite c = false).
Proof.
  unfold Ui.randomHex32. induction bytes as [|b bytes (L & D & C)].
  - split; [reflexivity|]. split; [reflexivity|]. intros ch [].
  - simpl map. rewrite join_empty_cons.
    destruct (byteToHex_shape b) as (hi & lo & -> & Hh & Hl & Wh & Wl & V).
    split; [|split].
    + simpl String.length. simpl List.length. lia.
    + change (String hi (String lo "") ++ join "" (map Ui.byteToHex bytes))
        with (String hi (String lo (join "" (map Ui.byteToHex bytes)))).
      change (decodeHex (String hi (String lo ?r)))
        with (match Byte.of_nat (16 * hexValue hi + hexValue lo) with
              | Some x => x :: decodeHex r
              | None => decodeHex r
              end).
      now rewrite V, D.
    + intros c Hc. simpl in Hc. destruct Hc as [<-|[<-|Hc]]; auto.
Qed.

(** X23.  The generated gateway token has two lower-case hexadecimal
    digits per random byte, decodes back to exactly those bytes (so
    different byte arrays give different tokens), is unchanged by
    trimming, and for the 32 bytes the wizard draws has 64 characters,
    which passes the wizard's own minimum-length test. *)
Theorem X23_generated_token_is_64_hex_digits (bytes : list Byte.byte) :
  String.length (Ui.randomHex32 bytes) = 2 * List.length bytes
  /\ forallb isHexDigit (list_ascii_of_string (Ui.randomHex32 bytes)) = true
  /\ decodeHex (Ui.randomHex32 bytes) = bytes
  /\ trim (Ui.randomHex32 bytes) = Ui.randomHex32 bytes
  /\ (List.length bytes = 32 ->
      String.length (Ui.randomHex32 bytes) = 64
      /\ Ui.hasToken (Ui.randomHex32 bytes) = true).
Proof.
  destruct (randomHex32_facts bytes) as (L & D & C).
  assert (T : trim (Ui.randomHex32 bytes) = Ui.randomHex32 bytes)
    by (apply trim_id; intros c Hc; now apply C).
  split; [exact L|]. split.
  - apply forallb_forall. intros c Hc. now apply C.
  - split; [exact D|]. split; [exact T|].
    intro N. split; [lia|]. unfold Ui.hasToken. rewrite T, L, N. reflexivity.
Qed.

(** ** Instances of the further properties *)

Section ExtraInstances.
Import Examples.

Lemma X8_witness :
  Sync.hasR2Config r2Env = true
  /\ exists dir h1,
       Sync.detectConfigDir (syncSandbox (Ok (okExec ""))) []
       = (Ok (Some dir), h1).
Proof.
  destruct (X8_sync_transfers_at_most_three_times
              (syncSandbox (Ok (okExec ""))) r2Env []) as (_ & _ & W).
  apply W. left. vm_compute. discriminate.
Defined.

Lemma X9_witness :
  Sync.hasR2Config r2Env = true.
Proof.
  destruct (X9_stamp_requires_successful_config_sync
              (syncSandbox (Ok (okExec ""))) r2Env []) as (C & _).
  - vm_compute. discriminate.
  - exact C.
Defined.


Lemma X11_witness :
  exists body,
    Routes.storageSync healthySandbox emptyEnv [] = (Ok (body, 400%Z), [])
    /\ Routes.sr_error body = Some "R2 storage is not configured".
Proof.
  destruct (X11_sync_route_status
              healthySandbox emptyEnv [] []
              (Ok (Sync.mkSync false None
                     (Some "R2 storage is not configured") None))
              eq_refl)
    as (body & status & E & _ & _ & S400 & _ & _ & B & _).
  exists body. rewrite E, (B eq_refl).
  replace status with 400%Z by (symmetry; apply S400; reflexivity).
  split; reflexivity.
Defined.

Lemma X12_witness :
  Sync.configFailureDetails
    (mkRclone "Transferred: 0 B" "Failed to copy: AccessDenied" false 1%Z)
  = "Failed to copy: AccessDenied" ++ NL ++ "---" ++ NL ++ "Transferred: 0 B".
Proof.
  destruct (X12_failure_details_are_a_bounded_tail
              (mkRclone "Transferred: 0 B" "Failed to copy: AccessDenied"
                        false 1%Z)) as (_ & _ & _ & _ & T).
  destruct T as (_ & Whole); [discriminate|].
  apply Whole. vm_compute. lia.
Defined.

Lemma X13_witness :
  exists body h',
    Routes.storageStatus healthySandbox emptyEnv [] = (Ok body, h')
    /\ h' = [] /\ Routes.lastSync body = None.
Proof.
  destruct (X13_storage_status_is_total healthySandbox emptyEnv [])
    as (body & h' & E & C & _ & _ & _ & Off & _).
  exists body, h'. split; [exact E|]. apply Off. rewrite C. reflexivity.
Defined.

Lemma X14_witness :
  Api.storageTest healthySandbox
    (mkEnv None None None None None None
           (Some "key") (Some "   ") (Some "account") None) []
  = (Ok (Api.probeBody
           (mkEnv None None None None None None
                  (Some "key") (Some "   ") (Some "account") None)
           notConfiguredResult),
     [Sleep 1500]).
Proof.
  destruct (X14_blank_secret_passes_the_route_checks
              healthySandbox
              (mkEnv None None None None None None
                     (Some "key") (Some "   ") (Some "account") None) [])
    as (_ & B).
  destruct (B eq_refl eq_refl) as (_ & P & _). exact P.
Defined.

Lemma X15_witness :
  Api.jsonMatch ("gateway: connected" ++ NL ++ "{" ++ dq ++ "pending" ++ dq
                   ++ ":[]" ++ "}" ++ NL ++ "done")
  = Some ("{" ++ dq ++ "pending" ++ dq ++ ":[]" ++ "}").
Proof.
  destruct (X15_jsonMatch_extracts_the_object
              ("gateway: connected" ++ NL)
              (dq ++ "pending" ++ dq ++ ":[]")
              (NL ++ "done")) as (M & _).
  exact (M eq_refl eq_refl).
Defined.

Lemma X16_witness :
  Api.approvalSucceeded (mkLogs (Some "Device APPROVED by operator") None)
                        (Some 1%Z) = true.
Proof.
  destruct (X16_approval_success_criterion
              (mkLogs (Some "Device APPROVED by operator") None) (Some 1%Z))
    as (_ & W & _).
  apply (W "Device " "APPROVED" " by operator"); reflexivity.
Defined.

Lemma X17_witness :
  exists approvedIds failedEntries h',
    fst (Api.approveAll brokenCliSandbox parseThree emptyEnv [])
    = Ok (Api.mkApproveAll (Some approvedIds) (Some failedEntries)
            (Some ("Approved " ++ showNat (List.length approvedIds)
                     ++ " of 3 device(s)")) None None, 200%Z)
    /\ h' = snd (Api.approveAll brokenCliSandbox parseThree emptyEnv [])
    /\ count_occ string_dec approvedIds "req-2"
       + count_occ string_dec (map Api.a_requestId failedEntries) "req-2" = 1.
Proof.
  destruct (X17_approve_all_partitions_the_pending_list
              brokenCliSandbox parseThree emptyEnv []
              (mkProcess "list") (mkLogs (Some "{}") None) threePending
              eq_refl eq_refl eq_refl eq_refl
              (ex_intro _ "{}" (conj eq_refl eq_refl))
              ltac:(discriminate))
    as (a & f & h' & E & _ & P).
  exists a, f, h'. rewrite E. repeat split. apply (P "req-2").
Defined.

Lemma X18_witness :
  exists reply ext,
    Routes.approveOne healthySandbox emptyEnv "req-1" []
    = (Ok (reply, 200%Z), ext)
    /\ allFulfil healthySandbox [] ext.
Proof.
  destruct (X18_single_approve_is_total healthySandbox emptyEnv "req-1" [])
    as [_ A].
  destruct A as (reply & status & ext & E & _ & Iff & _);
    [intro C; discriminate C|].
  assert (S : status = 200%Z).
  { pose proof E as E'. vm_compute in E'. now inversion E'. }
  subst status. exists reply, ext. split; [exact E|]. now apply Iff.
Defined.

Lemma X19_witness :
  exists reply ext,
    Routes.listDevices healthySandbox
      (fun _ : string => Thrown (A := unit) OtherThrown) emptyEnv []
    = (Ok (reply, 200%Z), ext)
    /\ allFulfil healthySandbox [] ext.
Proof.
  destruct (X19_device_list_is_total healthySandbox
              (fun _ : string => Thrown (A := unit) OtherThrown) emptyEnv [])
    as (reply & status & ext & E & _ & Iff & _).
  assert (S : status = 200%Z).
  { pose proof E as E'. vm_compute in E'. now inversion E'. }
  subst status. exists reply, ext. split; [exact E|]. now apply Iff.
Defined.

Lemma X20_witness :
  Routes.checkVersion (Some " 2026.2.12 ")
  = Routes.VersionAccepted "2026.2.12".
Proof.
  destruct (X20_update_accepts_only_dotted_digits (Some " 2026.2.12 "))
    as (_ & A & _).
  apply (A "2026" "2" "12"); reflexivity.
Defined.

Lemma X21_witness :
  Ui.formatTimeAgo 1770000000000 1769992500000 = Some "2h ago".
Proof.
  destruct (X21_formatTimeAgo_picks_the_largest_unit
              1770000000000 1769992500000 eq_refl eq_refl eq_refl)
    as (_ & _ & H & _).
  destruct H as [E _];
    [vm_compute; split; [intro C; discriminate C | reflexivity]|].
  rewrite E. reflexivity.
Defined.

Lemma X22_witness :
  (0 <= fold_left Ui.act [Ui.Next; Ui.GoTo 9; Ui.Next; Ui.Prev; Ui.GoTo (-3)]
                  0 <= 5)%Z.
Proof.
  destruct (X22_wizard_step_stays_in_range
              [Ui.Next; Ui.GoTo 9; Ui.Next; Ui.Prev; Ui.GoTo (-3)] 0)
    as (R & _); [lia|exact R].
Defined.

Lemma X23_witness :
  Ui.hasToken (Ui.randomHex32 (repeat Byte.x00 32)) = true.
Proof.
  destruct (X23_generated_token_is_64_hex_digits (repeat Byte.x00 32))
    as (_ & _ & _ & _ & H).
  destruct (H eq_refl) as [_ T]. exact T.
Defined.

End ExtraInstances.

(** ** What the probe's answer discloses *)

Lemma substring_length (s : string) :
  forall n m, String.length (substring n m s) = Nat.min m (String.length s - n).
Proof.
  induction s as [|c s IH]; intros n m.
  - destruct n, m; reflexivity.
  - destruct n as [|n].
    + destruct m as [|m]; [reflexivity|]. simpl. rewrite IH.
      now rewrite Nat.sub_0_r.
    + simpl. apply IH.
Qed.

(** X24.  The probe's answer depends on the environment only through
    the bucket name, the access key id and the account id: changing the
    secret access key (or any other variable) changes nothing in it.
    Of the access key it shows the first four and last four code units
    around "..." when the key has at least eight, which for a key of
    exactly eight is the whole key, and a fixed text for shorter keys;
    the [output] field holds at most 2000 code units. *)
Theorem X24_probe_answer_hides_the_secret_key
        (env env' : MoltbotEnv) (result : RcloneResult) :
  (R2_BUCKET_NAME env = R2_BUCKET_NAME env' ->
   R2_ACCESS_KEY_ID env = R2_ACCESS_KEY_ID env' ->
   CF_ACCOUNT_ID env = CF_ACCOUNT_ID env' ->
   Api.probeBody env result = Api.probeBody env' result)
  /\ (forall key,
         8 <= String.length key ->
         Api.keyPreview key = sliceFirst 4 key ++ "..." ++ sliceLast 4 key
         /\ String.length (Api.keyPreview key) = 11)
  /\ (forall key,
         String.length key = 8 -> sliceFirst 4 key ++ sliceLast 4 key = key)
  /\ (forall key,
         String.length key < 8 ->
         Api.keyPreview key = "(too short)" \/ Api.keyPreview key = "(not set)")
  /\ (forall ok bucket out err output code diagnostics,
         Api.probeBody env result
         = Api.Probed ok bucket out err output code diagnostics ->
         String.length output <= 2000 /\ ok = r_success result).
Proof.
  split; [|split; [|split; [|split]]].
  - intros Hb Ha Hc. unfold Api.probeBody, getR2BucketName.
    now rewrite Hb, Ha, Hc.
  - intros key L. unfold Api.keyPreview.
    destruct (Nat.leb_spec 8 (String.length key)); [|lia].
    split; [reflexivity|].
    rewrite !append_length. unfold sliceFirst, sliceLast.
    rewrite !substring_length. simpl String.length. lia.
  - intros key L. unfold sliceFirst, sliceLast. rewrite L.
    change (8 - 4) with 4.
    pose proof (substring_split key 4 ltac:(lia)) as S.
    rewrite L in S. now symmetry.
  - intros key L. unfold Api.keyPreview.
    destruct (Nat.leb_spec 8 (String.length key)); [lia|].
    destruct (truthyStr key); auto.
  - intros ok bucket out err output code diagnostics E.
    unfold Api.probeBody in E. inversion E. split; [|reflexivity].
    apply sliceLast_length.
Qed.

Section ProbeAnswerInstances.
Import Examples.

Lemma X24_witness :
  Api.probeBody r2Env notConfiguredResult
  = Api.probeBody
      (mkEnv None None None None None None
             (Some "0123456789abcdef") (Some "another-secret")
             (Some " acct42 ") None)
      notConfiguredResult
  /\ Api.keyPreview "0123456789abcdef" = "0123...cdef".
Proof.
  destruct (X24_probe_answer_hides_the_secret_key
              r2Env
              (mkEnv None None None None None None
                     (Some "0123456789abcdef") (Some "another-secret")
                     (Some " acct42 ") None)
              notConfiguredResult) as (Same & Shape & _).
  split; [apply Same; reflexivity|].
  destruct (Shape "0123456789abcdef") as [E _]; [vm_compute; lia|].
  rewrite E. reflexivity.
Defined.

End ProbeAnswerInstances.
